(** * Freshmart: coupon, discount and pricing engine

    A shallow embedding of the cart page (the [Cart] React component with
    its [useMemo] totals, coupon handlers and auto-apply effect) and of the
    Express server's order and coupon routes, together with the properties
    the specification states about them.

    Modelling conventions.
    - A JavaScript [number] that carries money is a rational [Q]: [+], [-],
      [*] and the comparisons are exact.  IEEE-754 rounding of the
      individual operations is not modelled; [toFixed(2)] is modelled as
      rounding to the nearest hundredth, ties away from zero.
    - Quantities and bundle sizes are integers ([Z]); [Math.floor(a / b)]
      is [Z.div] and [a % b] is [Z.rem] (the sign follows the dividend).
    - Strings are [string]; [trim], [toLowerCase] and [toUpperCase] act on
      the ASCII range.
    - [undefined]/[null] is [None]; truthiness of a string-valued field is
      [truthy]. *)

From Stdlib Require Import ZArith QArith Qround Qabs Qminmax List String Ascii Bool Lia Lqa.
From Stdlib Require Import Sorted.
Import ListNotations.
Open Scope string_scope.
Open Scope list_scope.
Open Scope Q_scope.

(* ------------------------------------------------------------------ *)
(** ** JavaScript numbers and strings *)

Abbreviation number := Q (only parsing).

(** [a < b], [a >= b], [a > b] on numbers, as booleans. *)
Definition ltb (a b : number) : bool := negb (Qle_bool b a).
Definition geb (a b : number) : bool := Qle_bool b a.
Definition gtb (a b : number) : bool := negb (Qle_bool a b).

(** [Number(x.toFixed(2))]: the nearest multiple of 1/100, a tie going
    away from zero. *)
Definition toFixed2 (x : number) : number :=
  let n := Qfloor (Qabs x * 100 + (1 # 2)) in
  if ltb x 0 then inject_Z (- n) / 100 else inject_Z n / 100.

(** Truthiness of a number: [0] is falsy. *)
Definition truthyNum (x : number) : bool := negb (Qeq_bool x 0).

(** Truthiness of an optional string: [undefined], [null] and the empty
    string are falsy. *)
Definition truthy (s : option string) : bool :=
  match s with
  | Some EmptyString => false
  | Some _ => true
  | None => false
  end.

Definition isUpper (c : ascii) : bool :=
  let n := nat_of_ascii c in (65 <=? n)%nat && (n <=? 90)%nat.
Definition isLower (c : ascii) : bool :=
  let n := nat_of_ascii c in (97 <=? n)%nat && (n <=? 122)%nat.

Definition lowerChar (c : ascii) : ascii :=
  if isUpper c then ascii_of_nat (nat_of_ascii c + 32) else c.
Definition upperChar (c : ascii) : ascii :=
  if isLower c then ascii_of_nat (nat_of_ascii c - 32) else c.

Fixpoint mapString (f : ascii -> ascii) (s : string) : string :=
  match s with
  | EmptyString => EmptyString
  | String c r => String (f c) (mapString f r)
  end.

Definition toLowerCase : string -> string := mapString lowerChar.
Definition toUpperCase : string -> string := mapString upperChar.

(** White space removed by [String.prototype.trim] in the ASCII range:
    TAB, LF, VT, FF, CR and SPACE. *)
Definition isSpace (c : ascii) : bool :=
  let n := nat_of_ascii c in
  ((9 <=? n)%nat && (n <=? 13)%nat) || (n =? 32)%nat.

Fixpoint trimStart (s : string) : string :=
  match s with
  | EmptyString => EmptyString
  | String c r => if isSpace c then trimStart r else s
  end.

(** [trimEnd s] drops the trailing white space: a character is kept when
    something that is not white space follows it or it is not white space
    itself. *)
Fixpoint trimEnd (s : string) : string :=
  match s with
  | EmptyString => EmptyString
  | String c r =>
      match trimEnd r with
      | EmptyString => if isSpace c then EmptyString else String c EmptyString
      | r' => String c r'
      end
  end.

Definition trim (s : string) : string := trimEnd (trimStart s).

(** [xs.includes(x)] and [xs.some(c => c.code === x)] on strings. *)
Definition includes (x : string) (xs : list string) : bool :=
  existsb (String.eqb x) xs.

(* ------------------------------------------------------------------ *)
(** ** Cart page: data *)

Module BulkRule.
Record t := mk { qty : Z; price : number }.
End BulkRule.

Record CartItem := mkCartItem {
  id : string;
  price : number;
  quantity : Z;
  stock : Z;
  bulkRule : option BulkRule.t
}.

Module AppliedCoupon.
Record t := mk { code : string; discount : number }.
End AppliedCoupon.

Module TieredCoupon.
Record t := mk { code : string; threshold : number; name : string }.
End TieredCoupon.

(** The tiers, from highest priority to lowest. *)
Definition TIERED_COUPONS : list TieredCoupon.t :=
  [ TieredCoupon.mk "NEPAL100" 8000 "Nepal Special";
    TieredCoupon.mk "ABOVE2500" 2500 "Bulk Discount";
    TieredCoupon.mk "ABOVE2000" 2000 "Bulk Discount" ].

(** [TIERED_COUPONS.some(tc => tc.code === c)]. *)
Definition isTieredCode (c : string) : bool :=
  existsb (fun tc => String.eqb (TieredCoupon.code tc) c) TIERED_COUPONS.

(* ------------------------------------------------------------------ *)
(** ** Cart page: the [useMemo] totals *)

Record Totals := mkTotals {
  subtotal : number;
  bulkDiscount : number;
  deliveryCharge : number;
  totalCouponDiscount : number;
  total : number
}.

(** What one pass of the [forEach] body adds to [bDisc] for an item that
    has a bulk rule: [regularCost - bulkCost]. *)
Definition bulkSaving (item : CartItem) (r : BulkRule.t) : number :=
  let bundles := (quantity item / BulkRule.qty r)%Z in
  let remainder := Z.rem (quantity item) (BulkRule.qty r) in
  let regularCost := inject_Z (quantity item) * price item in
  let bulkCost := inject_Z bundles * BulkRule.price r
                  + inject_Z remainder * price item in
  regularCost - bulkCost.

(** The body of [state.cart.forEach], on the pair [(sub, bDisc)]. *)
Definition accumulate (acc : number * number) (item : CartItem)
  : number * number :=
  let '(sub, bDisc) := acc in
  let sub' := sub + price item * inject_Z (quantity item) in
  match bulkRule item with
  | Some r => (sub', bDisc + bulkSaving item r)
  | None => (sub', bDisc)
  end.

(** The delivery tiers, on the net amount. *)
Definition deliveryTier (netAmount : number) : number :=
  if gtb netAmount 3000 then 0
  else if geb netAmount 1000 then 25
  else 50.

Definition computeTotals (cart : list CartItem)
    (appliedCoupons : list AppliedCoupon.t) : Totals :=
  let '(sub, bDisc0) := fold_left accumulate cart (0, 0) in
  let bDisc := toFixed2 bDisc0 in
  let netAmount := sub - bDisc in
  let totalDisc :=
    fold_left (fun sum coupon => sum + AppliedCoupon.discount coupon)
              appliedCoupons 0 in
  let dCharge := deliveryTier netAmount in
  {| subtotal := sub;
     bulkDiscount := bDisc;
     deliveryCharge := dCharge;
     totalCouponDiscount := totalDisc;
     total := netAmount - totalDisc + dCharge |}.

(** The net amount the totals are built on: [sub - bDisc]. *)
Definition netAmountOf (cart : list CartItem) : number :=
  let t := computeTotals cart [] in subtotal t - bulkDiscount t.

(* ------------------------------------------------------------------ *)
(** ** Server: documents *)

Inductive CouponType := REGULAR | FIRST_ORDER | SPECIAL_GIFT.

Definition CouponType_eqb (a b : CouponType) : bool :=
  match a, b with
  | REGULAR, REGULAR | FIRST_ORDER, FIRST_ORDER
  | SPECIAL_GIFT, SPECIAL_GIFT => true
  | _, _ => false
  end.

(** Modelled from the spec: the Mongoose schemas ([models.cjs]) are not
    among the sources.  The fields are the ones the routes read and write;
    dates are milliseconds since the epoch, [usedBy] is the array of user
    ids that [$addToSet] maintains. *)
Module Coupon.
Record t := mk {
  code : string;
  discountAmount : number;
  minOrderAmount : number;
  expiryDate : Z;
  type : CouponType;
  targetUsername : option string;
  giftMessage : option string;
  isActive : bool;
  usedBy : list string
}.
End Coupon.

Module OrderItem.
Record t := mk { id : string; name : string; price : number; quantity : Z }.
End OrderItem.

Module Location.
Record t := mk { lat : number; lng : number; address : option string }.
End Location.

(** Modelled from the spec: the [Order] schema.  The owner of an order is
    stored under the path [user]; the schema has no path [userId]. *)
Module Order.
Record t := mk {
  orderId : Z;
  user : string;
  username : option string;
  mobileNumber : option string;
  items : list OrderItem.t;
  totalAmount : number;
  discountApplied : number;
  deliveryCharge : number;
  finalAmount : number;
  location : Location.t;
  status : string
}.
End Order.

Module Product.
Record t := mk { _id : string; stock : Z }.
End Product.

Module User.
Record t := mk { _id : string; username : option string }.
End User.

Record Database := mkDatabase {
  coupons : list Coupon.t;
  orders : list Order.t;
  products : list Product.t;
  users : list User.t
}.

(** The authenticated principal that [authenticateToken] puts in
    [req.user]; tokens issued before usernames were added carry none. *)
Module ReqUser.
Record t := mk { id : string; username : option string }.
End ReqUser.

(* ------------------------------------------------------------------ *)
(** ** Server: queries *)

(** The two filters the routes pass to [Order.countDocuments]:
    [{ user: uid }] and [{ userId: uid }]. *)
Inductive OrderFilter :=
| ByUser (uid : string)
| ByUserId (uid : string).

(** Modelled from the spec: Mongoose's treatment of a filter.  [{ user }]
    selects the orders of that user.  [userId] is not a path of the
    schema: with [strictQuery] on the key is dropped and the filter is
    [{}], which selects every order; with it off the key reaches the
    database, where no stored order has such a field. *)
Definition matchesFilter (strictQuery : bool) (f : OrderFilter) (o : Order.t)
  : bool :=
  match f with
  | ByUser uid => String.eqb (Order.user o) uid
  | ByUserId _ => strictQuery
  end.

Definition countDocuments (strictQuery : bool) (f : OrderFilter)
    (os : list Order.t) : nat :=
  List.length (filter (matchesFilter strictQuery f) os).

(** [Coupon.findOne({ code, isActive: true })]. *)
Definition findCoupon (code : string) (cs : list Coupon.t) : option Coupon.t :=
  find (fun c => String.eqb (Coupon.code c) code && Coupon.isActive c) cs.

(** [User.findById(id)]. *)
Definition findUserById (uid : string) (us : list User.t) : option User.t :=
  find (fun u => String.eqb (User._id u) uid) us.

(* ------------------------------------------------------------------ *)
(** ** Server: POST /api/coupons/validate *)

Inductive ValidationError :=
| InvalidCode        (* 'Invalid coupon code' *)
| Expired            (* 'Coupon expired' *)
| AlreadyRedeemed    (* 'You have already redeemed this coupon.' *)
| NotYourCoupon      (* 'This coupon is not available for your account.' *)
| BelowMinimum (minOrderAmount : number)
                     (* 'Order must be at least Rs. ... to use this coupon.' *)
| FirstOrderOnly.    (* 'This coupon is valid for first order only.' *)

(** The coupon as the response shows it. *)
Module CouponView.
Record t := mk {
  code : string;
  discountAmount : number;
  expiry : Z;
  minOrderAmount : number;
  type : CouponType;
  targetUsername : option string;
  giftMessage : option string
}.
End CouponView.

Definition viewOf (c : Coupon.t) : CouponView.t :=
  CouponView.mk (Coupon.code c) (Coupon.discountAmount c) (Coupon.expiryDate c)
                (Coupon.minOrderAmount c) (Coupon.type c)
                (Coupon.targetUsername c) (Coupon.giftMessage c).

(** [{ isValid: true, coupon }] or [{ isValid: false, error }]. *)
Inductive ValidationResponse :=
| Valid (coupon : CouponView.t)
| Invalid (error : ValidationError).

Definition isValid (r : ValidationResponse) : bool :=
  match r with Valid _ => true | Invalid _ => false end.

(** The username of the request: the token's, or else the one of the
    user record. *)
Definition resolveUsername (db : Database) (u : ReqUser.t) : option string :=
  if truthy (ReqUser.username u) then ReqUser.username u
  else match findUserById (ReqUser.id u) (users db) with
       | Some rec => User.username rec
       | None => None
       end.

(** [hasUsed]: [coupon.usedBy.includes(userId)]. *)
Definition hasUsed (coupon : Coupon.t) (userId : string) : bool :=
  includes userId (Coupon.usedBy coupon).

(** The checks made once the coupon was found, in the order of the
    route.  [firstOrderFilter] is the filter of the first-order count. *)
Definition checkCoupon (strictQuery : bool)
    (firstOrderFilter : string -> OrderFilter)
    (db : Database) (now : Z) (userId : string) (username : option string)
    (orderTotal : number) (coupon : Coupon.t) : ValidationResponse :=
  if (Coupon.expiryDate coupon <? now)%Z then Invalid Expired
  else if truthy username && hasUsed coupon userId then Invalid AlreadyRedeemed
  else
    let targetMismatch :=
      match truthy (Coupon.targetUsername coupon), truthy username with
      | true, true =>
          match Coupon.targetUsername coupon, username with
          | Some t, Some u =>
              negb (String.eqb (toLowerCase (trim t)) (toLowerCase (trim u)))
          | _, _ => false
          end
      | true, false => true
      | false, _ => false
      end in
    if targetMismatch then Invalid NotYourCoupon
    else
      let isSpecialGift :=
        truthy (Coupon.targetUsername coupon)
        || CouponType_eqb (Coupon.type coupon) SPECIAL_GIFT in
      if negb isSpecialGift
         && truthyNum (Coupon.minOrderAmount coupon)
         && ltb orderTotal (Coupon.minOrderAmount coupon)
      then Invalid (BelowMinimum (Coupon.minOrderAmount coupon))
      else if CouponType_eqb (Coupon.type coupon) FIRST_ORDER
              && (0 <? countDocuments strictQuery (firstOrderFilter userId)
                                      (orders db))%nat
      then Invalid FirstOrderOnly
      else Valid (viewOf coupon).

Definition validateCouponWith (strictQuery : bool)
    (firstOrderFilter : string -> OrderFilter)
    (db : Database) (now : Z) (user : ReqUser.t)
    (code : string) (orderTotal : number) : ValidationResponse :=
  let userId := ReqUser.id user in
  let username := resolveUsername db user in
  match findCoupon (toUpperCase code) (coupons db) with
  | None => Invalid InvalidCode
  | Some coupon =>
      checkCoupon strictQuery firstOrderFilter db now userId username
                  orderTotal coupon
  end.

(** The route as the server has it: the first-order count filters on
    [{ userId }]. *)
Definition validateCoupon (strictQuery : bool) :=
  validateCouponWith strictQuery ByUserId.

(** The same route in the socket-enabled copy of the server, which
    filters on [{ user: userId }]. *)
Definition validateCouponByUser (strictQuery : bool) :=
  validateCouponWith strictQuery ByUser.

(* ------------------------------------------------------------------ *)
(** ** Server: coupon usage ledger *)

(** [$addToSet: { usedBy: userId }] on one coupon. *)
Definition addToSet (userId : string) (c : Coupon.t) : Coupon.t :=
  if includes userId (Coupon.usedBy c) then c
  else Coupon.mk (Coupon.code c) (Coupon.discountAmount c)
                 (Coupon.minOrderAmount c) (Coupon.expiryDate c)
                 (Coupon.type c) (Coupon.targetUsername c)
                 (Coupon.giftMessage c) (Coupon.isActive c)
                 (Coupon.usedBy c ++ [userId]).

(** The coupon with another [usedBy] array. *)
Definition withUsedBy (l : list string) (c : Coupon.t) : Coupon.t :=
  Coupon.mk (Coupon.code c) (Coupon.discountAmount c)
            (Coupon.minOrderAmount c) (Coupon.expiryDate c)
            (Coupon.type c) (Coupon.targetUsername c)
            (Coupon.giftMessage c) (Coupon.isActive c) l.

(** [Coupon.updateMany({ code: { $in: couponCodes } },
                       { $addToSet: { usedBy: userId } })]. *)
Definition updateManyAddToSet (couponCodes : list string) (userId : string)
    (cs : list Coupon.t) : list Coupon.t :=
  map (fun c => if includes (Coupon.code c) couponCodes
                then addToSet userId c else c) cs.

(** [markUsed(couponCode, userId)]: the update for a single code. *)
Definition markUsed (couponCode userId : string) (cs : list Coupon.t)
  : list Coupon.t :=
  updateManyAddToSet [couponCode] userId cs.

(** The ledger entry of a code: the [usedBy] array of the first coupon
    that carries it. *)
Definition usedByOf (couponCode : string) (cs : list Coupon.t)
  : option (list string) :=
  option_map Coupon.usedBy
    (find (fun c => String.eqb (Coupon.code c) couponCode) cs).

(** [hasUsed(couponCode, userId)] against the collection. *)
Definition hasUsedCode (couponCode userId : string) (cs : list Coupon.t)
  : bool :=
  match find (fun c => String.eqb (Coupon.code c) couponCode) cs with
  | Some c => hasUsed c userId
  | None => false
  end.

(* ------------------------------------------------------------------ *)
(** ** Server: POST /api/orders *)

(** The JSON body as the client sends it: beside the fields of
    [orderSchema] it carries the client's own [total] and [finalTotal]. *)
Module RawOrderBody.
Record t := mk {
  items : list OrderItem.t;
  total : option number;
  discount : option number;
  couponCodes : option (list string);
  deliveryCharge : option number;
  finalTotal : option number;
  location : Location.t;
  mobileNumber : option string;
  username : option string
}.
End RawOrderBody.

(** The body after [orderSchema.parse]: unknown keys are gone. *)
Module OrderBody.
Record t := mk {
  items : list OrderItem.t;
  discount : option number;
  couponCodes : option (list string);
  deliveryCharge : option number;
  location : Location.t;
  mobileNumber : option string;
  username : option string
}.
End OrderBody.

(** [orderSchema.parse]: every quantity is an integer of at least 1; a
    body that fails is answered with status 400. *)
Definition parseOrder (raw : RawOrderBody.t) : option OrderBody.t :=
  if forallb (fun i => (1 <=? OrderItem.quantity i)%Z) (RawOrderBody.items raw)
  then Some (OrderBody.mk (RawOrderBody.items raw) (RawOrderBody.discount raw)
                          (RawOrderBody.couponCodes raw)
                          (RawOrderBody.deliveryCharge raw)
                          (RawOrderBody.location raw)
                          (RawOrderBody.mobileNumber raw)
                          (RawOrderBody.username raw))
  else None.

(** [x || 0] on an optional number. *)
Definition orZero (x : option number) : number :=
  match x with
  | Some v => if truthyNum v then v else 0
  | None => 0
  end.

(** [a || b] on optional strings. *)
Definition orElse (a b : option string) : option string :=
  if truthy a then a else b.

(** [items.reduce((sum, item) => sum + item.price * item.quantity, 0)]. *)
Definition calculatedTotal (items : list OrderItem.t) : number :=
  fold_left (fun sum item =>
               sum + OrderItem.price item * inject_Z (OrderItem.quantity item))
            items 0.

(** [Product.findByIdAndUpdate(id, { $inc: { stock: -quantity } })]. *)
Definition decrementStock (item : OrderItem.t) (ps : list Product.t)
  : list Product.t :=
  map (fun p => if String.eqb (Product._id p) (OrderItem.id item)
                then Product.mk (Product._id p)
                                (Product.stock p - OrderItem.quantity item)
                else p) ps.

Module OrderResponse.
Record t := mk { id : Z; status : string }.
End OrderResponse.

(** The handler proper, on a parsed body.  The update of the user's
    mobile number touches no coupon, order or product and is left out. *)
Definition createOrder (db : Database) (now : Z) (user : ReqUser.t)
    (body : OrderBody.t) : Database * OrderResponse.t :=
  let items := OrderBody.items body in
  let orderId := now in
  let total := calculatedTotal items in
  let validDiscount := orZero (OrderBody.discount body) in
  let validDelivery := orZero (OrderBody.deliveryCharge body) in
  let calculatedFinal := total - validDiscount + validDelivery in
  let coupons' :=
    match OrderBody.couponCodes body with
    | Some (c :: cs) => updateManyAddToSet (c :: cs) (ReqUser.id user) (coupons db)
    | _ => coupons db
    end in
  let order :=
    Order.mk orderId (ReqUser.id user)
             (orElse (OrderBody.username body) (ReqUser.username user))
             (OrderBody.mobileNumber body)
             items total validDiscount validDelivery calculatedFinal
             (OrderBody.location body) "Pending" in
  let products' := fold_left (fun ps item => decrementStock item ps)
                             items (products db) in
  (mkDatabase coupons' (orders db ++ [order]) products' (users db),
   OrderResponse.mk orderId "Pending").

(** The route: validation, then the handler.  [None] is the 400 answer;
    nothing is stored then. *)
Definition placeOrder (db : Database) (now : Z) (user : ReqUser.t)
    (raw : RawOrderBody.t) : option (Database * OrderResponse.t) :=
  match parseOrder raw with
  | Some body => Some (createOrder db now user body)
  | None => None
  end.

(** The order a successful request has stored: the last one. *)
Definition persistedOrder (db : Database) : option Order.t :=
  last (map Some (orders db)) None.

(** The same route in the first copy of the server (no schema validation,
    no coupon ledger): the monetary fields are the client's.  A body
    without [total] or [finalTotal] is outside the model. *)
Definition placeOrderLegacy (db : Database) (now : Z) (user : ReqUser.t)
    (raw : RawOrderBody.t) : option (Database * OrderResponse.t) :=
  match RawOrderBody.total raw, RawOrderBody.finalTotal raw with
  | Some total, Some finalTotal =>
      let items := RawOrderBody.items raw in
      let order :=
        Order.mk now (ReqUser.id user) (RawOrderBody.username raw)
                 (RawOrderBody.mobileNumber raw) items total
                 (orZero (RawOrderBody.discount raw))
                 (orZero (RawOrderBody.deliveryCharge raw))
                 finalTotal (RawOrderBody.location raw) "Pending" in
      let products' := fold_left (fun ps item => decrementStock item ps)
                                 items (products db) in
      Some (mkDatabase (coupons db) (orders db ++ [order]) products' (users db),
            OrderResponse.mk now "Pending")
  | _, _ => None
  end.

(* ------------------------------------------------------------------ *)
(** ** Cart page: state, handlers and the auto-apply effect *)

Inductive CartAction :=
| UPDATE_CART_QTY (id : string) (qty : Z)
| REMOVE_FROM_CART (id : string).

(** What [couponError] can show. *)
Inductive CouponError :=
| AlreadyApplied (code : string)     (* `Coupon ${code} is already applied` *)
| Rejected (error : ValidationError) (* the server's message *).

(** The component's [useState] cells together with the cart of the
    store. *)
Record Page := mkPage {
  cart : list CartItem;
  appliedCoupons : list AppliedCoupon.t;
  couponCode : string;
  couponError : option CouponError;
  autoApplied : bool;
  autoApplyMessage : string;
  hasPlacedOrder : bool;
  usedSpecialCoupons : list string
}.

(** What the page is given from outside: the store's reducer for the
    cart (its module is not among the sources, so it is a parameter), the
    coupon list of the store, the signed-in username, the [autoApply] code
    of the navigation state and the validation call. *)
Record Env := mkEnv {
  reducer : CartAction -> list CartItem -> list CartItem;
  storeCoupons : list CouponView.t;
  storeUsername : option string;
  navAutoApply : option string;
  validate : string -> number -> ValidationResponse
}.

Definition setAppliedCoupons (f : list AppliedCoupon.t -> list AppliedCoupon.t)
    (p : Page) : Page :=
  mkPage (cart p) (f (appliedCoupons p)) (couponCode p) (couponError p)
         (autoApplied p) (autoApplyMessage p) (hasPlacedOrder p)
         (usedSpecialCoupons p).

Definition setCouponCode (s : string) (p : Page) : Page :=
  mkPage (cart p) (appliedCoupons p) s (couponError p)
         (autoApplied p) (autoApplyMessage p) (hasPlacedOrder p)
         (usedSpecialCoupons p).

Definition setCouponError (e : option CouponError) (p : Page) : Page :=
  mkPage (cart p) (appliedCoupons p) (couponCode p) e
         (autoApplied p) (autoApplyMessage p) (hasPlacedOrder p)
         (usedSpecialCoupons p).

Definition setAutoApplied (b : bool) (p : Page) : Page :=
  mkPage (cart p) (appliedCoupons p) (couponCode p) (couponError p)
         b (autoApplyMessage p) (hasPlacedOrder p) (usedSpecialCoupons p).

Definition setAutoApplyMessage (s : string) (p : Page) : Page :=
  mkPage (cart p) (appliedCoupons p) (couponCode p) (couponError p)
         (autoApplied p) s (hasPlacedOrder p) (usedSpecialCoupons p).

Definition setHasPlacedOrder (b : bool) (p : Page) : Page :=
  mkPage (cart p) (appliedCoupons p) (couponCode p) (couponError p)
         (autoApplied p) (autoApplyMessage p) b (usedSpecialCoupons p).

Definition setUsedSpecialCoupons (f : list string -> list string) (p : Page)
  : Page :=
  mkPage (cart p) (appliedCoupons p) (couponCode p) (couponError p)
         (autoApplied p) (autoApplyMessage p) (hasPlacedOrder p)
         (f (usedSpecialCoupons p)).

Definition dispatch (env : Env) (a : CartAction) (p : Page) : Page :=
  mkPage (reducer env a (cart p)) (appliedCoupons p) (couponCode p)
         (couponError p) (autoApplied p) (autoApplyMessage p)
         (hasPlacedOrder p) (usedSpecialCoupons p).

(** [appliedCoupons.some(c => c.code === code)]. *)
Definition isApplied (code : string) (applied : list AppliedCoupon.t) : bool :=
  existsb (fun c => String.eqb (AppliedCoupon.code c) code) applied.

Definition isTiered (c : AppliedCoupon.t) : bool :=
  isTieredCode (AppliedCoupon.code c).

Definition toApplied (c : CouponView.t) : AppliedCoupon.t :=
  AppliedCoupon.mk (CouponView.code c) (CouponView.discountAmount c).

(** The [subtotal] a render has computed. *)
Definition subtotalOf (p : Page) : number :=
  subtotal (computeTotals (cart p) (appliedCoupons p)).

(** The gift coupon of the signed-in user with the given code, as
    [state.coupons.find] looks for it. *)
Definition findSpecialCoupon (env : Env) (code : string) : option CouponView.t :=
  find (fun c =>
          String.eqb (CouponView.code c) code
          && truthy (CouponView.targetUsername c)
          && truthy (storeUsername env)
          && match CouponView.targetUsername c, storeUsername env with
             | Some t, Some u =>
                 String.eqb (toLowerCase (trim t)) (toLowerCase (trim u))
             | _, _ => false
             end)
       (storeCoupons env).

(** [handleApplyCoupon(codeOverride)].  [snap] is the render whose values
    the callback has closed over, [cur] the state its updates act on. *)
Definition handleApplyCoupon (env : Env) (snap : Page)
    (codeOverride : option string) (cur : Page) : Page :=
  let codeToValidate :=
    if truthy codeOverride
    then match codeOverride with Some c => c | None => couponCode snap end
    else couponCode snap in
  if negb (truthy (Some codeToValidate)) then cur
  else if isApplied codeToValidate (appliedCoupons snap)
  then setCouponError (Some (AlreadyApplied codeToValidate)) cur
  else
    match validate env codeToValidate (subtotalOf snap) with
    | Valid coupon =>
        let cur1 := setAppliedCoupons (fun prev => prev ++ [toApplied coupon]) cur in
        let cur2 := setCouponCode EmptyString (setCouponError None cur1) in
        match findSpecialCoupon env (CouponView.code coupon) with
        | Some _ =>
            if negb (includes (CouponView.code coupon) (usedSpecialCoupons snap))
            then setUsedSpecialCoupons
                   (fun prev => prev ++ [CouponView.code coupon]) cur2
            else cur2
        | None => cur2
        end
    | Invalid e => setCouponError (Some (Rejected e)) cur
    end.

(** [handleRemoveCoupon(codeToRemove)]. *)
Definition handleRemoveCoupon (codeToRemove : string) (cur : Page) : Page :=
  let cur1 :=
    setAppliedCoupons
      (filter (fun c => negb (String.eqb (AppliedCoupon.code c) codeToRemove)))
      cur in
  let cur2 :=
    if isTieredCode codeToRemove || String.eqb codeToRemove "AUTO50"
    then setAutoApplyMessage EmptyString (setAutoApplied false cur1)
    else cur1 in
  setCouponError None cur2.

(** [handleClearAllCoupons()]. *)
Definition handleClearAllCoupons (cur : Page) : Page :=
  setCouponError None
    (setAutoApplyMessage EmptyString
       (setAutoApplied false (setAppliedCoupons (fun _ => []) cur))).

(** The three buttons of a cart line. *)
Definition onMinus (env : Env) (item : CartItem) (cur : Page) : Page :=
  handleClearAllCoupons
    (dispatch env (UPDATE_CART_QTY (id item) (quantity item - 1)) cur).

Definition onPlus (env : Env) (item : CartItem) (cur : Page) : Page :=
  let isMaxStock := (stock item <=? quantity item)%Z in
  if negb isMaxStock
  then dispatch env (UPDATE_CART_QTY (id item) (quantity item + 1)) cur
  else cur.

Definition onTrash (env : Env) (item : CartItem) (cur : Page) : Page :=
  handleClearAllCoupons (dispatch env (REMOVE_FROM_CART (id item)) cur).

(** Step 1 of [checkAutoApply]: the code handed over by navigation. *)
Definition navigationStep (env : Env) (snap cur : Page) : Page :=
  match navAutoApply env with
  | Some code =>
      if truthy (Some code) && negb (isApplied code (appliedCoupons snap))
      then handleApplyCoupon env snap (Some code) cur
      else cur
  | None => cur
  end.

(** Step 2: the first-order coupon. *)
Definition firstOrderStep (env : Env) (snap cur : Page) : Page :=
  if negb (hasPlacedOrder snap) then
    match find (fun c => CouponType_eqb (CouponView.type c) FIRST_ORDER)
               (storeCoupons env) with
    | Some firstOrderCoupon =>
        if negb (isApplied (CouponView.code firstOrderCoupon)
                           (appliedCoupons snap))
        then match validate env (CouponView.code firstOrderCoupon)
                            (subtotalOf snap) with
             | Valid coupon =>
                 setCouponError None
                   (setAppliedCoupons (fun prev => prev ++ [toApplied coupon]) cur)
             | Invalid _ => cur
             end
        else cur
    | None => cur
    end
  else cur.

(** [TIERED_COUPONS.find(c => subtotal >= c.threshold)]. *)
Definition targetTierCoupon (subtotal : number) : option TieredCoupon.t :=
  find (fun c => geb subtotal (TieredCoupon.threshold c)) TIERED_COUPONS.

(** [appliedCoupons.find(c => TIERED_COUPONS.some(tc => tc.code === c.code))]. *)
Definition activeTierCoupon (applied : list AppliedCoupon.t)
  : option AppliedCoupon.t :=
  find isTiered applied.

Definition removeTiered (prev : list AppliedCoupon.t) : list AppliedCoupon.t :=
  filter (fun c => negb (isTiered c)) prev.

(** Step 3: the tiered coupons. *)
Definition tieredStep (env : Env) (snap cur : Page) : Page :=
  let active := activeTierCoupon (appliedCoupons snap) in
  match targetTierCoupon (subtotalOf snap) with
  | Some target =>
      let same :=
        match active with
        | Some a => String.eqb (AppliedCoupon.code a) (TieredCoupon.code target)
        | None => false
        end in
      if negb same then
        match validate env (TieredCoupon.code target) (subtotalOf snap) with
        | Valid coupon =>
            setCouponError None
              (setAutoApplyMessage
                 (TieredCoupon.name target ++ " Applied!")
                 (setAutoApplied true
                    (setAppliedCoupons
                       (fun prev => removeTiered prev ++ [toApplied coupon])
                       cur)))
        | Invalid _ => cur
        end
      else cur
  | None =>
      match active with
      | Some _ =>
          setAutoApplyMessage EmptyString
            (setAutoApplied false (setAppliedCoupons removeTiered cur))
      | None => cur
      end
  end.

Definition checkAutoApply (env : Env) (snap cur : Page) : Page :=
  tieredStep env snap (firstOrderStep env snap (navigationStep env snap cur)).

(** One run of the effect on a settled render: nothing happens on an
    empty cart. *)
Definition autoApplyPass (env : Env) (p : Page) : Page :=
  match cart p with
  | [] => p
  | _ :: _ => checkAutoApply env p p
  end.

(** What can happen on the page. *)
Inductive Event :=
| ClickMinus (item : CartItem)
| ClickPlus (item : CartItem)
| ClickTrash (item : CartItem)
| TypePromoCode (s : string)
| ClickApply
| ClickApplyListed (code : string)
| ClickRemoveCoupon (code : string)
| OrderHistoryFound
| EffectRuns.

(** One event, handled to its end on the page as it stands: a click on
    Apply and a run of the effect await their answers before anything
    else happens, so the render they are closed over is the state they
    update.  Two runs that overlap (a second click, or the effect fired
    again, while a validation is pending) are closed over one render and
    are not a sequence of these events; [handleApplyCoupon] and
    [checkAutoApply] take the render apart from the state for them. *)
Definition handle (env : Env) (e : Event) (p : Page) : Page :=
  match e with
  | ClickMinus item => onMinus env item p
  | ClickPlus item => onPlus env item p
  | ClickTrash item => onTrash env item p
  | TypePromoCode s => setCouponCode s p
  | ClickApply => handleApplyCoupon env p None p
  | ClickApplyListed code => handleApplyCoupon env p (Some code) p
  | ClickRemoveCoupon code => handleRemoveCoupon code p
  | OrderHistoryFound => setHasPlacedOrder true p
  | EffectRuns => autoApplyPass env p
  end.

(** A sequence of events, each handled before the next. *)
Definition run (env : Env) (es : list Event) (p : Page) : Page :=
  fold_left (fun q e => handle env e q) es p.

(** The page as it is mounted on a cart. *)
Definition initialPage (c : list CartItem) : Page :=
  mkPage c [] EmptyString None false EmptyString false [].

(** How many applied coupons belong to the tiered family. *)
Definition tieredCount (applied : list AppliedCoupon.t) : nat :=
  List.length (filter isTiered applied).

(** The tier the specification describes: the first tier of the priority
    list whose threshold the net amount reaches. *)
Definition specTargetTier (netAmount : number) : option TieredCoupon.t :=
  find (fun c => geb netAmount (TieredCoupon.threshold c)) TIERED_COUPONS.

(** The line discount the specification describes:
    [max(0, Q*P - (floor(Q/N)*B + (Q mod N)*P))], to two decimals. *)
Definition specBulkDiscount (P : number) (Q : Z) (N : Z) (B : number) : number :=
  toFixed2 (Qmax 0 (inject_Z Q * P
                    - (inject_Z (Q / N) * B + inject_Z (Q mod N) * P))).

(* ------------------------------------------------------------------ *)
(** ** Server: coupon administration and listing *)

(** The body of the coupon routes.  [expiry] is the date the string
    denotes. *)
Module CouponBody.
Record t := mk {
  code : string;
  discountAmount : number;
  expiry : Z;
  minOrderAmount : option number;
  type : option CouponType;
  targetUsername : option string;
  giftMessage : option string
}.
End CouponBody.

(** [couponSchema.parse]: a code of at least 3 characters, which it turns
    to upper case, and a discount of at least 1. *)
Definition parseCoupon (raw : CouponBody.t) : option CouponBody.t :=
  if (3 <=? String.length (CouponBody.code raw))%nat
     && Qle_bool 1 (CouponBody.discountAmount raw)
  then Some (CouponBody.mk (toUpperCase (CouponBody.code raw))
                           (CouponBody.discountAmount raw)
                           (CouponBody.expiry raw)
                           (CouponBody.minOrderAmount raw)
                           (CouponBody.type raw)
                           (CouponBody.targetUsername raw)
                           (CouponBody.giftMessage raw))
  else None.

(** [s || null] on an optional string. *)
Definition orNull (s : option string) : option string :=
  if truthy s then s else None.

(** [Coupon.findOne({ code })]: the first coupon with the code, active or
    not. *)
Definition findByCode (code : string) (cs : list Coupon.t) : option Coupon.t :=
  find (fun c => String.eqb (Coupon.code c) code) cs.

Inductive AdminAnswer :=
| Done                (* 200 *)
| ValidationFailed    (* 400, 'Validation Error' *)
| CodeExists          (* 400, 'Coupon code already exists' *)
| NotFound.           (* 404, 'Coupon not found' *)

(** POST /api/admin/coupons.  The route leaves [isActive] and [usedBy] to
    the schema: the array starts empty, and the default of the flag is
    the parameter [activeByDefault]. *)
Definition createCoupon (activeByDefault : bool) (cs : list Coupon.t)
    (raw : CouponBody.t) : list Coupon.t * AdminAnswer :=
  match parseCoupon raw with
  | None => (cs, ValidationFailed)
  | Some body =>
      match findByCode (toUpperCase (CouponBody.code body)) cs with
      | Some _ => (cs, CodeExists)
      | None =>
          let coupon :=
            Coupon.mk (toUpperCase (CouponBody.code body))
                      (CouponBody.discountAmount body)
                      (orZero (CouponBody.minOrderAmount body))
                      (CouponBody.expiry body)
                      (match CouponBody.type body with
                       | Some t => t
                       | None => REGULAR
                       end)
                      (orNull (CouponBody.targetUsername body))
                      (orNull (CouponBody.giftMessage body))
                      activeByDefault [] in
          (cs ++ [coupon], Done)
      end
  end.

(** The update of [findOneAndUpdate]: code, discount, minimum and expiry
    of the first coupon that carries [originalCode]. *)
Fixpoint updateFirst (originalCode : string) (body : CouponBody.t)
    (cs : list Coupon.t) : option (list Coupon.t) :=
  match cs with
  | [] => None
  | c :: rest =>
      if String.eqb (Coupon.code c) originalCode
      then Some (Coupon.mk (toUpperCase (CouponBody.code body))
                           (CouponBody.discountAmount body)
                           (orZero (CouponBody.minOrderAmount body))
                           (CouponBody.expiry body)
                           (Coupon.type c) (Coupon.targetUsername c)
                           (Coupon.giftMessage c) (Coupon.isActive c)
                           (Coupon.usedBy c) :: rest)
      else option_map (cons c) (updateFirst originalCode body rest)
  end.

(** PUT /api/admin/coupons/:code. *)
Definition updateCoupon (cs : list Coupon.t) (paramCode : string)
    (raw : CouponBody.t) : list Coupon.t * AdminAnswer :=
  match parseCoupon raw with
  | None => (cs, ValidationFailed)
  | Some body =>
      let originalCode := toUpperCase paramCode in
      let taken :=
        if negb (String.eqb (toUpperCase (CouponBody.code body)) originalCode)
        then match findByCode (toUpperCase (CouponBody.code body)) cs with
             | Some _ => true
             | None => false
             end
        else false in
      if taken then (cs, CodeExists)
      else match updateFirst originalCode body cs with
           | Some cs' => (cs', Done)
           | None => (cs, NotFound)
           end
  end.

(** [Coupon.findOneAndDelete({ code })]. *)
Fixpoint deleteFirst (code : string) (cs : list Coupon.t) : list Coupon.t :=
  match cs with
  | [] => []
  | c :: rest =>
      if String.eqb (Coupon.code c) code then rest
      else c :: deleteFirst code rest
  end.

(** DELETE /api/admin/coupons/:code; the answer is 'Coupon deleted'
    whether or not a coupon carried the code. *)
Definition deleteCoupon (cs : list Coupon.t) (paramCode : string)
  : list Coupon.t :=
  deleteFirst (toUpperCase paramCode) cs.

(** The coupon as GET /api/coupons shows it. *)
Definition listedView (c : Coupon.t) : CouponView.t :=
  CouponView.mk (Coupon.code c) (Coupon.discountAmount c) (Coupon.expiryDate c)
                (Coupon.minOrderAmount c) (Coupon.type c)
                (orNull (Coupon.targetUsername c))
                (orNull (Coupon.giftMessage c)).

(** GET /api/coupons: every active coupon, for any caller. *)
Definition getCoupons (db : Database) : list CouponView.t :=
  map listedView (filter Coupon.isActive (coupons db)).

(* ------------------------------------------------------------------ *)
(** ** Server: reading and updating orders *)

(** The owner filter of GET /api/orders: [None] is the refusal,
    [Some None] the empty filter and [Some (Some id)] the filter on the
    orders of [id]. *)
Definition ordersQuery (role : string) (user : ReqUser.t)
    (queryUserId : option string) : option (option string) :=
  let privileged := String.eqb role "ADMIN" || String.eqb role "STAFF" in
  if truthy queryUserId then
    match queryUserId with
    | Some q =>
        if negb privileged && negb (String.eqb q (ReqUser.id user))
        then None
        else Some (Some q)
    | None => Some None
    end
  else if negb privileged then Some (Some (ReqUser.id user))
  else Some None.

(** What GET /api/orders answers. *)
Inductive OrdersAnswer :=
| Forbidden                      (* 403 *)
| CastFailed                     (* 500: the id is no ObjectId *)
| Orders (found : list Order.t). (* 200 *)

(** GET /api/orders.  The filter on an owner goes through
    [new mongoose.Types.ObjectId], which throws on a string that is no
    ObjectId; [isObjectId] tells which strings are.  The documents come
    back in the order of [sortByCreatedAt], the descending sort on the
    timestamp the schema adds.  Both are parameters: the stored order
    record of this development carries no timestamp, and the shape of an
    ObjectId is Mongoose's. *)
Definition getOrders (isObjectId : string -> bool)
    (sortByCreatedAt : list Order.t -> list Order.t)
    (db : Database) (role : string) (user : ReqUser.t)
    (queryUserId : option string) : OrdersAnswer :=
  match ordersQuery role user queryUserId with
  | None => Forbidden
  | Some (Some owner) =>
      if isObjectId owner
      then Orders (sortByCreatedAt
                     (filter (fun o => String.eqb (Order.user o) owner)
                             (orders db)))
      else CastFailed
  | Some None => Orders (sortByCreatedAt (orders db))
  end.

(** [Order.findOneAndUpdate({ orderId }, { status })]. *)
Fixpoint setStatus (orderId : Z) (status : string) (os : list Order.t)
  : list Order.t :=
  match os with
  | [] => []
  | o :: rest =>
      if (Order.orderId o =? orderId)%Z
      then Order.mk (Order.orderId o) (Order.user o) (Order.username o)
                    (Order.mobileNumber o) (Order.items o)
                    (Order.totalAmount o) (Order.discountApplied o)
                    (Order.deliveryCharge o) (Order.finalAmount o)
                    (Order.location o) status :: rest
      else o :: setStatus orderId status rest
  end.

(** PUT /api/admin/orders/:id/status. *)
Definition updateOrderStatus (db : Database) (orderId : Z) (status : string)
  : Database :=
  mkDatabase (coupons db) (setStatus orderId status (orders db))
             (products db) (users db).


(* ------------------------------------------------------------------ *)
(** ** Quantities used to state properties of the routes *)

(** The quantity a list of order items asks of a product. *)
Fixpoint orderedQty (productId : string) (items : list OrderItem.t) : Z :=
  match items with
  | [] => 0
  | i :: rest =>
      ((if String.eqb productId (OrderItem.id i) then OrderItem.quantity i else 0)
       + orderedQty productId rest)%Z
  end.

(** The codes of a collection. *)
Definition codesIn (cs : list Coupon.t) : list string := map Coupon.code cs.

(** The database with another coupon collection. *)
Definition withCoupons (cs : list Coupon.t) (db : Database) : Database :=
  mkDatabase cs (orders db) (products db) (users db).

(* ------------------------------------------------------------------ *)
(** ** Cart page: the gift cards, and sums used to state properties *)

(** What the button of a gift card shows: 'Applied' when the coupon is
    applied, else 'Not Available' when its code is among the used special
    coupons, else 'Apply Gift'. *)
Inductive GiftButton := ShowsApplied | ShowsNotAvailable | OffersApply.

Definition giftButton (p : Page) (code : string) : GiftButton :=
  if isApplied code (appliedCoupons p) then ShowsApplied
  else if includes code (usedSpecialCoupons p) then ShowsNotAvailable
  else OffersApply.

(** The sum over the cart lines that have a bulk rule of what the rule
    saves. *)
Fixpoint cartSaving (c : list CartItem) : number :=
  match c with
  | [] => 0
  | item :: rest =>
      match bulkRule item with
      | Some r => bulkSaving item r + cartSaving rest
      | None => cartSaving rest
      end
  end.

(** The sum of the discounts of the applied coupons. *)
Fixpoint sumDiscounts (applied : list AppliedCoupon.t) : number :=
  match applied with
  | [] => 0
  | k :: rest => AppliedCoupon.discount k + sumDiscounts rest
  end.

(** The code a click on Apply sends: the override, or else the text of
    the promo box. *)
Definition codeToValidate (p : Page) (codeOverride : option string) : string :=
  if truthy codeOverride
  then match codeOverride with Some c => c | None => couponCode p end
  else couponCode p.

(* ------------------------------------------------------------------ *)
(** ** Shop: the category list *)

(** A product as the shop pages hold it, with the fields the category
    helper reads. *)
Module ShopProduct.
Record t := mk { name : string; category : string }.
End ShopProduct.

(** [new Set(xs)] as an array: the first occurrence of each value, in
    order. *)
Fixpoint distinct (seen : list string) (xs : list string) : list string :=
  match xs with
  | [] => []
  | x :: rest =>
      if includes x seen then distinct seen rest
      else x :: distinct (x :: seen) rest
  end.

(** [xs.sort()] on strings: ascending by character code, as an insertion
    sort. *)
Fixpoint insertSorted (x : string) (xs : list string) : list string :=
  match xs with
  | [] => [x]
  | y :: rest => if String.leb x y then x :: xs else y :: insertSorted x rest
  end.

Definition sortStrings (xs : list string) : list string :=
  fold_right insertSorted [] xs.

(** [getUniqueCategories(products)]. *)
Definition getUniqueCategories (products : list ShopProduct.t) : list string :=
  sortStrings
    (distinct []
       (filter (fun c => truthy (Some c))
               (map ShopProduct.category products))).

(* ------------------------------------------------------------------ *)
(** ** Order totals as the specification words them *)

(** The sum over the submitted items of price times quantity. *)
Fixpoint sumOfLines (items : list OrderItem.t) : number :=
  match items with
  | [] => 0
  | i :: rest => OrderItem.price i * inject_Z (OrderItem.quantity i)
                 + sumOfLines rest
  end.

(** The sum over the cart lines of price times quantity. *)
Fixpoint cartSum (c : list CartItem) : number :=
  match c with
  | [] => 0
  | item :: rest => price item * inject_Z (quantity item) + cartSum rest
  end.

(** The same request with other client-side totals. *)
Definition withClientTotals (total finalTotal : option number)
    (raw : RawOrderBody.t) : RawOrderBody.t :=
  RawOrderBody.mk (RawOrderBody.items raw) total (RawOrderBody.discount raw)
                  (RawOrderBody.couponCodes raw)
                  (RawOrderBody.deliveryCharge raw) finalTotal
                  (RawOrderBody.location raw) (RawOrderBody.mobileNumber raw)
                  (RawOrderBody.username raw).

(* ------------------------------------------------------------------ *)
(** ** User names as the specification compares them *)

(** The letters of the ASCII range, each capital beside its small form. *)
Definition capitals : string := "ABCDEFGHIJKLMNOPQRSTUVWXYZ".
Definition smalls : string := "abcdefghijklmnopqrstuvwxyz".

Definition letters : list (ascii * ascii) :=
  combine (list_ascii_of_string capitals) (list_ascii_of_string smalls).

(** Two characters are the same letter when they are equal or are the
    capital and the small form of one letter. *)
Definition sameLetter (a b : ascii) : bool :=
  Ascii.eqb a b
  || existsb (fun l => (Ascii.eqb a (fst l) && Ascii.eqb b (snd l))
                       || (Ascii.eqb a (snd l) && Ascii.eqb b (fst l)))
             letters.

(** Equality of two strings up to the case of their letters. *)
Fixpoint equalIgnoringCase (s1 s2 : string) : bool :=
  match s1, s2 with
  | EmptyString, EmptyString => true
  | String c1 r1, String c2 r2 => sameLetter c1 c2 && equalIgnoringCase r1 r2
  | _, _ => false
  end.

(** The name of the requesting user equals the target of the coupon, both
    trimmed and compared without regard to case.  A request without a
    name, or with an empty one, matches no target. *)
Definition usernameMatches (username : option string) (target : string) : bool :=
  match username with
  | Some u => truthy username && equalIgnoringCase (trim u) (trim target)
  | None => false
  end.

(** Every character. *)
Definition allAscii : list ascii := map ascii_of_nat (seq 0 256).

(* ------------------------------------------------------------------ *)
(** ** Sample data *)

(** A cart of one line of the given price and quantity. *)
Definition oneLine (p : number) (q : Z) (r : option BulkRule.t) : list CartItem :=
  [mkCartItem "p1" p q 100 r].

Definition kathmandu : Location.t := Location.mk (2771 # 100) (8532 # 100) None.

Definition emptyDatabase : Database := mkDatabase [] [] [] [].

(** A catalogue with the three tiers, a first-order coupon and a gift for
    Alice; every coupon expires at time 2000000000000. *)
Definition sampleCoupons : list Coupon.t :=
  [ Coupon.mk "NEPAL100" 100 8000 2000000000000 REGULAR None None true [];
    Coupon.mk "ABOVE2500" 50 2500 2000000000000 REGULAR None None true [];
    Coupon.mk "ABOVE2000" 40 2000 2000000000000 REGULAR None None true [];
    Coupon.mk "WELCOME" 30 0 2000000000000 FIRST_ORDER None None true [];
    Coupon.mk "GIFT4ALICE" 75 5000 2000000000000 SPECIAL_GIFT
              (Some " Alice ") (Some "Thank you") true [] ].

Definition sampleDatabase : Database := mkDatabase sampleCoupons [] [] [].

Definition bob : ReqUser.t := ReqUser.mk "u-bob" (Some "bob").
Definition carol : ReqUser.t := ReqUser.mk "u-carol" (Some "carol").

(** A principal whose token carries no username and who has no user
    record. *)
Definition nameless : ReqUser.t := ReqUser.mk "u-old" None.

(** An order Bob has placed. *)
Definition bobsOrder : Order.t :=
  Order.mk 1690000000000 "u-bob" (Some "bob") None
           [OrderItem.mk "p1" "Rice" 10 2] 20 0 50 70 kathmandu "Pending".

Definition databaseAfterBobsOrder : Database :=
  mkDatabase sampleCoupons [bobsOrder] [] [].

(** The catalogue once the nameless principal has redeemed NEPAL100. *)
Definition databaseAfterRedemption : Database :=
  mkDatabase (markUsed "NEPAL100" "u-old" sampleCoupons) [] [] [].

Definition alice : ReqUser.t := ReqUser.mk "u-alice" (Some "Alice").

(** Two lines worth 2 * 10 + 1 * 5 = 25, sent with a client total of 1. *)
Definition sampleOrderBody : RawOrderBody.t :=
  RawOrderBody.mk
    [OrderItem.mk "p1" "Rice" 10 2; OrderItem.mk "p2" "Salt" 5 1]
    (Some 1) None None None (Some 1) kathmandu None None.

(** A reducer for the examples: [UPDATE_CART_QTY] sets the quantity of
    the line, [REMOVE_FROM_CART] drops the line. *)
Definition sampleReducer (a : CartAction) (c : list CartItem) : list CartItem :=
  match a with
  | UPDATE_CART_QTY i q =>
      map (fun it => if String.eqb (id it) i
                     then mkCartItem (id it) (price it) q (stock it) (bulkRule it)
                     else it) c
  | REMOVE_FROM_CART i => filter (fun it => negb (String.eqb (id it) i)) c
  end.

(** The page of a signed-in user against the sample catalogue: the store
    holds the active coupons and validation goes to the server route. *)
Definition sampleEnv (user : ReqUser.t) : Env :=
  mkEnv sampleReducer
        (map viewOf (filter Coupon.isActive sampleCoupons))
        (ReqUser.username user) None
        (validateCoupon false sampleDatabase 1700000000000 user).

(** A returning customer: the order history has been found. *)
Definition returningPage (c : list CartItem) : Page :=
  setHasPlacedOrder true (initialPage c).

(** A cart of 500 on which ABOVE2000 is still applied. *)
Definition staleTierPage : Page :=
  setAppliedCoupons (fun _ => [AppliedCoupon.mk "ABOVE2000" 40])
                    (returningPage (oneLine 500 1 None)).

Definition codesOf (applied : list AppliedCoupon.t) : list string :=
  map AppliedCoupon.code applied.

(** Events through which the user applies a code by hand. *)
Definition isManualApply (e : Event) : bool :=
  match e with
  | ClickApply | ClickApplyListed _ => true
  | _ => false
  end.

(** An order of Alice's that redeems NEPAL100: 3 of p1 and 2 more of p1
    and 1 of p2, with the products in stock. *)
Definition redeemingBody : RawOrderBody.t :=
  RawOrderBody.mk
    [OrderItem.mk "p1" "Rice" 2000 3; OrderItem.mk "p1" "Rice" 2000 2;
     OrderItem.mk "p2" "Salt" 5 1]
    (Some 10005) (Some 100) (Some ["NEPAL100"]) None (Some 9905)
    kathmandu None None.

Definition stockedDatabase : Database :=
  mkDatabase sampleCoupons [bobsOrder]
             [Product.mk "p1" 4; Product.mk "p2" 10; Product.mk "p3" 7] [].

Definition newCouponBody : CouponBody.t :=
  CouponBody.mk "dashain25" 25 2000000000000 (Some 500) None None None.

(** An edit of ABOVE2000 that renames it and raises the discount. *)
Definition editBody : CouponBody.t :=
  CouponBody.mk "above1500" 45 2100000000000 (Some 1500) None None None.

(** Alice's page with a cart of 6000, on which she has typed her gift
    code. *)
Definition giftPage : Page :=
  setCouponCode "GIFT4ALICE" (returningPage (oneLine 6000 1 None)).

Definition shelf : list ShopProduct.t :=
  [ ShopProduct.mk "Rice" "Grains"; ShopProduct.mk "Milk" "Dairy";
    ShopProduct.mk "Mystery" EmptyString; ShopProduct.mk "Lentils" "Grains";
    ShopProduct.mk "Curd" "Dairy"; ShopProduct.mk "Apple" "Fruits" ].

(** The gift for Alice, as stored. *)
Definition giftForAlice : Coupon.t :=
  Coupon.mk "GIFT4ALICE" 75 5000 2000000000000 SPECIAL_GIFT
            (Some " Alice ") (Some "Thank you") true [].

(** Alice with a token that spells her name in capitals. *)
Definition aliceInCapitals : ReqUser.t := ReqUser.mk "u-alice" (Some "ALICE ").

(** Alice with a token issued before usernames were added, and the
    database that holds her user record. *)
Definition aliceOldToken : ReqUser.t := ReqUser.mk "u-alice" None.

Definition databaseWithAlice : Database :=
  mkDatabase sampleCoupons [] [] [User.mk "u-alice" (Some "aLiCe")].

(** The catalogue once Alice has redeemed her gift. *)
Definition databaseAfterGift : Database :=
  mkDatabase (markUsed "GIFT4ALICE" "u-alice" sampleCoupons) [] [] [].

(** A first-order coupon for Alice alone, in a shop where Bob has
    ordered. *)
Definition welcomeAliceDatabase : Database :=
  mkDatabase
    [Coupon.mk "HELLOALICE" 20 0 2000000000000 FIRST_ORDER (Some "alice")
               None true []]
    [bobsOrder] [] [].

(* ================================================================== *)
(** * Properties *)

(* ------------------------------------------------------------------ *)
(** ** Numbers *)

Lemma ltb_spec (a b : number) : ltb a b = true <-> a < b.
Proof.
  unfold ltb. rewrite negb_true_iff.
  destruct (Qle_bool b a) eqn:E.
  - apply Qle_bool_iff in E. split; [discriminate | lra].
  - split; [intros _ | reflexivity].
    apply Qnot_le_lt. intro H. apply Qle_bool_iff in H. congruence.
Qed.

Lemma geb_spec (a b : number) : geb a b = true <-> b <= a.
Proof. unfold geb. apply Qle_bool_iff. Qed.

Lemma gtb_spec (a b : number) : gtb a b = true <-> b < a.
Proof. unfold gtb. apply (ltb_spec b a). Qed.

Lemma ltb_false (a b : number) : ltb a b = false <-> b <= a.
Proof.
  rewrite <- not_true_iff_false, ltb_spec. split; intro H; lra.
Qed.

Lemma geb_false (a b : number) : geb a b = false <-> a < b.
Proof.
  rewrite <- not_true_iff_false, geb_spec. split; intro H; lra.
Qed.

Lemma gtb_false (a b : number) : gtb a b = false <-> a <= b.
Proof. unfold gtb. apply (ltb_false b a). Qed.

Lemma ltb_compat (a a' b : number) : a == a' -> ltb a b = ltb a' b.
Proof.
  intro E. destruct (ltb a' b) eqn:H.
  - apply ltb_spec. apply ltb_spec in H. lra.
  - apply ltb_false. apply ltb_false in H. lra.
Qed.

Lemma toFixed2_compat (x y : number) : x == y -> toFixed2 x = toFixed2 y.
Proof.
  intro E. unfold toFixed2.
  rewrite (ltb_compat x y 0 E).
  assert (F : Qfloor (Qabs x * 100 + (1 # 2)) = Qfloor (Qabs y * 100 + (1 # 2))).
  { apply Qfloor_comp. rewrite E. reflexivity. }
  rewrite F. reflexivity.
Qed.

Lemma toFixed2_nonneg (x : number) : 0 <= x -> 0 <= toFixed2 x.
Proof.
  intro H. unfold toFixed2.
  assert (L : ltb x 0 = false) by (apply ltb_false; exact H).
  rewrite L.
  assert (A : 0 <= Qabs x) by apply Qabs_nonneg.
  assert (F : (0 <= Qfloor (Qabs x * 100 + (1 # 2)))%Z).
  { change 0%Z with (Qfloor 0). apply Qfloor_resp_le. lra. }
  assert (I : 0 <= inject_Z (Qfloor (Qabs x * 100 + (1 # 2)))).
  { change 0 with (inject_Z 0). rewrite <- Zle_Qle. exact F. }
  unfold Qdiv. apply Qmult_le_0_compat; [exact I | ].
  apply Qlt_le_weak, Qinv_lt_0_compat. reflexivity.
Qed.

(* ------------------------------------------------------------------ *)
(** ** Delivery charge *)

Lemma deliveryTier_low (net : number) : net < 1000 -> deliveryTier net = 50.
Proof.
  intro H. unfold deliveryTier.
  assert (A : gtb net 3000 = false) by (apply gtb_false; lra).
  assert (B : geb net 1000 = false) by (apply geb_false; lra).
  rewrite A, B. reflexivity.
Qed.

Lemma deliveryTier_mid (net : number) :
  1000 <= net -> net <= 3000 -> deliveryTier net = 25.
Proof.
  intros H1 H2. unfold deliveryTier.
  assert (A : gtb net 3000 = false) by (apply gtb_false; lra).
  assert (B : geb net 1000 = true) by (apply geb_spec; lra).
  rewrite A, B. reflexivity.
Qed.

Lemma deliveryTier_high (net : number) : 3000 < net -> deliveryTier net = 0.
Proof.
  intro H. unfold deliveryTier.
  assert (A : gtb net 3000 = true) by (apply gtb_spec; lra).
  rewrite A. reflexivity.
Qed.

Lemma computeTotals_delivery (c : list CartItem) (applied : list AppliedCoupon.t) :
  deliveryCharge (computeTotals c applied)
  = deliveryTier (subtotal (computeTotals c applied)
                  - bulkDiscount (computeTotals c applied)).
Proof.
  unfold computeTotals. destruct (fold_left accumulate c (0, 0)) as [sub b].
  reflexivity.
Qed.

Lemma deliveryTier_compat (a b : number) :
  a == b -> deliveryTier a = deliveryTier b.
Proof.
  intro E. destruct (Qlt_le_dec b 1000) as [L | L].
  - rewrite !deliveryTier_low; [ reflexivity | lra | lra ].
  - destruct (Qlt_le_dec 3000 b) as [H | H].
    + rewrite !deliveryTier_high; [ reflexivity | lra | lra ].
    + rewrite !deliveryTier_mid; [ reflexivity | lra | lra | lra | lra ].
Qed.

(** C8.  For every net amount the delivery charge is 50 when the net
    amount is below 1000, 25 from 1000 to 3000 with both ends included,
    and 0 above 3000; and the charge the totals carry is this tier of
    their net amount, the subtotal less the bulk discount. *)
Theorem delivery_charge_tiering :
  forall netAmount : number,
    (netAmount < 1000 -> deliveryTier netAmount = 50)
    /\ (1000 <= netAmount /\ netAmount <= 3000 -> deliveryTier netAmount = 25)
    /\ (3000 < netAmount -> deliveryTier netAmount = 0)
    /\ deliveryTier 1000 = 25 /\ deliveryTier 3000 = 25
    /\ (forall (c : list CartItem) (applied : list AppliedCoupon.t),
           subtotal (computeTotals c applied)
           - bulkDiscount (computeTotals c applied) == netAmount ->
           deliveryCharge (computeTotals c applied) = deliveryTier netAmount).
Proof.
  intro net. repeat split.
  - apply deliveryTier_low.
  - intros [H1 H2]. now apply deliveryTier_mid.
  - apply deliveryTier_high.
  - intros c applied E. rewrite computeTotals_delivery.
    now apply deliveryTier_compat.
Qed.

Lemma delivery_charge_tiering_witness :
  deliveryCharge (computeTotals (oneLine 999 1 None) []) = 50
  /\ deliveryCharge (computeTotals (oneLine 1000 1 None) []) = 25
  /\ deliveryCharge (computeTotals (oneLine 3000 1 None) []) = 25
  /\ deliveryCharge (computeTotals (oneLine 3001 1 None) []) = 0.
Proof.
  destruct (delivery_charge_tiering 999) as (A1 & _ & _ & _ & _ & B1).
  destruct (delivery_charge_tiering 1000) as (_ & A2 & _ & _ & _ & B2).
  destruct (delivery_charge_tiering 3000) as (_ & A3 & _ & _ & _ & B3).
  destruct (delivery_charge_tiering 3001) as (_ & _ & A4 & _ & _ & B4).
  split; [ | split; [ | split ] ].
  - rewrite (B1 (oneLine 999 1 None) []) by (vm_compute; reflexivity).
    apply A1. vm_compute. reflexivity.
  - rewrite (B2 (oneLine 1000 1 None) []) by (vm_compute; reflexivity).
    apply A2. split; vm_compute; discriminate.
  - rewrite (B3 (oneLine 3000 1 None) []) by (vm_compute; reflexivity).
    apply A3. split; vm_compute; discriminate.
  - rewrite (B4 (oneLine 3001 1 None) []) by (vm_compute; reflexivity).
    apply A4. vm_compute. reflexivity.
Defined.

(* ------------------------------------------------------------------ *)
(** ** Bulk discount *)

Lemma bulkSaving_formula (item : CartItem) (r : BulkRule.t) :
  (0 <= quantity item)%Z -> (0 < BulkRule.qty r)%Z ->
  bulkSaving item r
  == inject_Z (quantity item) * price item
     - (inject_Z (quantity item / BulkRule.qty r) * BulkRule.price r
        + inject_Z (quantity item mod BulkRule.qty r) * price item).
Proof.
  intros HQ HN. unfold bulkSaving.
  rewrite Z.rem_mod_nonneg by assumption. reflexivity.
Qed.

Lemma bulkSaving_bundles (item : CartItem) (r : BulkRule.t) :
  (0 <= quantity item)%Z -> (0 < BulkRule.qty r)%Z ->
  bulkSaving item r
  == inject_Z (quantity item / BulkRule.qty r)
     * (inject_Z (BulkRule.qty r) * price item - BulkRule.price r).
Proof.
  intros HQ HN. rewrite bulkSaving_formula by assumption.
  assert (D : inject_Z (quantity item)
              == inject_Z (BulkRule.qty r) * inject_Z (quantity item / BulkRule.qty r)
                 + inject_Z (quantity item mod BulkRule.qty r)).
  { rewrite <- inject_Z_mult, <- inject_Z_plus.
    rewrite <- Z.div_mod by lia. reflexivity. }
  rewrite D at 1. ring.
Qed.

Lemma bulkSaving_nonneg (item : CartItem) (r : BulkRule.t) :
  (0 <= quantity item)%Z -> (0 < BulkRule.qty r)%Z ->
  BulkRule.price r <= inject_Z (BulkRule.qty r) * price item ->
  0 <= bulkSaving item r.
Proof.
  intros HQ HN HB. rewrite bulkSaving_bundles by assumption.
  apply Qmult_le_0_compat.
  - change 0 with (inject_Z 0). rewrite <- Zle_Qle.
    apply Z.div_pos; assumption.
  - lra.
Qed.

Lemma bulkDiscount_one_line_rule (item : CartItem) (r : BulkRule.t)
    (applied : list AppliedCoupon.t) :
  bulkRule item = Some r ->
  bulkDiscount (computeTotals [item] applied) = toFixed2 (bulkSaving item r).
Proof.
  intro H. unfold computeTotals. simpl. rewrite H. simpl.
  apply toFixed2_compat. ring.
Qed.

Lemma bulkDiscount_one_line_none (item : CartItem)
    (applied : list AppliedCoupon.t) :
  bulkRule item = None ->
  bulkDiscount (computeTotals [item] applied) = toFixed2 0.
Proof.
  intro H. unfold computeTotals. simpl. rewrite H. reflexivity.
Qed.

(** C4, as the code has it.  For a cart line with unit price P, quantity
    Q >= 0 and a bulk rule of N > 0 units for B, the bulk discount is
    Q*P - (floor(Q/N)*B + (Q mod N)*P) rounded to two decimals, with no
    clamp at zero; it is non-negative whenever the bundle is not dearer
    than N single units (B <= N*P).  A line without a bulk rule has
    discount 0. *)
Theorem bulk_discount_of_line :
  forall (item : CartItem) (applied : list AppliedCoupon.t),
    (forall r : BulkRule.t,
        bulkRule item = Some r ->
        (0 <= quantity item)%Z -> (0 < BulkRule.qty r)%Z ->
        bulkDiscount (computeTotals [item] applied)
        == toFixed2
             (inject_Z (quantity item) * price item
              - (inject_Z (quantity item / BulkRule.qty r) * BulkRule.price r
                 + inject_Z (quantity item mod BulkRule.qty r) * price item))
        /\ (BulkRule.price r <= inject_Z (BulkRule.qty r) * price item ->
            0 <= bulkDiscount (computeTotals [item] applied)))
    /\ (bulkRule item = None ->
        bulkDiscount (computeTotals [item] applied) == 0).
Proof.
  intros item applied. split.
  - intros r H HQ HN. rewrite (bulkDiscount_one_line_rule item r applied H).
    split.
    + rewrite (toFixed2_compat _ _ (bulkSaving_formula item r HQ HN)).
      reflexivity.
    + intro HB. apply toFixed2_nonneg. now apply bulkSaving_nonneg.
  - intro H. rewrite (bulkDiscount_one_line_none item applied H).
    vm_compute. reflexivity.
Qed.

Lemma bulk_discount_of_line_witness :
  bulkDiscount (computeTotals (oneLine 20 6 (Some (BulkRule.mk 6 100))) []) == 20
  /\ 0 <= bulkDiscount (computeTotals (oneLine 20 6 (Some (BulkRule.mk 6 100))) [])
  /\ bulkDiscount (computeTotals (oneLine 20 6 None) []) == 0.
Proof.
  pose (item := mkCartItem "p1" 20 6 100 (Some (BulkRule.mk 6 100))).
  pose (plain := mkCartItem "p1" 20 6 100 None).
  destruct (bulk_discount_of_line item []) as [R _].
  destruct (R (BulkRule.mk 6 100) eq_refl) as [E N];
    [ vm_compute; discriminate | reflexivity | ].
  destruct (bulk_discount_of_line plain []) as [_ Z0].
  split; [ | split ].
  - change (oneLine 20 6 (Some (BulkRule.mk 6 100))) with [item].
    rewrite E. vm_compute. reflexivity.
  - apply N. vm_compute. discriminate.
  - apply Z0. reflexivity.
Defined.

(** C4, as the specification words it, fails: a bundle of 2 for 100 on a
    unit price of 10 makes the computed discount -80, where the clamped
    formula gives 0. *)
Lemma bulk_discount_clamp_counterexample :
  bulkDiscount (computeTotals (oneLine 10 2 (Some (BulkRule.mk 2 100))) []) == -80
  /\ bulkDiscount (computeTotals (oneLine 10 2 (Some (BulkRule.mk 2 100))) []) < 0
  /\ specBulkDiscount 10 2 2 100 == 0
  /\ ~ bulkDiscount (computeTotals (oneLine 10 2 (Some (BulkRule.mk 2 100))) [])
       == specBulkDiscount 10 2 2 100.
Proof.
  repeat split; vm_compute; discriminate.
Qed.

(* ------------------------------------------------------------------ *)
(** ** Order placement *)

Lemma calculatedTotal_from (items : list OrderItem.t) (acc : number) :
  fold_left (fun sum item =>
               sum + OrderItem.price item * inject_Z (OrderItem.quantity item))
            items acc
  == acc + sumOfLines items.
Proof.
  revert acc. induction items as [| i rest IH]; intro acc; simpl.
  - ring.
  - rewrite IH. ring.
Qed.

Lemma calculatedTotal_sum (items : list OrderItem.t) :
  calculatedTotal items == sumOfLines items.
Proof.
  unfold calculatedTotal. rewrite calculatedTotal_from. ring.
Qed.

Lemma persistedOrder_append (c : list Coupon.t) (os : list Order.t)
    (o : Order.t) (ps : list Product.t) (us : list User.t) :
  persistedOrder (mkDatabase c (os ++ [o]) ps us) = Some o.
Proof.
  unfold persistedOrder. simpl. rewrite map_app. simpl. apply last_last.
Qed.

Lemma parseOrder_ignores_client_totals (t ft : option number)
    (raw : RawOrderBody.t) :
  parseOrder (withClientTotals t ft raw) = parseOrder raw.
Proof. reflexivity. Qed.

Lemma parseOrder_items (raw : RawOrderBody.t) (body : OrderBody.t) :
  parseOrder raw = Some body -> OrderBody.items body = RawOrderBody.items raw.
Proof.
  unfold parseOrder. destruct (forallb _ _); [ | discriminate ].
  intro H. injection H as <-. reflexivity.
Qed.

(** The route as the server has it now.  Whenever an order request is
    accepted, the order it stores has as [totalAmount] the sum over the
    submitted items of price times quantity, which the server computes;
    the [total] and [finalTotal] the client sends change neither the
    stored order nor the answer. *)
Theorem order_total_is_recomputed :
  forall (db : Database) (now : Z) (user : ReqUser.t) (raw : RawOrderBody.t)
         (db' : Database) (resp : OrderResponse.t),
    placeOrder db now user raw = Some (db', resp) ->
    (exists o : Order.t,
        persistedOrder db' = Some o
        /\ Order.totalAmount o = calculatedTotal (RawOrderBody.items raw)
        /\ Order.totalAmount o == sumOfLines (RawOrderBody.items raw))
    /\ (forall total finalTotal : option number,
           placeOrder db now user (withClientTotals total finalTotal raw)
           = Some (db', resp)).
Proof.
  intros db now user raw db' resp H. unfold placeOrder in *.
  split.
  - destruct (parseOrder raw) as [body |] eqn:P; [ | discriminate ].
    injection H as <- <-.
    pose proof (parseOrder_items raw body P) as I.
    unfold createOrder. rewrite I.
    eexists. split; [ apply persistedOrder_append | ].
    simpl. split; [ reflexivity | apply calculatedTotal_sum ].
  - intros t ft. rewrite parseOrder_ignores_client_totals. exact H.
Qed.

Lemma order_total_is_recomputed_witness :
  exists db' resp o,
    placeOrder emptyDatabase 1700000000000 alice sampleOrderBody
    = Some (db', resp)
    /\ persistedOrder db' = Some o
    /\ Order.totalAmount o == 25.
Proof.
  destruct (placeOrder emptyDatabase 1700000000000 alice sampleOrderBody)
    as [[db' resp] |] eqn:E; [ | discriminate E ].
  destruct (order_total_is_recomputed emptyDatabase 1700000000000 alice
              sampleOrderBody db' resp E) as [[o [P [_ S]]] _].
  exists db', resp, o. split; [ reflexivity | ].
  split; [ exact P | ].
  rewrite S. vm_compute. reflexivity.
Defined.

(** The route in the first copy of the server accepts every request that
    carries a [total] and a [finalTotal], and stores both as sent. *)
Lemma placeOrderLegacy_stores_client_totals (db : Database) (now : Z)
    (user : ReqUser.t) (raw : RawOrderBody.t) (total finalTotal : number) :
  RawOrderBody.total raw = Some total ->
  RawOrderBody.finalTotal raw = Some finalTotal ->
  exists db' resp o,
    placeOrderLegacy db now user raw = Some (db', resp)
    /\ persistedOrder db' = Some o
    /\ Order.items o = RawOrderBody.items raw
    /\ Order.totalAmount o = total
    /\ Order.finalAmount o = finalTotal.
Proof.
  intros T F. unfold placeOrderLegacy. rewrite T, F.
  do 3 eexists. split; [ reflexivity | ].
  split; [ apply persistedOrder_append | ].
  repeat split.
Qed.

(** C1, the defect.  The sample request has items worth 2 * 10 + 1 * 5 =
    25 and declares a total of 1.  The route in the first copy of the
    server accepts it and stores the order with a [totalAmount] of 1,
    which is not the sum over the submitted items; the route as the
    server has it now stores 25 for the same request. *)
Theorem legacy_order_keeps_client_total :
  sumOfLines (RawOrderBody.items sampleOrderBody) == 25
  /\ RawOrderBody.total sampleOrderBody = Some 1
  /\ (exists db' resp o,
        placeOrderLegacy emptyDatabase 1700000000000 alice sampleOrderBody
        = Some (db', resp)
        /\ persistedOrder db' = Some o
        /\ Order.items o = RawOrderBody.items sampleOrderBody
        /\ Order.totalAmount o == 1
        /\ ~ Order.totalAmount o == sumOfLines (Order.items o))
  /\ (exists db' resp o,
        placeOrder emptyDatabase 1700000000000 alice sampleOrderBody
        = Some (db', resp)
        /\ persistedOrder db' = Some o
        /\ Order.items o = RawOrderBody.items sampleOrderBody
        /\ Order.totalAmount o == 25).
Proof.
  split; [ vm_compute; reflexivity | ].
  split; [ reflexivity | ].
  split.
  - do 3 eexists. split; [ reflexivity | ].
    split; [ reflexivity | ].
    split; [ reflexivity | ].
    split; vm_compute; [ reflexivity | discriminate ].
  - do 3 eexists. split; [ reflexivity | ].
    split; [ reflexivity | ].
    split; [ reflexivity | vm_compute; reflexivity ].
Qed.

(* ------------------------------------------------------------------ *)
(** ** Coupon usage ledger *)

Lemma includes_refl (x : string) (xs : list string) :
  includes x (x :: xs) = true.
Proof. unfold includes. simpl. rewrite String.eqb_refl. reflexivity. Qed.

Lemma includes_snoc (x : string) (xs : list string) :
  includes x (xs ++ [x]) = true.
Proof.
  unfold includes. rewrite existsb_app. simpl.
  rewrite String.eqb_refl. apply orb_true_iff. right. reflexivity.
Qed.

Lemma addToSet_code (uid : string) (c : Coupon.t) :
  Coupon.code (addToSet uid c) = Coupon.code c.
Proof. unfold addToSet. destruct (includes uid (Coupon.usedBy c)); reflexivity. Qed.

Lemma addToSet_hasUsed (uid : string) (c : Coupon.t) :
  hasUsed (addToSet uid c) uid = true.
Proof.
  unfold hasUsed, addToSet.
  destruct (includes uid (Coupon.usedBy c)) eqn:E; [ exact E | ].
  simpl. apply includes_snoc.
Qed.

Lemma addToSet_idempotent (uid : string) (c : Coupon.t) :
  addToSet uid (addToSet uid c) = addToSet uid c.
Proof.
  pose proof (addToSet_hasUsed uid c) as H. unfold hasUsed in H.
  unfold addToSet at 1. rewrite H. reflexivity.
Qed.

Lemma updateManyAddToSet_idempotent (codes : list string) (uid : string)
    (cs : list Coupon.t) :
  updateManyAddToSet codes uid (updateManyAddToSet codes uid cs)
  = updateManyAddToSet codes uid cs.
Proof.
  unfold updateManyAddToSet. rewrite map_map. apply map_ext. intro c.
  destruct (includes (Coupon.code c) codes) eqn:E.
  - rewrite addToSet_code, E. apply addToSet_idempotent.
  - rewrite E. reflexivity.
Qed.

Lemma find_code_updateMany (k : string) (codes : list string) (uid : string)
    (cs : list Coupon.t) :
  find (fun c => String.eqb (Coupon.code c) k) (updateManyAddToSet codes uid cs)
  = option_map (fun c => if includes (Coupon.code c) codes
                         then addToSet uid c else c)
               (find (fun c => String.eqb (Coupon.code c) k) cs).
Proof.
  unfold updateManyAddToSet. induction cs as [| c rest IH]; simpl.
  - reflexivity.
  - assert (K : Coupon.code (if includes (Coupon.code c) codes
                             then addToSet uid c else c) = Coupon.code c).
    { destruct (includes (Coupon.code c) codes);
        [ apply addToSet_code | reflexivity ]. }
    rewrite K. destruct (String.eqb (Coupon.code c) k); [ reflexivity | exact IH ].
Qed.

Lemma find_code_some (k : string) (cs : list Coupon.t) :
  (exists c, In c cs /\ Coupon.code c = k) ->
  exists c, find (fun c => String.eqb (Coupon.code c) k) cs = Some c
            /\ Coupon.code c = k.
Proof.
  intros [c [I E]].
  destruct (find (fun c => String.eqb (Coupon.code c) k) cs) as [d |] eqn:F.
  - exists d. split; [ reflexivity | ].
    apply find_some in F. destruct F as [_ F]. now apply String.eqb_eq.
  - exfalso. pose proof (find_none _ _ F c I) as N. simpl in N.
    rewrite E, String.eqb_refl in N. discriminate.
Qed.

(** C9.  Marking a coupon used twice for the same code and user leaves
    the collection exactly as marking it once; the operation is a total
    function, so a duplicate raises nothing; and when the code names a
    coupon, [hasUsed] answers true afterwards. *)
Theorem markUsed_idempotent :
  forall (couponCode userId : string) (cs : list Coupon.t),
    markUsed couponCode userId (markUsed couponCode userId cs)
    = markUsed couponCode userId cs
    /\ ((exists c, In c cs /\ Coupon.code c = couponCode) ->
        hasUsedCode couponCode userId (markUsed couponCode userId cs) = true).
Proof.
  intros k uid cs. split.
  - apply updateManyAddToSet_idempotent.
  - intro H. destruct (find_code_some k cs H) as [c [F E]].
    unfold hasUsedCode, markUsed. rewrite find_code_updateMany, F.
    cbn [option_map]. rewrite E, includes_refl. apply addToSet_hasUsed.
Qed.

Lemma markUsed_idempotent_witness :
  markUsed "NEPAL100" "u-alice" (markUsed "NEPAL100" "u-alice" sampleCoupons)
  = markUsed "NEPAL100" "u-alice" sampleCoupons
  /\ hasUsedCode "NEPAL100" "u-alice"
       (markUsed "NEPAL100" "u-alice" sampleCoupons) = true
  /\ usedByOf "NEPAL100" (markUsed "NEPAL100" "u-alice" sampleCoupons)
     = Some ["u-alice"].
Proof.
  destruct (markUsed_idempotent "NEPAL100" "u-alice" sampleCoupons) as [I H].
  split; [ exact I | ].
  split; [ | reflexivity ].
  apply H. eexists. split; [ left; reflexivity | reflexivity ].
Defined.

(** The order route marks coupons through the same update, so replaying a
    request leaves every [usedBy] array as the first request left it. *)
Lemma createOrder_marks_once (db : Database) (now now' : Z) (user : ReqUser.t)
    (body : OrderBody.t) :
  coupons (fst (createOrder (fst (createOrder db now user body)) now' user body))
  = coupons (fst (createOrder db now user body)).
Proof.
  unfold createOrder. simpl.
  destruct (OrderBody.couponCodes body) as [[| c cs] |]; try reflexivity.
  apply updateManyAddToSet_idempotent.
Qed.

(* ------------------------------------------------------------------ *)
(** ** Coupon validation *)

Lemma truthy_some (s : string) : s <> EmptyString -> truthy (Some s) = true.
Proof. destruct s; [ congruence | reflexivity ]. Qed.

Lemma truthy_inv (o : option string) :
  truthy o = true -> exists s, o = Some s /\ s <> EmptyString.
Proof.
  destruct o as [[| a r] |]; try discriminate.
  intros _. eexists. split; [ reflexivity | discriminate ].
Qed.

Lemma validateCouponWith_found (sq : bool) (f : string -> OrderFilter)
    (db : Database) (now : Z) (user : ReqUser.t) (code : string)
    (total : number) (c : Coupon.t) :
  findCoupon (toUpperCase code) (coupons db) = Some c ->
  validateCouponWith sq f db now user code total
  = checkCoupon sq f db now (ReqUser.id user) (resolveUsername db user) total c.
Proof. intro F. unfold validateCouponWith. rewrite F. reflexivity. Qed.

(** A coupon that is targeted or of type SPECIAL_GIFT is checked without
    looking at the order total. *)
Lemma checkCoupon_gift_ignores_total (sq : bool) (f : string -> OrderFilter)
    (db : Database) (now : Z) (uid : string) (username : option string)
    (total total' : number) (c : Coupon.t) :
  truthy (Coupon.targetUsername c) = true \/ Coupon.type c = SPECIAL_GIFT ->
  checkCoupon sq f db now uid username total c
  = checkCoupon sq f db now uid username total' c.
Proof.
  intro G. unfold checkCoupon.
  assert (S : truthy (Coupon.targetUsername c)
              || CouponType_eqb (Coupon.type c) SPECIAL_GIFT = true).
  { destruct G as [G | G]; rewrite G; [ reflexivity | apply orb_true_r ]. }
  rewrite S. reflexivity.
Qed.

Lemma allAscii_complete (a : ascii) : In a allAscii.
Proof.
  rewrite <- (ascii_nat_embedding a). apply in_map. apply in_seq.
  pose proof (nat_ascii_bounded a). lia.
Qed.

(** Lower-casing identifies exactly the characters that are the same
    letter. *)
Lemma lowerChar_sameLetter (a b : ascii) :
  Ascii.eqb (lowerChar a) (lowerChar b) = sameLetter a b.
Proof.
  assert (H : forallb (fun x =>
                forallb (fun y =>
                  Bool.eqb (Ascii.eqb (lowerChar x) (lowerChar y))
                           (sameLetter x y)) allAscii) allAscii = true)
    by (vm_compute; reflexivity).
  rewrite forallb_forall in H. specialize (H a (allAscii_complete a)).
  rewrite forallb_forall in H. specialize (H b (allAscii_complete b)).
  now apply Bool.eqb_prop in H.
Qed.

(** Comparing the lower-cased strings is comparing up to case. *)
Lemma toLowerCase_eqb (s1 s2 : string) :
  String.eqb (toLowerCase s1) (toLowerCase s2) = equalIgnoringCase s1 s2.
Proof.
  revert s2. induction s1 as [| c1 r1 IH]; intros [| c2 r2]; try reflexivity.
  cbn [toLowerCase mapString String.eqb equalIgnoringCase].
  change (mapString lowerChar) with toLowerCase.
  now rewrite lowerChar_sameLetter, IH.
Qed.

(** The answer of the route for a coupon with a target, check by check. *)
Lemma checkCoupon_targeted (sq : bool) (f : string -> OrderFilter)
    (db : Database) (now : Z) (uid : string) (username : option string)
    (total : number) (c : Coupon.t) (t : string) :
  Coupon.targetUsername c = Some t -> t <> EmptyString ->
  checkCoupon sq f db now uid username total c
  = if (Coupon.expiryDate c <? now)%Z then Invalid Expired
    else if truthy username && hasUsed c uid then Invalid AlreadyRedeemed
    else if usernameMatches username t then
      if CouponType_eqb (Coupon.type c) FIRST_ORDER
         && (0 <? countDocuments sq (f uid) (orders db))%nat
      then Invalid FirstOrderOnly
      else Valid (viewOf c)
    else Invalid NotYourCoupon.
Proof.
  intros T Tne. unfold checkCoupon, usernameMatches.
  rewrite T, (truthy_some t Tne).
  destruct (Coupon.expiryDate c <? now)%Z; [ reflexivity | ].
  destruct username as [u |]; [ | reflexivity ].
  destruct (truthy (Some u)) eqn:U; cbn [andb orb negb]; [ | reflexivity ].
  destruct (hasUsed c uid); [ reflexivity | ].
  rewrite String.eqb_sym, toLowerCase_eqb.
  destruct (equalIgnoringCase (trim u) (trim t)); reflexivity.
Qed.

(** C5.  For a coupon with a target username: a request is accepted only
    if the requesting user has a name that equals the target, both
    trimmed and compared without regard to case; such a request is
    accepted when the coupon has not expired, the user has not redeemed it
    and the first-order check passes; and a request whose name does not
    match, or that has no name, is refused as not available for the
    account unless the expiry or the already-redeemed check refuses it
    first.  For a targeted or SPECIAL_GIFT coupon the answer does not
    depend on the order total, so the minimum order amount is never
    applied. *)
Theorem targeted_coupon_validation :
  forall (sq : bool) (db : Database) (now : Z) (user : ReqUser.t)
         (code : string) (c : Coupon.t),
    findCoupon (toUpperCase code) (coupons db) = Some c ->
    (forall t : string,
        Coupon.targetUsername c = Some t -> t <> EmptyString ->
        (forall total : number,
            isValid (validateCoupon sq db now user code total) = true ->
            usernameMatches (resolveUsername db user) t = true)
        /\ (forall total : number,
               usernameMatches (resolveUsername db user) t = true ->
               (Coupon.expiryDate c <? now)%Z = false ->
               hasUsed c (ReqUser.id user) = false ->
               CouponType_eqb (Coupon.type c) FIRST_ORDER
               && (0 <? countDocuments sq (ByUserId (ReqUser.id user))
                                       (orders db))%nat
               = false ->
               validateCoupon sq db now user code total = Valid (viewOf c))
        /\ (forall total : number,
               usernameMatches (resolveUsername db user) t = false ->
               (Coupon.expiryDate c <? now)%Z = false ->
               truthy (resolveUsername db user)
               && hasUsed c (ReqUser.id user) = false ->
               validateCoupon sq db now user code total
               = Invalid NotYourCoupon))
    /\ (truthy (Coupon.targetUsername c) = true
        \/ Coupon.type c = SPECIAL_GIFT ->
        forall total total' : number,
          validateCoupon sq db now user code total
          = validateCoupon sq db now user code total').
Proof.
  intros sq db now user code c F. unfold validateCoupon. split.
  - intros t T Tne.
    assert (E : forall total,
               validateCouponWith sq ByUserId db now user code total
               = checkCoupon sq ByUserId db now (ReqUser.id user)
                             (resolveUsername db user) total c)
      by (intro total; apply (validateCouponWith_found _ _ _ _ _ _ _ _ F)).
    split; [ | split ].
    + intros total V. rewrite E, (checkCoupon_targeted _ _ _ _ _ _ _ _ t T Tne) in V.
      destruct (Coupon.expiryDate c <? now)%Z; [ discriminate V | ].
      destruct (truthy (resolveUsername db user) && hasUsed c (ReqUser.id user));
        [ discriminate V | ].
      destruct (usernameMatches (resolveUsername db user) t);
        [ reflexivity | discriminate V ].
    + intros total M X H FO.
      rewrite E, (checkCoupon_targeted _ _ _ _ _ _ _ _ t T Tne).
      rewrite X, H, andb_false_r, M, FO. reflexivity.
    + intros total M X H.
      rewrite E, (checkCoupon_targeted _ _ _ _ _ _ _ _ t T Tne).
      rewrite X, H, M. reflexivity.
  - intros G total total'.
    rewrite !(validateCouponWith_found _ _ _ _ _ _ _ _ F).
    now apply checkCoupon_gift_ignores_total.
Qed.

Lemma targeted_coupon_validation_witness :
  validateCoupon false sampleDatabase 1700000000000 aliceInCapitals
                 "gift4alice" 10 = Valid (viewOf giftForAlice)
  /\ validateCoupon false databaseWithAlice 1700000000000 aliceOldToken
                    "gift4alice" 10 = Valid (viewOf giftForAlice)
  /\ validateCoupon false sampleDatabase 1700000000000 bob "gift4alice" 10
     = Invalid NotYourCoupon
  /\ validateCoupon false sampleDatabase 1700000000000 aliceOldToken
                    "gift4alice" 10 = Invalid NotYourCoupon
  /\ validateCoupon false sampleDatabase 1700000000000 alice "gift4alice" 10
     = validateCoupon false sampleDatabase 1700000000000 alice "gift4alice" 9000.
Proof.
  assert (Ne : " Alice " <> EmptyString) by discriminate.
  destruct (targeted_coupon_validation false sampleDatabase 1700000000000
              aliceInCapitals "gift4alice" giftForAlice eq_refl) as [A _].
  destruct (A " Alice " eq_refl Ne) as [_ [A2 _]].
  destruct (targeted_coupon_validation false databaseWithAlice 1700000000000
              aliceOldToken "gift4alice" giftForAlice eq_refl) as [B _].
  destruct (B " Alice " eq_refl Ne) as [_ [B2 _]].
  destruct (targeted_coupon_validation false sampleDatabase 1700000000000
              bob "gift4alice" giftForAlice eq_refl) as [C _].
  destruct (C " Alice " eq_refl Ne) as [_ [_ C3]].
  destruct (targeted_coupon_validation false sampleDatabase 1700000000000
              aliceOldToken "gift4alice" giftForAlice eq_refl) as [D _].
  destruct (D " Alice " eq_refl Ne) as [_ [_ D3]].
  destruct (targeted_coupon_validation false sampleDatabase 1700000000000
              alice "gift4alice" giftForAlice eq_refl) as [_ G].
  split; [ | split; [ | split; [ | split ] ] ].
  - apply A2; reflexivity.
  - apply B2; reflexivity.
  - apply C3; reflexivity.
  - apply D3; reflexivity.
  - apply G. left. reflexivity.
Defined.

(** A matching name is not enough.  Alice, whose name matches the target
    of her gift, is refused once the gift has expired and once she has
    redeemed it; and with [strictQuery] on, the first-order coupon that
    targets her is refused because Bob has ordered. *)
Lemma matching_name_is_not_enough :
  findCoupon (toUpperCase "GIFT4ALICE") (coupons sampleDatabase)
  = Some giftForAlice
  /\ usernameMatches (resolveUsername sampleDatabase alice) " Alice " = true
  /\ validateCoupon false sampleDatabase 2000000000001 alice "GIFT4ALICE" 10
     = Invalid Expired
  /\ validateCoupon false databaseAfterGift 1700000000000 alice "GIFT4ALICE" 10
     = Invalid AlreadyRedeemed
  /\ usernameMatches (resolveUsername welcomeAliceDatabase alice) "alice" = true
  /\ validateCoupon true welcomeAliceDatabase 1700000000000 alice
                    "HELLOALICE" 10 = Invalid FirstOrderOnly.
Proof.
  repeat split; vm_compute; reflexivity.
Qed.

(** The first-order count of the route never looks at who placed an
    order: with [strictQuery] off it is 0, with it on it is the number of
    all orders. *)
Lemma countDocuments_by_userId (sq : bool) (uid : string) (os : list Order.t) :
  countDocuments sq (ByUserId uid) os = if sq then List.length os else 0%nat.
Proof.
  unfold countDocuments. destruct sq; simpl.
  - induction os as [| o rest IH]; simpl; [ reflexivity | now rewrite IH ].
  - induction os as [| o rest IH]; simpl; [ reflexivity | exact IH ].
Qed.

(** The copy of the route that filters on [{ user: userId }] does what
    the specification asks of a FIRST_ORDER coupon: past the earlier
    checks, it is refused when the user has an order and accepted when
    the user has none. *)
Lemma first_order_check_by_user (sq : bool) (db : Database) (now : Z)
    (user : ReqUser.t) (code : string) (total : number) (c : Coupon.t) :
  findCoupon (toUpperCase code) (coupons db) = Some c ->
  Coupon.type c = FIRST_ORDER ->
  (Coupon.expiryDate c <? now)%Z = false ->
  hasUsed c (ReqUser.id user) = false ->
  truthy (Coupon.targetUsername c) = false ->
  truthyNum (Coupon.minOrderAmount c) && ltb total (Coupon.minOrderAmount c)
  = false ->
  validateCouponByUser sq db now user code total
  = if (0 <? countDocuments sq (ByUser (ReqUser.id user)) (orders db))%nat
    then Invalid FirstOrderOnly else Valid (viewOf c).
Proof.
  intros F T X H G M. unfold validateCouponByUser.
  rewrite (validateCouponWith_found _ _ _ _ _ _ _ _ F).
  unfold checkCoupon. rewrite X, H, G, T, andb_false_r. cbn [orb negb andb CouponType_eqb].
  rewrite M. reflexivity.
Qed.

(** C6, the defect.  Bob has one stored order and Carol none.  With
    [strictQuery] off the route accepts the FIRST_ORDER coupon for Bob;
    with it on it refuses Carol once anybody has ordered.  The copy that
    filters on [user] refuses Bob and accepts Carol under either
    setting. *)
Theorem first_order_check_counts_wrong_field :
  countDocuments false (ByUser "u-bob") (orders databaseAfterBobsOrder) = 1%nat
  /\ isValid (validateCoupon false databaseAfterBobsOrder 1700000000000 bob
                "WELCOME" 500) = true
  /\ countDocuments true (ByUser "u-carol") (orders databaseAfterBobsOrder) = 0%nat
  /\ validateCoupon true databaseAfterBobsOrder 1700000000000 carol
       "WELCOME" 500 = Invalid FirstOrderOnly
  /\ (forall sq : bool,
         validateCouponByUser sq databaseAfterBobsOrder 1700000000000 bob
           "WELCOME" 500 = Invalid FirstOrderOnly
         /\ isValid (validateCouponByUser sq databaseAfterBobsOrder
                       1700000000000 carol "WELCOME" 500) = true).
Proof.
  repeat split; try reflexivity; destruct sq; reflexivity.
Qed.

Lemma checkCoupon_without_username (sq : bool) (f : string -> OrderFilter)
    (db : Database) (now : Z) (uid : string) (username : option string)
    (total : number) (c : Coupon.t) (l : list string) :
  truthy username = false ->
  checkCoupon sq f db now uid username total c
  = checkCoupon sq f db now uid username total (withUsedBy l c).
Proof. intro U. unfold checkCoupon. rewrite U. reflexivity. Qed.

(** C10.  When no username can be resolved for the request, the answer is
    the one the coupon would get with an empty [usedBy] array: a user who
    is in [usedBy] is not refused as having redeemed the coupon, and is
    reported valid once the expiry, target, minimum-order and first-order
    checks pass. *)
Theorem unresolved_username_skips_redeemed_check :
  forall (sq : bool) (db : Database) (now : Z) (user : ReqUser.t)
         (code : string) (total : number) (c : Coupon.t),
    truthy (resolveUsername db user) = false ->
    findCoupon (toUpperCase code) (coupons db) = Some c ->
    hasUsed c (ReqUser.id user) = true ->
    validateCoupon sq db now user code total
    = checkCoupon sq ByUserId db now (ReqUser.id user)
                  (resolveUsername db user) total (withUsedBy [] c)
    /\ validateCoupon sq db now user code total <> Invalid AlreadyRedeemed
    /\ ((Coupon.expiryDate c <? now)%Z = false ->
        truthy (Coupon.targetUsername c) = false ->
        Coupon.type c = SPECIAL_GIFT
        \/ truthyNum (Coupon.minOrderAmount c)
           && ltb total (Coupon.minOrderAmount c) = false ->
        CouponType_eqb (Coupon.type c) FIRST_ORDER
        && (0 <? countDocuments sq (ByUserId (ReqUser.id user)) (orders db))%nat
        = false ->
        validateCoupon sq db now user code total = Valid (viewOf c)).
Proof.
  intros sq db now user code total c U F H. unfold validateCoupon.
  rewrite (validateCouponWith_found _ _ _ _ _ _ _ _ F).
  split; [ now apply checkCoupon_without_username | ].
  unfold checkCoupon. rewrite U. cbn [andb].
  split.
  - destruct (Coupon.expiryDate c <? now)%Z; [ discriminate | ].
    destruct (truthy (Coupon.targetUsername c)); [ discriminate | ].
    cbn [orb negb andb].
    destruct (negb (CouponType_eqb (Coupon.type c) SPECIAL_GIFT)
              && truthyNum (Coupon.minOrderAmount c)
              && ltb total (Coupon.minOrderAmount c)); [ discriminate | ].
    destruct (CouponType_eqb (Coupon.type c) FIRST_ORDER
              && (0 <? countDocuments sq (ByUserId (ReqUser.id user)) (orders db))%nat);
      discriminate.
  - intros X T M FO. rewrite X, T. cbn [orb negb andb]. rewrite FO.
    destruct M as [M | M].
    + rewrite M. reflexivity.
    + rewrite <- andb_assoc, M, andb_false_r. reflexivity.
Qed.

Lemma unresolved_username_skips_redeemed_check_witness :
  hasUsedCode "NEPAL100" "u-old" (coupons databaseAfterRedemption) = true
  /\ isValid (validateCoupon false databaseAfterRedemption 1700000000000
                nameless "NEPAL100" 8200) = true.
Proof.
  split; [ reflexivity | ].
  pose (c := Coupon.mk "NEPAL100" 100 8000 2000000000000 REGULAR None None
                       true ["u-old"]).
  destruct (unresolved_username_skips_redeemed_check false
              databaseAfterRedemption 1700000000000 nameless "NEPAL100" 8200 c
              eq_refl eq_refl eq_refl) as [_ [_ V]].
  rewrite V; try reflexivity. right. reflexivity.
Defined.

(** With a username the same request is refused. *)
Remark resolved_username_is_refused :
  validateCoupon false
    (mkDatabase (markUsed "NEPAL100" "u-bob" sampleCoupons) [] [] [])
    1700000000000 bob "NEPAL100" 8200
  = Invalid AlreadyRedeemed.
Proof. reflexivity. Qed.

(* ------------------------------------------------------------------ *)
(** ** Cart edits and the applied coupons *)

Lemma appliedCoupons_dispatch (env : Env) (a : CartAction) (p : Page) :
  appliedCoupons (dispatch env a p) = appliedCoupons p.
Proof. reflexivity. Qed.

Lemma appliedCoupons_clear (p : Page) :
  appliedCoupons (handleClearAllCoupons p) = [].
Proof. reflexivity. Qed.

(** C7, as the code has it.  Removing a cart line and lowering a line's
    quantity empty the applied-coupon set, whatever it held; raising a
    line's quantity leaves the applied-coupon set as it was. *)
Theorem cart_edits_and_coupons :
  forall (env : Env) (item : CartItem) (p : Page),
    appliedCoupons (handle env (ClickTrash item) p) = []
    /\ appliedCoupons (handle env (ClickMinus item) p) = []
    /\ appliedCoupons (handle env (ClickPlus item) p) = appliedCoupons p.
Proof.
  intros env item p. cbn [handle]. repeat split.
  unfold onPlus. destruct (negb (stock item <=? quantity item)%Z); reflexivity.
Qed.

(** C7 as the specification words it fails on the plus button: with
    NEPAL100 applied to a line of 8200, one more unit leaves NEPAL100
    applied. *)
Lemma plus_button_keeps_coupons :
  let item := mkCartItem "p1" 8200 1 100 None in
  let before := run (sampleEnv alice) [EffectRuns] (returningPage [item]) in
  let after := handle (sampleEnv alice) (ClickPlus item) before in
  codesOf (appliedCoupons before) = ["NEPAL100"]
  /\ map quantity (cart after) = [2%Z]
  /\ codesOf (appliedCoupons after) = ["NEPAL100"]
  /\ appliedCoupons after <> [].
Proof.
  repeat split; try reflexivity. vm_compute. discriminate.
Qed.

(* ------------------------------------------------------------------ *)
(** ** Tiered coupons *)

Ltac applied_simpl :=
  unfold setCouponError, setAutoApplyMessage, setAutoApplied, setCouponCode,
         setUsedSpecialCoupons, setAppliedCoupons;
  cbn [appliedCoupons].

Lemma targetTierCoupon_unfold (s : number) :
  targetTierCoupon s
  = if geb s 8000 then Some (TieredCoupon.mk "NEPAL100" 8000 "Nepal Special")
    else if geb s 2500 then Some (TieredCoupon.mk "ABOVE2500" 2500 "Bulk Discount")
    else if geb s 2000 then Some (TieredCoupon.mk "ABOVE2000" 2000 "Bulk Discount")
    else None.
Proof. reflexivity. Qed.

Ltac tier_cases s :=
  rewrite (targetTierCoupon_unfold s);
  let E1 := fresh "E" in let E2 := fresh "E" in let E3 := fresh "E" in
  destruct (geb s 8000) eqn:E1; destruct (geb s 2500) eqn:E2;
  destruct (geb s 2000) eqn:E3;
  try apply geb_spec in E1; try apply geb_false in E1;
  try apply geb_spec in E2; try apply geb_false in E2;
  try apply geb_spec in E3; try apply geb_false in E3.

Ltac tier_members :=
  repeat match goal with
         | H : In _ TIERED_COUPONS |- _ =>
             unfold TIERED_COUPONS in H; simpl in H;
             destruct H as [H | [H | [H | []]]]; subst
         end.

(** The target is the qualifying tier of highest threshold. *)
Lemma targetTierCoupon_highest (s : number) (tc : TieredCoupon.t) :
  targetTierCoupon s = Some tc
  <-> In tc TIERED_COUPONS
      /\ TieredCoupon.threshold tc <= s
      /\ forall tc', In tc' TIERED_COUPONS ->
                     TieredCoupon.threshold tc' <= s ->
                     TieredCoupon.threshold tc' <= TieredCoupon.threshold tc.
Proof.
  split.
  - intro H. revert H. tier_cases s; intro H; try discriminate;
      injection H as <-;
      (split; [ simpl; tauto | ]);
      (split; [ simpl; lra | ]);
      intros tc' I L; tier_members; simpl in *; lra.
  - intros [I [L M]].
    pose proof (M (TieredCoupon.mk "NEPAL100" 8000 "Nepal Special")
                  (or_introl eq_refl)) as M1.
    pose proof (M (TieredCoupon.mk "ABOVE2500" 2500 "Bulk Discount")
                  (or_intror (or_introl eq_refl))) as M2.
    tier_members; simpl in *; tier_cases s; try reflexivity; exfalso; lra.
Qed.

Lemma targetTierCoupon_none (s : number) :
  targetTierCoupon s = None
  <-> forall tc, In tc TIERED_COUPONS -> s < TieredCoupon.threshold tc.
Proof.
  split.
  - tier_cases s; intro H; try discriminate.
    intros tc I. tier_members; simpl; lra.
  - intro H.
    pose proof (H (TieredCoupon.mk "ABOVE2000" 2000 "Bulk Discount")
                  (or_intror (or_intror (or_introl eq_refl)))) as H3.
    simpl in H3. tier_cases s; try reflexivity; exfalso; lra.
Qed.

Lemma tieredCount_removeTiered (l : list AppliedCoupon.t) :
  tieredCount (removeTiered l) = 0%nat.
Proof.
  unfold tieredCount, removeTiered.
  induction l as [| c rest IH]; simpl; [ reflexivity | ].
  destruct (isTiered c) eqn:E; simpl; [ exact IH | ].
  rewrite E. exact IH.
Qed.

Lemma tieredCount_no_active (l : list AppliedCoupon.t) :
  activeTierCoupon l = None -> tieredCount l = 0%nat.
Proof.
  unfold activeTierCoupon, tieredCount.
  induction l as [| c rest IH]; simpl; [ reflexivity | ].
  destruct (isTiered c); [ discriminate | exact IH ].
Qed.

Lemma tieredCount_snoc (l : list AppliedCoupon.t) (c : AppliedCoupon.t) :
  tieredCount (l ++ [c])
  = (tieredCount l + if isTiered c then 1 else 0)%nat.
Proof.
  unfold tieredCount. rewrite filter_app, length_app. simpl.
  destruct (isTiered c); reflexivity.
Qed.

Lemma removeTiered_keeps_others (l : list AppliedCoupon.t) :
  filter (fun c => negb (isTiered c)) (removeTiered l) = removeTiered l.
Proof.
  unfold removeTiered. induction l as [| c rest IH]; simpl; [ reflexivity | ].
  destruct (isTiered c) eqn:E; simpl; [ exact IH | ].
  rewrite E. simpl. now rewrite IH.
Qed.

Lemma fold_accumulate_subtotal (c : list CartItem) (s b : number) :
  fst (fold_left accumulate c (s, b)) == s + cartSum c.
Proof.
  revert s b. induction c as [| item rest IH]; intros s b; simpl.
  - ring.
  - destruct (bulkRule item); rewrite IH; ring.
Qed.

Lemma subtotalOf_cartSum (p : Page) : subtotalOf p == cartSum (cart p).
Proof.
  unfold subtotalOf, computeTotals.
  pose proof (fold_accumulate_subtotal (cart p) 0 0) as H.
  destruct (fold_left accumulate (cart p) (0, 0)) as [sub b].
  simpl in *. rewrite H. ring.
Qed.

(** When the target validates and is not the tiered coupon found applied,
    it takes the place of every applied tiered coupon. *)
Lemma tieredStep_replaces (env : Env) (p : Page) (tc : TieredCoupon.t)
    (v : CouponView.t) :
  targetTierCoupon (subtotalOf p) = Some tc ->
  option_map AppliedCoupon.code (activeTierCoupon (appliedCoupons p))
  <> Some (TieredCoupon.code tc) ->
  validate env (TieredCoupon.code tc) (subtotalOf p) = Valid v ->
  appliedCoupons (tieredStep env p p)
  = removeTiered (appliedCoupons p) ++ [toApplied v].
Proof.
  intros T A V. unfold tieredStep. rewrite T.
  destruct (activeTierCoupon (appliedCoupons p)) as [a |] eqn:Act.
  - destruct (String.eqb (AppliedCoupon.code a) (TieredCoupon.code tc)) eqn:E.
    + apply String.eqb_eq in E. simpl in A. congruence.
    + cbn [negb]. rewrite V. reflexivity.
  - cbn [negb]. rewrite V. reflexivity.
Qed.

Lemma removeTiered_no_active (l : list AppliedCoupon.t) :
  activeTierCoupon l = None -> removeTiered l = l.
Proof.
  unfold activeTierCoupon, removeTiered.
  induction l as [| c rest IH]; simpl; [ reflexivity | ].
  destruct (isTiered c); [ discriminate | ].
  intro H. simpl. now rewrite IH.
Qed.

(** C3, as the code has it.  The tier the evaluation targets is the
    highest-threshold tier of the priority list whose threshold is at most
    the subtotal, the sum of price times quantity over the cart before the
    bulk discount is taken off.  When no threshold is at most the
    subtotal, every applied tiered coupon is removed. *)
Theorem tier_target_is_by_subtotal :
  forall (env : Env) (p : Page),
    subtotalOf p == cartSum (cart p)
    /\ (forall tc : TieredCoupon.t,
           targetTierCoupon (subtotalOf p) = Some tc
           <-> In tc TIERED_COUPONS
               /\ TieredCoupon.threshold tc <= subtotalOf p
               /\ forall tc', In tc' TIERED_COUPONS ->
                              TieredCoupon.threshold tc' <= subtotalOf p ->
                              TieredCoupon.threshold tc'
                              <= TieredCoupon.threshold tc)
    /\ ((forall tc, In tc TIERED_COUPONS ->
                    subtotalOf p < TieredCoupon.threshold tc) ->
        targetTierCoupon (subtotalOf p) = None
        /\ appliedCoupons (tieredStep env p p) = removeTiered (appliedCoupons p)
        /\ tieredCount (appliedCoupons (tieredStep env p p)) = 0%nat).
Proof.
  intros env p. split; [ apply subtotalOf_cartSum | split ].
  - intro tc. apply targetTierCoupon_highest.
  - intro N. apply targetTierCoupon_none in N.
    split; [ exact N | ].
    unfold tieredStep. rewrite N.
    destruct (activeTierCoupon (appliedCoupons p)) as [a |] eqn:Act.
    + applied_simpl. split; [ reflexivity | apply tieredCount_removeTiered ].
    + split; [ symmetry; now apply removeTiered_no_active
             | now apply tieredCount_no_active ].
Qed.

Lemma tier_target_is_by_subtotal_witness :
  targetTierCoupon (subtotalOf (returningPage (oneLine 8200 1 None)))
  = Some (TieredCoupon.mk "NEPAL100" 8000 "Nepal Special")
  /\ appliedCoupons staleTierPage = [AppliedCoupon.mk "ABOVE2000" 40]
  /\ appliedCoupons (tieredStep (sampleEnv alice) staleTierPage staleTierPage)
     = [].
Proof.
  split; [ | split; [ reflexivity | ] ].
  - apply (proj1 (proj2 (tier_target_is_by_subtotal (sampleEnv alice)
                           (returningPage (oneLine 8200 1 None))))).
    split; [ left; reflexivity | ].
    split; [ vm_compute; discriminate | ].
    intros tc' I _. tier_members; vm_compute; discriminate.
  - destruct (proj2 (proj2 (tier_target_is_by_subtotal (sampleEnv alice)
                              staleTierPage))) as [_ [R _]].
    + intros tc I. tier_members; vm_compute; reflexivity.
    + rewrite R. reflexivity.
Defined.

(** C3 as the specification words it fails, because the tiers are matched
    against the subtotal and not against the net amount.  Two units at
    4050 with a bundle of 2 for 7900: subtotal 8100, net amount 7900; the
    net amount selects ABOVE2500, the page applies NEPAL100.  Two units at
    1050 with a bundle of 2 for 1900: the net amount 1900 reaches no tier,
    the page applies ABOVE2000. *)
Lemma tier_ignores_bulk_discount :
  let c := oneLine 4050 2 (Some (BulkRule.mk 2 7900)) in
  let d := oneLine 1050 2 (Some (BulkRule.mk 2 1900)) in
  subtotalOf (returningPage c) == 8100
  /\ netAmountOf c == 7900
  /\ option_map TieredCoupon.code (specTargetTier (netAmountOf c))
     = Some "ABOVE2500"
  /\ option_map TieredCoupon.code (targetTierCoupon (subtotalOf (returningPage c)))
     = Some "NEPAL100"
  /\ targetTierCoupon (subtotalOf (returningPage c)) <> specTargetTier (netAmountOf c)
  /\ codesOf (appliedCoupons (autoApplyPass (sampleEnv alice) (returningPage c)))
     = ["NEPAL100"]
  /\ netAmountOf d == 1900
  /\ specTargetTier (netAmountOf d) = None
  /\ codesOf (appliedCoupons (autoApplyPass (sampleEnv alice) (returningPage d)))
     = ["ABOVE2000"].
Proof.
  repeat split; try reflexivity. vm_compute. discriminate.
Qed.

(* ------------------------------------------------------------------ *)
(** ** Mutual exclusion of the tiered coupons *)

(** C2, the defect.  A returning customer with a cart of 8200 gets
    NEPAL100 from the effect.  The Apply buttons of the coupon list then
    add ABOVE2500 and ABOVE2000 beside it, and the effect, which finds
    NEPAL100 first and takes it for the active tier, leaves all three in
    place; typing the applied code in lower case adds NEPAL100 a second
    time. *)
Theorem manual_apply_stacks_tiers :
  let start := returningPage (oneLine 8200 1 None) in
  let stacked :=
    run (sampleEnv alice)
        [EffectRuns; ClickApplyListed "ABOVE2500"; EffectRuns;
         ClickApplyListed "ABOVE2000"; EffectRuns] start in
  let doubled :=
    run (sampleEnv alice)
        [EffectRuns; TypePromoCode "nepal100"; ClickApply; EffectRuns] start in
  codesOf (appliedCoupons (run (sampleEnv alice) [EffectRuns] start))
  = ["NEPAL100"]
  /\ codesOf (appliedCoupons stacked) = ["NEPAL100"; "ABOVE2500"; "ABOVE2000"]
  /\ tieredCount (appliedCoupons stacked) = 3%nat
  /\ totalCouponDiscount (computeTotals (cart stacked) (appliedCoupons stacked))
     == 190
  /\ codesOf (appliedCoupons doubled) = ["NEPAL100"; "NEPAL100"]
  /\ tieredCount (appliedCoupons doubled) = 2%nat.
Proof.
  repeat split; reflexivity.
Qed.

Lemma tieredCount_filter_le (f : AppliedCoupon.t -> bool)
    (l : list AppliedCoupon.t) :
  (tieredCount (filter f l) <= tieredCount l)%nat.
Proof.
  unfold tieredCount. induction l as [| c rest IH]; simpl; [ lia | ].
  destruct (f c), (isTiered c) eqn:E; simpl; try rewrite E; simpl; lia.
Qed.

Lemma appliedCoupons_onPlus (env : Env) (item : CartItem) (p : Page) :
  appliedCoupons (onPlus env item p) = appliedCoupons p.
Proof.
  unfold onPlus. destruct (negb (stock item <=? quantity item)%Z); reflexivity.
Qed.

Lemma appliedCoupons_handleRemoveCoupon (code : string) (p : Page) :
  appliedCoupons (handleRemoveCoupon code p)
  = filter (fun c => negb (String.eqb (AppliedCoupon.code c) code))
           (appliedCoupons p).
Proof.
  unfold handleRemoveCoupon.
  destruct (isTieredCode code || String.eqb code "AUTO50"); reflexivity.
Qed.

(** The tiered step never leaves more than one tiered coupon behind, on
    whatever render it has closed over. *)
Lemma tieredStep_at_most_one (env : Env) (snap cur : Page) :
  (tieredCount (appliedCoupons cur) <= 1)%nat ->
  (tieredCount (appliedCoupons (tieredStep env snap cur)) <= 1)%nat.
Proof.
  intro H. unfold tieredStep.
  destruct (targetTierCoupon (subtotalOf snap)) as [tc |].
  - destruct (negb _); [ | exact H ].
    destruct (validate env (TieredCoupon.code tc) (subtotalOf snap)) as [v | e];
      [ | exact H ].
    applied_simpl. rewrite tieredCount_snoc, tieredCount_removeTiered.
    destruct (isTiered (toApplied v)); lia.
  - destruct (activeTierCoupon (appliedCoupons snap)); [ | exact H ].
    applied_simpl. rewrite tieredCount_removeTiered. lia.
Qed.

Section WithoutManualApply.

Variable env : Env.

(** Nothing is handed over by navigation, and the first-order coupon of
    the store is not a tier. *)
Hypothesis no_navigation_code : navAutoApply env = None.
Hypothesis first_order_is_no_tier :
  forall (c : CouponView.t) (total : number) (v : CouponView.t),
    In c (storeCoupons env) ->
    CouponView.type c = FIRST_ORDER ->
    validate env (CouponView.code c) total = Valid v ->
    isTieredCode (CouponView.code v) = false.

Lemma firstOrderStep_tieredCount (snap cur : Page) :
  tieredCount (appliedCoupons (firstOrderStep env snap cur))
  = tieredCount (appliedCoupons cur).
Proof.
  unfold firstOrderStep.
  destruct (negb (hasPlacedOrder snap)); [ | reflexivity ].
  destruct (find _ (storeCoupons env)) as [fc |] eqn:F; [ | reflexivity ].
  destruct (negb (isApplied _ _)); [ | reflexivity ].
  destruct (validate env (CouponView.code fc) (subtotalOf snap)) as [v | e] eqn:V;
    [ | reflexivity ].
  apply find_some in F. destruct F as [I T].
  assert (T' : CouponView.type fc = FIRST_ORDER)
    by (destruct (CouponView.type fc); try discriminate; reflexivity).
  pose proof (first_order_is_no_tier fc _ v I T' V) as N.
  applied_simpl. rewrite tieredCount_snoc.
  unfold isTiered, toApplied. cbn [AppliedCoupon.code].
  rewrite N. lia.
Qed.

Lemma handle_at_most_one (e : Event) (p : Page) :
  isManualApply e = false ->
  (tieredCount (appliedCoupons p) <= 1)%nat ->
  (tieredCount (appliedCoupons (handle env e p)) <= 1)%nat.
Proof.
  intros M H. destruct e; try discriminate; cbn [handle].
  - cbn. lia.
  - now rewrite appliedCoupons_onPlus.
  - cbn. lia.
  - exact H.
  - rewrite appliedCoupons_handleRemoveCoupon.
    pose proof (tieredCount_filter_le
                  (fun c => negb (String.eqb (AppliedCoupon.code c) code))
                  (appliedCoupons p)). lia.
  - exact H.
  - unfold autoApplyPass. destruct (cart p); [ exact H | ].
    unfold checkAutoApply, navigationStep.
    rewrite no_navigation_code.
    apply tieredStep_at_most_one. now rewrite firstOrderStep_tieredCount.
Qed.

(** Cart edits, coupon removals and runs of the effect keep at most
    one tiered coupon applied: only applying a code by hand can bring
    in a second one. *)
Lemma at_most_one_tier_without_manual_apply (es : list Event) (p : Page) :
  forallb (fun e => negb (isManualApply e)) es = true ->
  (tieredCount (appliedCoupons p) <= 1)%nat ->
  (tieredCount (appliedCoupons (run env es p)) <= 1)%nat.
Proof.
  unfold run. revert p. induction es as [| e rest IH]; intros p A H; simpl.
  - exact H.
  - simpl in A. apply andb_true_iff in A. destruct A as [A1 A2].
    apply IH; [ exact A2 | ].
    apply handle_at_most_one; [ | exact H ].
    now apply negb_true_iff.
Qed.

End WithoutManualApply.

(** The sample page meets the two assumptions, so on it no sequence of
    cart edits, coupon removals and runs of the effect ever shows two
    tiered coupons. *)
Example sample_page_keeps_one_tier (es : list Event) (c : list CartItem) :
  forallb (fun e => negb (isManualApply e)) es = true ->
  (tieredCount (appliedCoupons (run (sampleEnv alice) es (initialPage c))) <= 1)%nat.
Proof.
  intro A.
  apply at_most_one_tier_without_manual_apply; [ reflexivity | | exact A | cbn; lia ].
  intros fc total v I T V. simpl in I.
  destruct I as [<- | [<- | [<- | [<- | [<- | []]]]]]; try discriminate T.
  vm_compute in V. injection V as <-. reflexivity.
Qed.

(* ================================================================== *)
(** * Further properties of the routes and of the cart page *)

(* ------------------------------------------------------------------ *)
(** ** Strings *)

Lemma upperChar_idempotent (c : ascii) : upperChar (upperChar c) = upperChar c.
Proof.
  destruct c as [b0 b1 b2 b3 b4 b5 b6 b7];
    destruct b0, b1, b2, b3, b4, b5, b6, b7; reflexivity.
Qed.

Lemma upperChar_lowerChar (c : ascii) : upperChar (lowerChar c) = upperChar c.
Proof.
  destruct c as [b0 b1 b2 b3 b4 b5 b6 b7];
    destruct b0, b1, b2, b3, b4, b5, b6, b7; reflexivity.
Qed.

Lemma toUpperCase_idempotent (s : string) :
  toUpperCase (toUpperCase s) = toUpperCase s.
Proof.
  unfold toUpperCase. induction s as [| c r IH]; simpl; [ reflexivity | ].
  now rewrite upperChar_idempotent, IH.
Qed.

Lemma toUpperCase_toLowerCase (s : string) :
  toUpperCase (toLowerCase s) = toUpperCase s.
Proof.
  unfold toUpperCase, toLowerCase.
  induction s as [| c r IH]; simpl; [ reflexivity | ].
  now rewrite upperChar_lowerChar, IH.
Qed.

(* ------------------------------------------------------------------ *)
(** ** Coupon validation: what an answer tells *)

Lemma findCoupon_some (k : string) (cs : list Coupon.t) (c : Coupon.t) :
  findCoupon k cs = Some c ->
  In c cs /\ Coupon.code c = k /\ Coupon.isActive c = true.
Proof.
  unfold findCoupon. intro F. apply find_some in F. destruct F as [I P].
  apply andb_true_iff in P. destruct P as [P1 P2].
  apply String.eqb_eq in P1. auto.
Qed.

Lemma checkCoupon_valid_inv (sq : bool) (f : string -> OrderFilter)
    (db : Database) (now : Z) (uid : string) (username : option string)
    (total : number) (c : Coupon.t) (v : CouponView.t) :
  checkCoupon sq f db now uid username total c = Valid v ->
  v = viewOf c
  /\ (Coupon.expiryDate c <? now)%Z = false
  /\ truthy username && hasUsed c uid = false
  /\ (truthy (Coupon.targetUsername c) = true ->
      exists t u, Coupon.targetUsername c = Some t /\ username = Some u
                  /\ truthy username = true
                  /\ toLowerCase (trim u) = toLowerCase (trim t))
  /\ negb (truthy (Coupon.targetUsername c)
           || CouponType_eqb (Coupon.type c) SPECIAL_GIFT)
     && truthyNum (Coupon.minOrderAmount c)
     && ltb total (Coupon.minOrderAmount c) = false
  /\ CouponType_eqb (Coupon.type c) FIRST_ORDER
     && (0 <? countDocuments sq (f uid) (orders db))%nat = false.
Proof.
  unfold checkCoupon.
  destruct (Coupon.expiryDate c <? now)%Z; [ discriminate | ].
  destruct (truthy username && hasUsed c uid); [ discriminate | ].
  destruct (truthy (Coupon.targetUsername c)) eqn:T.
  - destruct (truthy username) eqn:U; [ | discriminate ].
    destruct (Coupon.targetUsername c) as [t |]; [ | discriminate T ].
    destruct username as [u |]; [ | discriminate U ].
    destruct (String.eqb (toLowerCase (trim t)) (toLowerCase (trim u))) eqn:E;
      [ | discriminate ].
    cbn [negb orb andb].
    destruct (CouponType_eqb (Coupon.type c) FIRST_ORDER
              && (0 <? countDocuments sq (f uid) (orders db))%nat);
      [ discriminate | ].
    intro H. injection H as <-. repeat split.
    intros _. exists t, u. repeat split. apply String.eqb_eq in E. congruence.
  - cbn [orb].
    destruct (negb (CouponType_eqb (Coupon.type c) SPECIAL_GIFT)
              && truthyNum (Coupon.minOrderAmount c)
              && ltb total (Coupon.minOrderAmount c)); [ discriminate | ].
    destruct (CouponType_eqb (Coupon.type c) FIRST_ORDER
              && (0 <? countDocuments sq (f uid) (orders db))%nat);
      [ discriminate | ].
    intro H. injection H as <-. repeat split. discriminate.
Qed.

Lemma truthyNum_false (x : number) : truthyNum x = false -> x == 0.
Proof.
  unfold truthyNum. rewrite negb_false_iff. apply Qeq_bool_eq.
Qed.

(** X1.  A coupon the validation route accepts is an active coupon whose
    stored code is the upper-cased request code and which the answer
    shows as stored; it has not expired; a requester with a username is
    not in its [usedBy]; if it is targeted, the requester has a username
    that matches the target after trimming and lower-casing; unless it is
    targeted or a special gift, its minimum order amount is zero or at
    most the order total. *)
Theorem validated_coupon_is_sound :
  forall (sq : bool) (db : Database) (now : Z) (user : ReqUser.t)
         (code : string) (total : number) (v : CouponView.t),
    validateCoupon sq db now user code total = Valid v ->
    exists c : Coupon.t,
      In c (coupons db)
      /\ v = viewOf c
      /\ Coupon.code c = toUpperCase code
      /\ Coupon.isActive c = true
      /\ (now <= Coupon.expiryDate c)%Z
      /\ (truthy (resolveUsername db user) = true ->
          hasUsed c (ReqUser.id user) = false)
      /\ (truthy (Coupon.targetUsername c) = true ->
          exists t u, Coupon.targetUsername c = Some t
                      /\ resolveUsername db user = Some u
                      /\ u <> EmptyString
                      /\ toLowerCase (trim u) = toLowerCase (trim t))
      /\ (truthy (Coupon.targetUsername c) = false ->
          Coupon.type c <> SPECIAL_GIFT ->
          Coupon.minOrderAmount c == 0 \/ Coupon.minOrderAmount c <= total)
      /\ (Coupon.type c = FIRST_ORDER ->
          countDocuments sq (ByUserId (ReqUser.id user)) (orders db) = 0%nat).
Proof.
  intros sq db now user code total v H.
  unfold validateCoupon, validateCouponWith in H.
  destruct (findCoupon (toUpperCase code) (coupons db)) as [c |] eqn:F;
    [ | discriminate ].
  destruct (findCoupon_some _ _ _ F) as [I [K A]].
  destruct (checkCoupon_valid_inv _ _ _ _ _ _ _ _ _ H) as [V [X [U [T [M FO]]]]].
  exists c.
  assert (FO' : Coupon.type c = FIRST_ORDER ->
                countDocuments sq (ByUserId (ReqUser.id user)) (orders db) = 0%nat).
  { intro Ty. rewrite Ty in FO. cbn [CouponType_eqb andb] in FO.
    apply Nat.ltb_ge in FO. lia. }
  repeat split; try assumption.
  - apply Z.ltb_ge. exact X.
  - intro R. rewrite R in U. exact U.
  - intro G. destruct (T G) as [t [u [T1 [T2 [T3 T4]]]]].
    exists t, u. repeat split; try assumption.
    rewrite T2 in T3. intro N. subst u. discriminate.
  - intros G S. rewrite G in M. cbn [orb] in M.
    assert (S' : CouponType_eqb (Coupon.type c) SPECIAL_GIFT = false)
      by (destruct (Coupon.type c); try reflexivity; congruence).
    rewrite S' in M. cbn [negb andb] in M.
    destruct (truthyNum (Coupon.minOrderAmount c)) eqn:N.
    + right. cbn [andb] in M. now apply ltb_false.
    + left. now apply truthyNum_false.
Qed.

Lemma validated_coupon_is_sound_witness :
  exists c : Coupon.t,
    In c sampleCoupons /\ Coupon.code c = "GIFT4ALICE"
    /\ (1700000000000 <= Coupon.expiryDate c)%Z
    /\ hasUsed c "u-alice" = false.
Proof.
  destruct (validated_coupon_is_sound false sampleDatabase 1700000000000 alice
              "gift4alice" 10 _ eq_refl)
    as [c [I [_ [K [_ [X [U _]]]]]]].
  exists c. repeat split; try assumption. apply U. reflexivity.
Defined.

(** X2.  The validation route does not distinguish the letter case of the
    request code: the code in upper case and the code in lower case get
    the answer of the code as typed. *)
Theorem validation_ignores_letter_case :
  forall (sq : bool) (db : Database) (now : Z) (user : ReqUser.t)
         (code : string) (total : number),
    validateCoupon sq db now user (toUpperCase code) total
    = validateCoupon sq db now user code total
    /\ validateCoupon sq db now user (toLowerCase code) total
       = validateCoupon sq db now user code total.
Proof.
  intros. unfold validateCoupon, validateCouponWith.
  rewrite toUpperCase_idempotent, toUpperCase_toLowerCase. split; reflexivity.
Qed.

(** X3.  A coupon accepted for an order total stays accepted, with the
    same answer, for every larger total. *)
Theorem validation_is_monotone_in_total :
  forall (sq : bool) (db : Database) (now : Z) (user : ReqUser.t)
         (code : string) (total total' : number) (v : CouponView.t),
    validateCoupon sq db now user code total = Valid v ->
    total <= total' ->
    validateCoupon sq db now user code total' = Valid v.
Proof.
  intros sq db now user code total total' v H L.
  unfold validateCoupon, validateCouponWith in *.
  destruct (findCoupon (toUpperCase code) (coupons db)) as [c |]; [ | discriminate ].
  destruct (checkCoupon_valid_inv _ _ _ _ _ _ _ _ _ H) as [V [X [U [T [M FO]]]]].
  clear H. unfold checkCoupon. rewrite X, U, FO.
  assert (M' : negb (truthy (Coupon.targetUsername c)
                     || CouponType_eqb (Coupon.type c) SPECIAL_GIFT)
               && truthyNum (Coupon.minOrderAmount c)
               && ltb total' (Coupon.minOrderAmount c) = false).
  { destruct (negb _ && truthyNum _) eqn:G; [ | reflexivity ].
    cbn [andb] in *. apply ltb_false. apply ltb_false in M. lra. }
  destruct (truthy (Coupon.targetUsername c)) eqn:G.
  - destruct (T eq_refl) as [t [u [T1 [T2 [T3 T4]]]]].
    rewrite T3, T1, T2, T4, String.eqb_refl.
    cbn [negb orb andb]. subst v. reflexivity.
  - rewrite M'. subst v. reflexivity.
Qed.

Lemma validation_is_monotone_in_total_witness :
  validateCoupon false sampleDatabase 1700000000000 alice "ABOVE2000" 9000
  = validateCoupon false sampleDatabase 1700000000000 alice "ABOVE2000" 2000.
Proof.
  rewrite (validation_is_monotone_in_total false sampleDatabase 1700000000000
             alice "ABOVE2000" 2000 9000 _ eq_refl).
  - reflexivity.
  - vm_compute. discriminate.
Defined.

(* ------------------------------------------------------------------ *)
(** ** Order placement: what is stored *)

Lemma placeOrder_inv (db : Database) (now : Z) (user : ReqUser.t)
    (raw : RawOrderBody.t) (db' : Database) (resp : OrderResponse.t) :
  placeOrder db now user raw = Some (db', resp) ->
  exists body, parseOrder raw = Some body
               /\ createOrder db now user body = (db', resp)
               /\ OrderBody.items body = RawOrderBody.items raw
               /\ OrderBody.discount body = RawOrderBody.discount raw
               /\ OrderBody.deliveryCharge body = RawOrderBody.deliveryCharge raw
               /\ OrderBody.couponCodes body = RawOrderBody.couponCodes raw.
Proof.
  unfold placeOrder, parseOrder.
  destruct (forallb _ _); [ | discriminate ].
  intro H. eexists. split; [ reflexivity | ].
  split; [ congruence | repeat split ].
Qed.

Lemma orZero_eq (x : number) : orZero (Some x) == x.
Proof.
  unfold orZero. destruct (truthyNum x) eqn:T; [ reflexivity | ].
  symmetry. now apply truthyNum_false.
Qed.

(** X4.  An accepted order request adds exactly one order after the
    stored ones, which stay as they were.  Its discount and delivery
    charge are the values the client sent (0 when absent), whatever they
    are, and its final amount is the recomputed total less that discount
    plus that delivery charge; the order belongs to the requester, is
    pending, and the answer carries its id. *)
Theorem placed_order_amounts :
  forall (db : Database) (now : Z) (user : ReqUser.t) (raw : RawOrderBody.t)
         (db' : Database) (resp : OrderResponse.t),
    placeOrder db now user raw = Some (db', resp) ->
    exists o : Order.t,
      orders db' = orders db ++ [o]
      /\ Order.user o = ReqUser.id user
      /\ Order.status o = "Pending"
      /\ OrderResponse.id resp = Order.orderId o
      /\ Order.items o = RawOrderBody.items raw
      /\ (forall d, RawOrderBody.discount raw = Some d ->
                    Order.discountApplied o == d)
      /\ (RawOrderBody.discount raw = None -> Order.discountApplied o == 0)
      /\ (forall d, RawOrderBody.deliveryCharge raw = Some d ->
                    Order.deliveryCharge o == d)
      /\ (RawOrderBody.deliveryCharge raw = None -> Order.deliveryCharge o == 0)
      /\ Order.finalAmount o
         == Order.totalAmount o - Order.discountApplied o
            + Order.deliveryCharge o.
Proof.
  intros db now user raw db' resp H.
  destruct (placeOrder_inv _ _ _ _ _ _ H) as [body [_ [C [I [D [G _]]]]]].
  unfold createOrder in C. injection C as <- <-.
  eexists. split; [ reflexivity | ].
  cbn [Order.user Order.status Order.orderId Order.items Order.discountApplied
       Order.deliveryCharge Order.finalAmount Order.totalAmount
       OrderResponse.id].
  rewrite I, D, G.
  split; [ reflexivity | ]. split; [ reflexivity | ].
  split; [ reflexivity | ]. split; [ reflexivity | ].
  split; [ intros d E; rewrite E; apply orZero_eq | ].
  split; [ intro E; rewrite E; reflexivity | ].
  split; [ intros d E; rewrite E; apply orZero_eq | ].
  split; [ intro E; rewrite E; reflexivity | ].
  reflexivity.
Qed.

Lemma placed_order_amounts_witness :
  exists db' resp o,
    placeOrder stockedDatabase 1700000000000 alice redeemingBody
    = Some (db', resp)
    /\ orders db' = [bobsOrder; o]
    /\ Order.totalAmount o == 10005
    /\ Order.discountApplied o == 100
    /\ Order.finalAmount o == 9905.
Proof.
  destruct (placeOrder stockedDatabase 1700000000000 alice redeemingBody)
    as [[db' resp] |] eqn:E; [ | discriminate E ].
  destruct (placed_order_amounts _ _ _ _ _ _ E)
    as [o [O [_ [_ [_ [_ [D [_ [_ [G F]]]]]]]]]].
  exists db', resp, o. split; [ reflexivity | ].
  split; [ exact O | ].
  assert (T : Order.totalAmount o == 10005).
  { injection E as <- _. cbn in O. injection O as <-. vm_compute. reflexivity. }
  split; [ exact T | ].
  split; [ apply (D 100); reflexivity | ].
  rewrite F, T, (D 100 eq_refl), (G eq_refl). reflexivity.
Defined.

Lemma decrementStock_fold (items : list OrderItem.t) (ps : list Product.t) :
  fold_left (fun ps item => decrementStock item ps) items ps
  = map (fun p => Product.mk (Product._id p)
                             (Product.stock p
                              - orderedQty (Product._id p) items)) ps.
Proof.
  revert ps. induction items as [| i rest IH]; intro ps; simpl.
  - rewrite <- (map_id ps) at 1. apply map_ext. intros [pid st]. simpl.
    f_equal. lia.
  - rewrite IH. unfold decrementStock. rewrite map_map. apply map_ext.
    intros [pid st]. simpl.
    destruct (String.eqb pid (OrderItem.id i)); simpl; f_equal; lia.
Qed.

(** X5.  An accepted order lowers the stock of every product by the sum
    of the quantities of the order's items that name it, several lines
    for one product adding up; products the order does not name keep
    their stock, and no product is added or removed. *)
Theorem placed_order_stock :
  forall (db : Database) (now : Z) (user : ReqUser.t) (raw : RawOrderBody.t)
         (db' : Database) (resp : OrderResponse.t),
    placeOrder db now user raw = Some (db', resp) ->
    products db'
    = map (fun p => Product.mk (Product._id p)
                      (Product.stock p
                       - orderedQty (Product._id p) (RawOrderBody.items raw)))
          (products db).
Proof.
  intros db now user raw db' resp H.
  destruct (placeOrder_inv _ _ _ _ _ _ H) as [body [_ [C [I _]]]].
  unfold createOrder in C. injection C as <- _. cbn [products].
  rewrite I. apply decrementStock_fold.
Qed.

Lemma placed_order_stock_witness :
  exists db' resp,
    placeOrder stockedDatabase 1700000000000 alice redeemingBody
    = Some (db', resp)
    /\ products db'
       = [Product.mk "p1" (-1); Product.mk "p2" 9; Product.mk "p3" 7].
Proof.
  destruct (placeOrder stockedDatabase 1700000000000 alice redeemingBody)
    as [[db' resp] |] eqn:E; [ | discriminate E ].
  exists db', resp. split; [ reflexivity | ].
  rewrite (placed_order_stock _ _ _ _ _ _ E). reflexivity.
Defined.

Lemma addToSet_fields (uid : string) (c : Coupon.t) :
  addToSet uid c = withUsedBy (Coupon.usedBy (addToSet uid c)) c.
Proof.
  unfold addToSet, withUsedBy.
  destruct (includes uid (Coupon.usedBy c)); destruct c; reflexivity.
Qed.

Lemma addToSet_usedBy (uid : string) (c : Coupon.t) :
  Coupon.usedBy (addToSet uid c)
  = if includes uid (Coupon.usedBy c) then Coupon.usedBy c
    else Coupon.usedBy c ++ [uid].
Proof.
  unfold addToSet. destruct (includes uid (Coupon.usedBy c)); reflexivity.
Qed.

(** X6.  Placing an order changes no coupon field other than [usedBy]
    and removes nobody from a [usedBy] array.  A coupon whose code the
    request names gets the requester appended unless already there; any
    other coupon is left as it was. *)
Theorem placed_order_ledger :
  forall (db : Database) (now : Z) (user : ReqUser.t) (raw : RawOrderBody.t)
         (db' : Database) (resp : OrderResponse.t),
    placeOrder db now user raw = Some (db', resp) ->
    exists mark : Coupon.t -> Coupon.t,
      coupons db' = map mark (coupons db)
      /\ forall c : Coupon.t,
           mark c = withUsedBy (Coupon.usedBy (mark c)) c
           /\ incl (Coupon.usedBy c) (Coupon.usedBy (mark c))
           /\ (forall codes, RawOrderBody.couponCodes raw = Some codes ->
                             includes (Coupon.code c) codes = true ->
                             hasUsed (mark c) (ReqUser.id user) = true
                             /\ (hasUsed c (ReqUser.id user) = false ->
                                 Coupon.usedBy (mark c)
                                 = Coupon.usedBy c ++ [ReqUser.id user]))
           /\ ((forall codes, RawOrderBody.couponCodes raw = Some codes ->
                              includes (Coupon.code c) codes = false) ->
               mark c = c).
Proof.
  intros db now user raw db' resp H.
  destruct (placeOrder_inv _ _ _ _ _ _ H) as [body [_ [C [_ [_ [_ K]]]]]].
  unfold createOrder in C. injection C as <- _. cbn [coupons]. rewrite K.
  destruct (RawOrderBody.couponCodes raw) as [[| k ks] |].
  - exists (fun c => c). split; [ symmetry; apply map_id | ].
    intro c. split; [ now destruct c | ].
    split; [ apply incl_refl | ].
    split; [ | reflexivity ].
    intros codes E. injection E as <-. discriminate.
  - exists (fun c => if includes (Coupon.code c) (k :: ks)
                     then addToSet (ReqUser.id user) c else c).
    split; [ reflexivity | ].
    intro c. destruct (includes (Coupon.code c) (k :: ks)) eqn:E.
    + split; [ apply addToSet_fields | ].
      split.
      * rewrite addToSet_usedBy.
        destruct (includes (ReqUser.id user) (Coupon.usedBy c));
          [ apply incl_refl | apply incl_appl, incl_refl ].
      * split.
        -- intros codes Ec _. split; [ apply addToSet_hasUsed | ].
           intro N. unfold hasUsed in N. rewrite addToSet_usedBy, N. reflexivity.
        -- intro N. specialize (N _ eq_refl). congruence.
    + split; [ now destruct c | ].
      split; [ apply incl_refl | ].
      split; [ | reflexivity ].
      intros codes Ec I. injection Ec as <-. congruence.
  - exists (fun c => c). split; [ symmetry; apply map_id | ].
    intro c. split; [ now destruct c | ].
    split; [ apply incl_refl | ].
    split; [ | reflexivity ].
    intros codes E. discriminate.
Qed.

Lemma placed_order_ledger_witness :
  exists db' resp,
    placeOrder stockedDatabase 1700000000000 alice redeemingBody
    = Some (db', resp)
    /\ map Coupon.usedBy (coupons db') = [["u-alice"]; []; []; []; []]
    /\ codesIn (coupons db') = codesIn sampleCoupons.
Proof.
  destruct (placeOrder stockedDatabase 1700000000000 alice redeemingBody)
    as [[db' resp] |] eqn:E; [ | discriminate E ].
  destruct (placed_order_ledger _ _ _ _ _ _ E) as [mark [M _]].
  exists db', resp. split; [ reflexivity | ].
  injection E as <- _. split; reflexivity.
Defined.

Lemma find_map_preserved {A : Type} (p : A -> bool) (f : A -> A) (l : list A) :
  (forall x, p (f x) = p x) ->
  find p (map f l) = option_map f (find p l).
Proof.
  intro P. induction l as [| x rest IH]; simpl; [ reflexivity | ].
  rewrite P. destruct (p x); [ reflexivity | exact IH ].
Qed.

Lemma findCoupon_updateMany (k : string) (codes : list string) (uid : string)
    (cs : list Coupon.t) :
  findCoupon k (updateManyAddToSet codes uid cs)
  = option_map (fun c => if includes (Coupon.code c) codes
                         then addToSet uid c else c)
               (findCoupon k cs).
Proof.
  unfold findCoupon, updateManyAddToSet. apply find_map_preserved.
  intro c. destruct (includes (Coupon.code c) codes); [ | reflexivity ].
  rewrite addToSet_code. unfold addToSet.
  destruct (includes uid (Coupon.usedBy c)); reflexivity.
Qed.

Lemma includes_nonempty (x : string) (xs : list string) :
  includes x xs = true -> exists y ys, xs = y :: ys.
Proof. destruct xs as [| y ys]; [ discriminate | eauto ]. Qed.

(** X7.  Once an accepted order has named a coupon's stored code, the
    validation route refuses that coupon to the same user as already
    redeemed, for every order total and in whatever letter case the code
    is asked for, provided the user has a username and the coupon is
    active and unexpired. *)
Theorem redeemed_coupon_is_refused :
  forall (sq : bool) (db : Database) (now : Z) (user : ReqUser.t)
         (raw : RawOrderBody.t) (db' : Database) (resp : OrderResponse.t)
         (codes : list string) (code : string) (c : Coupon.t)
         (now' : Z) (total : number),
    placeOrder db now user raw = Some (db', resp) ->
    RawOrderBody.couponCodes raw = Some codes ->
    includes (toUpperCase code) codes = true ->
    findCoupon (toUpperCase code) (coupons db) = Some c ->
    (now' <= Coupon.expiryDate c)%Z ->
    truthy (resolveUsername db user) = true ->
    validateCoupon sq db' now' user code total = Invalid AlreadyRedeemed.
Proof.
  intros sq db now user raw db' resp codes code c now' total H K I F X U.
  destruct (placeOrder_inv _ _ _ _ _ _ H) as [body [_ [C [_ [_ [_ KB]]]]]].
  unfold createOrder in C. injection C as <- _.
  destruct (includes_nonempty _ _ I) as [y [ys E]].
  rewrite KB, K, E. rewrite E in I.
  destruct (findCoupon_some _ _ _ F) as [_ [Kc _]].
  unfold validateCoupon, validateCouponWith. cbn [coupons].
  rewrite findCoupon_updateMany, F. cbn [option_map].
  rewrite Kc, I.
  unfold resolveUsername in *. cbn [users]. unfold checkCoupon.
  assert (X' : (Coupon.expiryDate (addToSet (ReqUser.id user) c) <? now')%Z = false).
  { apply Z.ltb_ge. unfold addToSet.
    destruct (includes (ReqUser.id user) (Coupon.usedBy c)); exact X. }
  rewrite X', U, addToSet_hasUsed. reflexivity.
Qed.

Lemma redeemed_coupon_is_refused_witness :
  exists db' resp,
    placeOrder stockedDatabase 1700000000000 alice redeemingBody
    = Some (db', resp)
    /\ isValid (validateCoupon false stockedDatabase 1700000000000 alice
                  "nepal100" 10000) = true
    /\ validateCoupon false db' 1700000000001 alice "nepal100" 10000
       = Invalid AlreadyRedeemed.
Proof.
  destruct (placeOrder stockedDatabase 1700000000000 alice redeemingBody)
    as [[db' resp] |] eqn:E; [ | discriminate E ].
  exists db', resp. split; [ reflexivity | ]. split; [ reflexivity | ].
  apply (redeemed_coupon_is_refused false stockedDatabase 1700000000000 alice
           redeemingBody db' resp ["NEPAL100"] "nepal100"
           (Coupon.mk "NEPAL100" 100 8000 2000000000000 REGULAR None None
                      true []));
    try reflexivity; try exact E.
  vm_compute. discriminate.
Defined.

(** X8.  An order request is refused exactly when one of its items has a
    quantity below 1.  A request without items is accepted: it stores an
    order with a total of 0 and leaves every stock as it was. *)
Theorem order_request_acceptance :
  forall (db : Database) (now : Z) (user : ReqUser.t) (raw : RawOrderBody.t),
    (placeOrder db now user raw = None
     <-> exists i, In i (RawOrderBody.items raw)
                   /\ (OrderItem.quantity i < 1)%Z)
    /\ (RawOrderBody.items raw = [] ->
        exists db' resp o,
          placeOrder db now user raw = Some (db', resp)
          /\ persistedOrder db' = Some o
          /\ Order.totalAmount o = 0
          /\ products db' = products db).
Proof.
  intros db now user raw. split.
  - unfold placeOrder, parseOrder.
    destruct (forallb _ (RawOrderBody.items raw)) eqn:A.
    + split; [ discriminate | ].
      intros [i [I Q]]. rewrite forallb_forall in A.
      specialize (A i I). apply Z.leb_le in A. lia.
    + split; [ intros _ | reflexivity ].
      apply not_true_iff_false in A. rewrite forallb_forall in A.
      destruct (existsb (fun i => negb (1 <=? OrderItem.quantity i)%Z)
                        (RawOrderBody.items raw)) eqn:B.
      * apply existsb_exists in B. destruct B as [i [I Q]].
        exists i. split; [ exact I | ].
        apply negb_true_iff, Z.leb_gt in Q. exact Q.
      * exfalso. apply A. intros i I.
        rewrite <- not_true_iff_false, existsb_exists in B.
        destruct (1 <=? OrderItem.quantity i)%Z eqn:Q; [ reflexivity | ].
        exfalso. apply B. exists i. split; [ exact I | ]. now rewrite Q.
  - intro E. unfold placeOrder, parseOrder. rewrite E. cbn [forallb].
    do 3 eexists. split; [ reflexivity | ].
    unfold createOrder. cbn [OrderBody.items fold_left].
    split; [ apply persistedOrder_append | ].
    split; reflexivity.
Qed.

Lemma order_request_acceptance_witness :
  placeOrder emptyDatabase 1700000000000 alice
    (RawOrderBody.mk [OrderItem.mk "p1" "Rice" 10 0] None None None None None
                     kathmandu None None) = None
  /\ exists db' resp,
       placeOrder emptyDatabase 1700000000000 alice
         (RawOrderBody.mk [] None None None None None kathmandu None None)
       = Some (db', resp).
Proof.
  split.
  - apply (proj1 (order_request_acceptance emptyDatabase 1700000000000 alice _)).
    eexists. split; [ left; reflexivity | reflexivity ].
  - destruct (proj2 (order_request_acceptance emptyDatabase 1700000000000 alice
                       (RawOrderBody.mk [] None None None None None kathmandu
                                        None None)) eq_refl)
      as [db' [resp [o [P _]]]].
    exists db', resp. exact P.
Defined.

(* ------------------------------------------------------------------ *)
(** ** Coupon administration *)

Lemma findByCode_none (k : string) (cs : list Coupon.t) :
  findByCode k cs = None <-> ~ In k (codesIn cs).
Proof.
  unfold findByCode, codesIn. induction cs as [| c rest IH]; simpl.
  - tauto.
  - destruct (String.eqb (Coupon.code c) k) eqn:E.
    + apply String.eqb_eq in E. split; [ discriminate | tauto ].
    + apply String.eqb_neq in E. rewrite IH. tauto.
Qed.

Lemma codesIn_app (a b : list Coupon.t) : codesIn (a ++ b) = codesIn a ++ codesIn b.
Proof. apply map_app. Qed.

Lemma NoDup_snoc {A : Type} (l : list A) (x : A) :
  NoDup l -> ~ In x l -> NoDup (l ++ [x]).
Proof.
  intros N I. induction N as [| y l Y N IH]; simpl.
  - constructor; [ tauto | constructor ].
  - constructor.
    + rewrite in_app_iff. simpl. intros [H | [H | []]]; [ tauto | ].
      subst. apply I. now left.
    + apply IH. intro H. apply I. now right.
Qed.

(** X9.  Creating a coupon either appends one coupon, whose code is the
    upper-cased request code, is carried by no stored coupon and has an
    empty [usedBy], or leaves the collection as it was; a code that is
    already stored is never created again, in whatever letter case it is
    sent; and codes that were pairwise distinct stay so. *)
Theorem created_coupon_is_fresh :
  forall (activeByDefault : bool) (cs : list Coupon.t) (raw : CouponBody.t),
    (snd (createCoupon activeByDefault cs raw) = Done ->
     exists c : Coupon.t,
       fst (createCoupon activeByDefault cs raw) = cs ++ [c]
       /\ Coupon.code c = toUpperCase (CouponBody.code raw)
       /\ Coupon.usedBy c = []
       /\ ~ In (Coupon.code c) (codesIn cs)
       /\ (3 <= String.length (CouponBody.code raw))%nat
       /\ 1 <= Coupon.discountAmount c)
    /\ (snd (createCoupon activeByDefault cs raw) <> Done ->
        fst (createCoupon activeByDefault cs raw) = cs)
    /\ (In (toUpperCase (CouponBody.code raw)) (codesIn cs) ->
        snd (createCoupon activeByDefault cs raw) <> Done)
    /\ (NoDup (codesIn cs) ->
        NoDup (codesIn (fst (createCoupon activeByDefault cs raw)))).
Proof.
  intros active cs raw. unfold createCoupon, parseCoupon.
  destruct ((3 <=? String.length (CouponBody.code raw))%nat
            && Qle_bool 1 (CouponBody.discountAmount raw)) eqn:P.
  - cbn [CouponBody.code CouponBody.discountAmount CouponBody.expiry
         CouponBody.minOrderAmount CouponBody.type CouponBody.targetUsername
         CouponBody.giftMessage].
    rewrite toUpperCase_idempotent.
    destruct (findByCode (toUpperCase (CouponBody.code raw)) cs) as [d |] eqn:F.
    + cbn [fst snd]. repeat split; try discriminate; auto.
    + pose proof (proj1 (findByCode_none _ _) F) as N.
      apply andb_true_iff in P. destruct P as [P1 P2].
      cbn [fst snd]. split; [ | split; [ | split ] ].
      * intros _. eexists. split; [ reflexivity | ].
        cbn [Coupon.code Coupon.usedBy Coupon.discountAmount].
        repeat split; try assumption.
        -- now apply Nat.leb_le.
        -- now apply Qle_bool_iff.
      * congruence.
      * intro I. contradiction.
      * intro D. rewrite codesIn_app. now apply NoDup_snoc.
  - cbn [fst snd]. repeat split; try discriminate; auto.
Qed.

Lemma created_coupon_is_fresh_witness :
  codesIn (fst (createCoupon true sampleCoupons newCouponBody))
  = codesIn sampleCoupons ++ ["DASHAIN25"]
  /\ snd (createCoupon true (fst (createCoupon true sampleCoupons newCouponBody))
                       newCouponBody) <> Done.
Proof.
  destruct (created_coupon_is_fresh true sampleCoupons newCouponBody)
    as [A _].
  destruct (A eq_refl) as [c [E [K _]]].
  split.
  - rewrite E, codesIn_app. cbn [codesIn map]. rewrite K. reflexivity.
  - apply (created_coupon_is_fresh true
             (fst (createCoupon true sampleCoupons newCouponBody)) newCouponBody).
    rewrite E, codesIn_app, in_app_iff. right. left. exact K.
Defined.

Lemma updateFirst_keeps (k : string) (body : CouponBody.t)
    (cs cs' : list Coupon.t) :
  updateFirst k body cs = Some cs' ->
  map Coupon.usedBy cs' = map Coupon.usedBy cs
  /\ map Coupon.type cs' = map Coupon.type cs
  /\ map Coupon.targetUsername cs' = map Coupon.targetUsername cs
  /\ map Coupon.giftMessage cs' = map Coupon.giftMessage cs
  /\ map Coupon.isActive cs' = map Coupon.isActive cs.
Proof.
  revert cs'. induction cs as [| c rest IH]; intros cs' H; simpl in H.
  - discriminate.
  - destruct (String.eqb (Coupon.code c) k).
    + injection H as <-. repeat split.
    + destruct (updateFirst k body rest) as [r |]; [ | discriminate ].
      injection H as <-. destruct (IH r eq_refl) as (A & B & C & D & E).
      simpl. now rewrite A, B, C, D, E.
Qed.

Lemma updateFirst_codes (k : string) (body : CouponBody.t)
    (cs cs' : list Coupon.t) (x : string) :
  updateFirst k body cs = Some cs' ->
  In x (codesIn cs') ->
  In x (codesIn cs) \/ x = toUpperCase (CouponBody.code body).
Proof.
  revert cs'. induction cs as [| c rest IH]; intros cs' H I; simpl in H.
  - discriminate.
  - destruct (String.eqb (Coupon.code c) k).
    + injection H as <-. simpl in I. destruct I as [I | I]; [ now right | ].
      left. now right.
    + destruct (updateFirst k body rest) as [r |]; [ | discriminate ].
      injection H as <-. simpl in I. destruct I as [I | I].
      * left. now left.
      * destruct (IH r eq_refl I) as [J | J]; [ left; now right | now right ].
Qed.

Lemma updateFirst_NoDup (k : string) (body : CouponBody.t)
    (cs cs' : list Coupon.t) :
  updateFirst k body cs = Some cs' ->
  toUpperCase (CouponBody.code body) = k
  \/ ~ In (toUpperCase (CouponBody.code body)) (codesIn cs) ->
  NoDup (codesIn cs) -> NoDup (codesIn cs').
Proof.
  revert cs'. induction cs as [| c rest IH]; intros cs' H F N; simpl in H.
  - discriminate.
  - inversion N as [| ? ? Nc Nr]; subst.
    destruct (String.eqb (Coupon.code c) k) eqn:E.
    + apply String.eqb_eq in E. injection H as <-. simpl. constructor; [ | exact Nr ].
      destruct F as [F | F].
      * rewrite F, <- E. exact Nc.
      * intro I. apply F. now right.
    + apply String.eqb_neq in E.
      destruct (updateFirst k body rest) as [r |] eqn:U; [ | discriminate ].
      injection H as <-. simpl. constructor.
      * intro I. destruct (updateFirst_codes _ _ _ _ _ U I) as [J | J].
        -- contradiction.
        -- destruct F as [F | F]; [ congruence | ].
           apply F. left. now symmetry.
      * apply (IH r eq_refl); [ | exact Nr ].
        destruct F as [F | F]; [ now left | right ].
        intro I. apply F. now right.
Qed.

(** X10.  Editing a coupon never touches a [usedBy] array, a type, a
    target username, a gift message or an active flag, and adds or
    removes no coupon; unless the answer is 'done' the collection is left
    as it was; and codes that were pairwise distinct stay so. *)
Theorem edited_coupon_keeps_ledger :
  forall (cs : list Coupon.t) (paramCode : string) (raw : CouponBody.t),
    map Coupon.usedBy (fst (updateCoupon cs paramCode raw)) = map Coupon.usedBy cs
    /\ map Coupon.type (fst (updateCoupon cs paramCode raw)) = map Coupon.type cs
    /\ map Coupon.targetUsername (fst (updateCoupon cs paramCode raw))
       = map Coupon.targetUsername cs
    /\ map Coupon.giftMessage (fst (updateCoupon cs paramCode raw))
       = map Coupon.giftMessage cs
    /\ map Coupon.isActive (fst (updateCoupon cs paramCode raw))
       = map Coupon.isActive cs
    /\ (snd (updateCoupon cs paramCode raw) <> Done ->
        fst (updateCoupon cs paramCode raw) = cs)
    /\ (NoDup (codesIn cs) ->
        NoDup (codesIn (fst (updateCoupon cs paramCode raw)))).
Proof.
  intros cs param raw. unfold updateCoupon.
  destruct (parseCoupon raw) as [body |] eqn:P;
    [ | cbn [fst snd]; repeat split; auto ].
  destruct (negb (String.eqb (toUpperCase (CouponBody.code body))
                             (toUpperCase param))) eqn:D.
  - destruct (findByCode (toUpperCase (CouponBody.code body)) cs) as [d |] eqn:F;
      [ cbn [fst snd]; repeat split; auto | ].
    destruct (updateFirst (toUpperCase param) body cs) as [cs' |] eqn:U;
      [ | cbn [fst snd]; repeat split; auto ].
    cbn [fst snd]. destruct (updateFirst_keeps _ _ _ _ U) as (A & B & C & E & G).
    repeat split; try assumption; try congruence.
    intro N. apply (updateFirst_NoDup _ _ _ _ U); [ | exact N ].
    right. now apply findByCode_none.
  - apply negb_false_iff, String.eqb_eq in D.
    destruct (updateFirst (toUpperCase param) body cs) as [cs' |] eqn:U;
      [ | cbn [fst snd]; repeat split; auto ].
    cbn [fst snd]. destruct (updateFirst_keeps _ _ _ _ U) as (A & B & C & E & G).
    repeat split; try assumption; try congruence.
    intro N. apply (updateFirst_NoDup _ _ _ _ U); [ now left | exact N ].
Qed.

Lemma edited_coupon_keeps_ledger_witness :
  codesIn (fst (updateCoupon (markUsed "ABOVE2000" "u-bob" sampleCoupons)
                             "above2000" editBody))
  = ["NEPAL100"; "ABOVE2500"; "ABOVE1500"; "WELCOME"; "GIFT4ALICE"]
  /\ NoDup (codesIn (fst (updateCoupon (markUsed "ABOVE2000" "u-bob" sampleCoupons)
                                       "above2000" editBody)))
  /\ map Coupon.usedBy
       (fst (updateCoupon (markUsed "ABOVE2000" "u-bob" sampleCoupons)
                          "above2000" editBody))
     = [[]; []; ["u-bob"]; []; []].
Proof.
  destruct (edited_coupon_keeps_ledger
              (markUsed "ABOVE2000" "u-bob" sampleCoupons) "above2000" editBody)
    as (U & _ & _ & _ & _ & _ & N).
  split; [ reflexivity | ]. split.
  - apply N. cbn. repeat constructor; simpl; intuition discriminate.
  - rewrite U. reflexivity.
Defined.

Lemma findCoupon_deleteFirst_same (k : string) (cs : list Coupon.t) :
  NoDup (codesIn cs) -> findCoupon k (deleteFirst k cs) = None.
Proof.
  unfold findCoupon. induction cs as [| c rest IH]; intro N; simpl.
  - reflexivity.
  - inversion N as [| ? ? Nc Nr]; subst.
    destruct (String.eqb (Coupon.code c) k) eqn:E.
    + apply String.eqb_eq in E. subst k.
      destruct (find _ rest) as [d |] eqn:F; [ | reflexivity ].
      apply find_some in F. destruct F as [I P].
      apply andb_true_iff in P. destruct P as [P _].
      apply String.eqb_eq in P. exfalso. apply Nc. rewrite <- P.
      unfold codesIn. now apply in_map.
    + simpl. rewrite E. simpl. now apply IH.
Qed.

Lemma findCoupon_deleteFirst_other (k k' : string) (cs : list Coupon.t) :
  k' <> k -> findCoupon k' (deleteFirst k cs) = findCoupon k' cs.
Proof.
  intro D. unfold findCoupon. induction cs as [| c rest IH]; simpl.
  - reflexivity.
  - destruct (String.eqb (Coupon.code c) k) eqn:E.
    + apply String.eqb_eq in E.
      assert (E' : String.eqb (Coupon.code c) k' = false)
        by (apply String.eqb_neq; congruence).
      rewrite E'. reflexivity.
    + simpl. destruct (String.eqb (Coupon.code c) k' && Coupon.isActive c);
        [ reflexivity | exact IH ].
Qed.

(** X11.  When the stored codes are pairwise distinct, a deleted coupon
    is an invalid code to the validation route from then on, for every
    user and total and in any letter case, and the answers for all other
    codes are what they were. *)
Theorem deleted_coupon_is_invalid :
  forall (sq : bool) (db : Database) (now : Z) (user : ReqUser.t)
         (paramCode : string) (total : number),
    NoDup (codesIn (coupons db)) ->
    validateCoupon sq (withCoupons (deleteCoupon (coupons db) paramCode) db)
                   now user paramCode total
    = Invalid InvalidCode
    /\ forall code : string,
         toUpperCase code <> toUpperCase paramCode ->
         validateCoupon sq (withCoupons (deleteCoupon (coupons db) paramCode) db)
                        now user code total
         = validateCoupon sq db now user code total.
Proof.
  intros sq db now user param total N.
  unfold validateCoupon, validateCouponWith, deleteCoupon, withCoupons.
  cbn [coupons]. split.
  - now rewrite findCoupon_deleteFirst_same.
  - intros code D. rewrite findCoupon_deleteFirst_other by exact D.
    reflexivity.
Qed.

Lemma deleted_coupon_is_invalid_witness :
  validateCoupon false
    (withCoupons (deleteCoupon sampleCoupons "above2000") sampleDatabase)
    1700000000000 alice "ABOVE2000" 5000 = Invalid InvalidCode
  /\ isValid (validateCoupon false
                (withCoupons (deleteCoupon sampleCoupons "above2000")
                             sampleDatabase)
                1700000000000 alice "ABOVE2500" 5000) = true.
Proof.
  assert (N : NoDup (codesIn (coupons sampleDatabase)))
    by (cbn; repeat constructor; simpl; intuition discriminate).
  split.
    destruct (deleted_coupon_is_invalid false sampleDatabase 1700000000000
                alice "ABOVE2000" 5000 N) as [A _].
    exact A.
  - destruct (deleted_coupon_is_invalid false sampleDatabase 1700000000000
                alice "above2000" 5000 N) as [_ B].
    change (coupons sampleDatabase) with sampleCoupons in B.
    rewrite (B "ABOVE2500"); [ reflexivity | discriminate ].
Defined.

(* ------------------------------------------------------------------ *)
(** ** The coupon list and the order list *)

(** X12.  The coupon list shows exactly the active coupons, targeted ones
    included, and is the same for every caller; each coupon the
    validation route accepts is on it, with the code and the discount of
    the answer. *)
Theorem coupon_list_covers_validation :
  forall (db : Database),
    (forall v : CouponView.t,
        In v (getCoupons db)
        <-> exists c, In c (coupons db) /\ Coupon.isActive c = true
                      /\ v = listedView c)
    /\ (forall (sq : bool) (now : Z) (user : ReqUser.t) (code : string)
               (total : number) (v : CouponView.t),
           validateCoupon sq db now user code total = Valid v ->
           exists w, In w (getCoupons db)
                     /\ CouponView.code w = CouponView.code v
                     /\ CouponView.discountAmount w = CouponView.discountAmount v
                     /\ CouponView.minOrderAmount w = CouponView.minOrderAmount v
                     /\ CouponView.type w = CouponView.type v).
Proof.
  intro db. split.
  - intro v. unfold getCoupons. rewrite in_map_iff. split.
    + intros [c [E I]]. apply filter_In in I. destruct I as [I A].
      exists c. auto.
    + intros [c [I [A E]]]. exists c. split; [ now symmetry | ].
      apply filter_In. auto.
  - intros sq now user code total v H.
    unfold validateCoupon, validateCouponWith in H.
    destruct (findCoupon (toUpperCase code) (coupons db)) as [c |] eqn:F;
      [ | discriminate ].
    destruct (findCoupon_some _ _ _ F) as [I [_ A]].
    destruct (checkCoupon_valid_inv _ _ _ _ _ _ _ _ _ H) as [V _]. subst v.
    exists (listedView c). split; [ | repeat split ].
    unfold getCoupons. apply in_map. apply filter_In. auto.
Qed.

Lemma coupon_list_covers_validation_witness :
  exists w, In w (getCoupons sampleDatabase)
            /\ CouponView.code w = "GIFT4ALICE"
            /\ CouponView.discountAmount w = 75.
Proof.
  destruct (coupon_list_covers_validation sampleDatabase) as [_ V].
  destruct (V false 1700000000000%Z alice "gift4alice" 10 _ eq_refl)
    as [w [I [K [D _]]]].
  exists w. split; [ exact I | ]. split; [ exact K | exact D ].
Defined.

Section OrderList.

(** Which strings are ObjectIds, and the sort of the order list, which
    returns the orders it is given. *)
Variable isObjectId : string -> bool.
Variable sortByCreatedAt : list Order.t -> list Order.t.
Hypothesis sort_keeps_members :
  forall (l : list Order.t) (o : Order.t), In o (sortByCreatedAt l) <-> In o l.

Lemma getOrders_of_owner (db : Database) (role : string) (user : ReqUser.t)
    (queryUserId : option string) (owner : string) :
  ordersQuery role user queryUserId = Some (Some owner) ->
  (isObjectId owner = true ->
   exists l, getOrders isObjectId sortByCreatedAt db role user queryUserId
             = Orders l
             /\ forall o, In o l <-> In o (orders db) /\ Order.user o = owner)
  /\ (isObjectId owner = false ->
      getOrders isObjectId sortByCreatedAt db role user queryUserId
      = CastFailed).
Proof.
  intro Q. unfold getOrders. rewrite Q. split; intro V; rewrite V.
  - eexists. split; [ reflexivity | ].
    intro o. rewrite sort_keeps_members, filter_In, String.eqb_eq. tauto.
  - reflexivity.
Qed.

(** X13.  A caller who is neither admin nor staff is refused (403) when
    asking for another user's orders, and otherwise, with or without
    naming the own id, gets exactly the stored orders that are the
    caller's own.  Admin and staff get every stored order when they name
    no user, and exactly the named user's orders otherwise.  Wherever the
    route filters on an id that is no ObjectId, it fails (500) instead. *)
Theorem order_list_access :
  forall (db : Database) (role : string) (user : ReqUser.t)
         (queryUserId : option string),
    (role <> "ADMIN" -> role <> "STAFF" ->
     (forall other, queryUserId = Some other -> other <> EmptyString ->
                    other <> ReqUser.id user ->
                    getOrders isObjectId sortByCreatedAt db role user queryUserId
                    = Forbidden)
     /\ (truthy queryUserId = false \/ queryUserId = Some (ReqUser.id user) ->
         (isObjectId (ReqUser.id user) = true ->
          exists l,
            getOrders isObjectId sortByCreatedAt db role user queryUserId
            = Orders l
            /\ forall o, In o l <-> In o (orders db)
                                    /\ Order.user o = ReqUser.id user)
         /\ (isObjectId (ReqUser.id user) = false ->
             getOrders isObjectId sortByCreatedAt db role user queryUserId
             = CastFailed)))
    /\ (role = "ADMIN" \/ role = "STAFF" ->
        (truthy queryUserId = false ->
         exists l,
           getOrders isObjectId sortByCreatedAt db role user queryUserId
           = Orders l
           /\ forall o, In o l <-> In o (orders db))
        /\ (forall other, queryUserId = Some other -> other <> EmptyString ->
               (isObjectId other = true ->
                exists l,
                  getOrders isObjectId sortByCreatedAt db role user queryUserId
                  = Orders l
                  /\ forall o, In o l <-> In o (orders db)
                                          /\ Order.user o = other)
               /\ (isObjectId other = false ->
                   getOrders isObjectId sortByCreatedAt db role user queryUserId
                   = CastFailed))).
Proof.
  intros db role user q. split.
  - intros NA NS.
    apply String.eqb_neq in NA. apply String.eqb_neq in NS.
    split.
    + intros other E Ne D. subst q. unfold getOrders, ordersQuery.
      rewrite NA, NS, (truthy_some other Ne). cbn [orb negb andb].
      apply String.eqb_neq in D. rewrite D. reflexivity.
    + intro H. apply getOrders_of_owner. unfold ordersQuery.
      rewrite NA, NS. cbn [orb negb andb].
      destruct H as [T | E].
      * rewrite T. reflexivity.
      * subst q. destruct (truthy (Some (ReqUser.id user))); [ | reflexivity ].
        now rewrite String.eqb_refl.
  - intro P.
    assert (Pr : String.eqb role "ADMIN" || String.eqb role "STAFF" = true).
    { destruct P as [-> | ->]; reflexivity. }
    split.
    + intro T. unfold getOrders, ordersQuery. rewrite Pr, T. cbn [negb].
      eexists. split; [ reflexivity | ]. intro o. apply sort_keeps_members.
    + intros other E Ne. subst q. apply getOrders_of_owner.
      unfold ordersQuery. rewrite Pr, (truthy_some other Ne). reflexivity.
Qed.

End OrderList.

Lemma order_list_access_witness :
  getOrders (fun _ => true) (@rev Order.t) databaseAfterBobsOrder
            "CUSTOMER" carol (Some "u-bob") = Forbidden
  /\ (exists l,
        getOrders (fun _ => true) (@rev Order.t) databaseAfterBobsOrder
                  "CUSTOMER" bob None = Orders l
        /\ In bobsOrder l)
  /\ getOrders (fun _ => false) (@rev Order.t) databaseAfterBobsOrder
               "STAFF" carol (Some "not-an-id") = CastFailed
  /\ exists l,
       getOrders (fun _ => true) (@rev Order.t) databaseAfterBobsOrder
                 "STAFF" carol None = Orders l
       /\ In bobsOrder l.
Proof.
  assert (R : forall (l : list Order.t) (o : Order.t), In o (rev l) <-> In o l)
    by (intros l o; symmetry; apply in_rev).
  split; [ | split; [ | split ] ].
  - pose proof (order_list_access (fun _ => true) (@rev Order.t) R
                  databaseAfterBobsOrder "CUSTOMER" carol (Some "u-bob"))
      as [T _].
    assert (NA : "CUSTOMER" <> "ADMIN") by discriminate.
    assert (NS : "CUSTOMER" <> "STAFF") by discriminate.
    destruct (T NA NS) as [F _].
    apply (F "u-bob" eq_refl); discriminate.
  - pose proof (order_list_access (fun _ => true) (@rev Order.t) R
                  databaseAfterBobsOrder "CUSTOMER" bob None) as [T _].
    assert (NA : "CUSTOMER" <> "ADMIN") by discriminate.
    assert (NS : "CUSTOMER" <> "STAFF") by discriminate.
    destruct (T NA NS) as [_ O].
    destruct (O (or_introl eq_refl)) as [A _].
    destruct (A eq_refl) as [l [E M]].
    exists l. split; [ exact E | ]. apply M.
    split; [ left; reflexivity | reflexivity ].
  - pose proof (order_list_access (fun _ => false) (@rev Order.t) R
                  databaseAfterBobsOrder "STAFF" carol (Some "not-an-id"))
      as [_ T].
    destruct (T (or_intror eq_refl)) as [_ N].
    assert (Ne : "not-an-id" <> EmptyString) by discriminate.
    destruct (N "not-an-id" eq_refl Ne) as [_ C].
    apply C. reflexivity.
  - pose proof (order_list_access (fun _ => true) (@rev Order.t) R
                  databaseAfterBobsOrder "STAFF" carol None) as [_ T].
    destruct (T (or_intror eq_refl)) as [A _].
    destruct (A eq_refl) as [l [E M]].
    exists l. split; [ exact E | ]. apply M. left. reflexivity.
Defined.

(* ------------------------------------------------------------------ *)
(** ** Cart totals *)

Lemma toFixed2_error (x : number) : Qabs (toFixed2 x - x) <= 1 # 200.
Proof.
  unfold toFixed2.
  pose proof (Qfloor_le (Qabs x * 100 + (1 # 2))) as L.
  pose proof (Qlt_floor (Qabs x * 100 + (1 # 2))) as U.
  rewrite inject_Z_plus in U. change (inject_Z 1) with 1 in U.
  assert (I : / 100 == 1 # 100) by reflexivity.
  destruct (ltb x 0) eqn:S.
  - apply ltb_spec in S.
    assert (A : Qabs x == - x) by (apply Qabs_neg; lra).
    rewrite inject_Z_opp.
    apply Qabs_Qle_condition. unfold Qdiv. rewrite I.
    generalize dependent (inject_Z (Qfloor (Qabs x * 100 + (1 # 2)))).
    generalize dependent (Qabs x).
    intros a A n L U. split; lra.
  - apply ltb_false in S.
    assert (A : Qabs x == x) by (apply Qabs_pos; lra).
    apply Qabs_Qle_condition. unfold Qdiv. rewrite I.
    generalize dependent (inject_Z (Qfloor (Qabs x * 100 + (1 # 2)))).
    generalize dependent (Qabs x).
    intros a A n L U. split; lra.
Qed.

Lemma fold_accumulate_saving (c : list CartItem) (s b : number) :
  snd (fold_left accumulate c (s, b)) == b + cartSaving c.
Proof.
  revert s b. induction c as [| item rest IH]; intros s b; simpl.
  - ring.
  - destruct (bulkRule item); rewrite IH; ring.
Qed.

Lemma fold_discounts (applied : list AppliedCoupon.t) (acc : number) :
  fold_left (fun sum coupon => sum + AppliedCoupon.discount coupon) applied acc
  == acc + sumDiscounts applied.
Proof.
  revert acc. induction applied as [| k rest IH]; intro acc; simpl.
  - ring.
  - rewrite IH. ring.
Qed.

Lemma sumDiscounts_app (a b : list AppliedCoupon.t) :
  sumDiscounts (a ++ b) == sumDiscounts a + sumDiscounts b.
Proof.
  induction a as [| k rest IH]; simpl; [ ring | rewrite IH; ring ].
Qed.

(** X14.  For any cart and any applied coupons: the subtotal is the sum of
    price times quantity over the lines; the bulk discount is the sum of
    the savings of the lines that have a bulk rule, rounded once, after
    summing, and so within half a hundredth of that sum; the coupon
    discount is the sum of the applied discounts; and the total is
    subtotal less bulk discount less coupon discount plus delivery
    charge. *)
Theorem cart_totals_structure :
  forall (c : list CartItem) (applied : list AppliedCoupon.t),
    subtotal (computeTotals c applied) == cartSum c
    /\ bulkDiscount (computeTotals c applied) = toFixed2 (cartSaving c)
    /\ Qabs (bulkDiscount (computeTotals c applied) - cartSaving c) <= 1 # 200
    /\ totalCouponDiscount (computeTotals c applied) == sumDiscounts applied
    /\ total (computeTotals c applied)
       == subtotal (computeTotals c applied)
          - bulkDiscount (computeTotals c applied)
          - sumDiscounts applied
          + deliveryCharge (computeTotals c applied).
Proof.
  intros c applied. unfold computeTotals.
  pose proof (fold_accumulate_subtotal c 0 0) as S.
  pose proof (fold_accumulate_saving c 0 0) as B.
  destruct (fold_left accumulate c (0, 0)) as [sub b]. cbn [fst snd] in S, B.
  cbn [subtotal bulkDiscount totalCouponDiscount total deliveryCharge].
  assert (E : toFixed2 b = toFixed2 (cartSaving c))
    by (apply toFixed2_compat; rewrite B; ring).
  split; [ rewrite S; ring | ].
  split; [ exact E | ].
  split; [ rewrite E; apply toFixed2_error | ].
  split; [ rewrite fold_discounts; ring | ].
  rewrite fold_discounts. ring.
Qed.

(** X15.  The applied coupons have no influence on the subtotal, the bulk
    discount or the delivery charge; and applying one more coupon lowers
    the total by exactly its discount, whatever is applied already. *)
Theorem coupons_only_lower_the_total :
  forall (c : list CartItem) (applied applied' : list AppliedCoupon.t)
         (k : AppliedCoupon.t),
    subtotal (computeTotals c applied) = subtotal (computeTotals c applied')
    /\ bulkDiscount (computeTotals c applied)
       = bulkDiscount (computeTotals c applied')
    /\ deliveryCharge (computeTotals c applied)
       = deliveryCharge (computeTotals c applied')
    /\ total (computeTotals c (applied ++ [k]))
       == total (computeTotals c applied) - AppliedCoupon.discount k.
Proof.
  intros c applied applied' k. unfold computeTotals.
  destruct (fold_left accumulate c (0, 0)) as [sub b].
  cbn [subtotal bulkDiscount totalCouponDiscount total deliveryCharge].
  repeat split.
  rewrite !fold_discounts, sumDiscounts_app. simpl. ring.
Qed.

(** X16.  On a line with a bulk rule of N units, the bulk discount depends
    on the quantity only through the number of full bundles: it is
    floor(Q/N) times (N*P - B), rounded; below the bundle size it is 0. *)
Theorem bulk_discount_counts_full_bundles :
  forall (item : CartItem) (r : BulkRule.t) (applied : list AppliedCoupon.t),
    bulkRule item = Some r ->
    (0 <= quantity item)%Z -> (0 < BulkRule.qty r)%Z ->
    bulkDiscount (computeTotals [item] applied)
    = toFixed2 (inject_Z (quantity item / BulkRule.qty r)
                * (inject_Z (BulkRule.qty r) * price item - BulkRule.price r))
    /\ ((quantity item < BulkRule.qty r)%Z ->
        bulkDiscount (computeTotals [item] applied) == 0).
Proof.
  intros item r applied H HQ HN.
  rewrite (bulkDiscount_one_line_rule item r applied H).
  pose proof (bulkSaving_bundles item r HQ HN) as E.
  split; [ now apply toFixed2_compat | ].
  intro L. rewrite (toFixed2_compat _ _ E).
  rewrite Z.div_small by lia.
  assert (Z0 : inject_Z 0 * (inject_Z (BulkRule.qty r) * price item
                             - BulkRule.price r) == 0) by ring.
  rewrite (toFixed2_compat _ _ Z0). reflexivity.
Qed.

Lemma bulk_discount_counts_full_bundles_witness :
  bulkDiscount (computeTotals (oneLine 20 5 (Some (BulkRule.mk 6 100))) []) == 0
  /\ bulkDiscount (computeTotals (oneLine 20 13 (Some (BulkRule.mk 6 100))) [])
     == 40.
Proof.
  split.
  - apply (bulk_discount_counts_full_bundles
             (mkCartItem "p1" 20 5 100 (Some (BulkRule.mk 6 100)))
             (BulkRule.mk 6 100) [] eq_refl);
      [ vm_compute; discriminate | reflexivity | reflexivity ].
  - destruct (bulk_discount_counts_full_bundles
                (mkCartItem "p1" 20 13 100 (Some (BulkRule.mk 6 100)))
                (BulkRule.mk 6 100) [] eq_refl) as [E _];
      [ vm_compute; discriminate | reflexivity | ].
    unfold oneLine. rewrite E. vm_compute. reflexivity.
Defined.

(** X17.  A cart that grows never drops to a lower tier and never pays a
    higher delivery charge: the threshold of the target tier is monotone
    in the subtotal, and the delivery charge is antitone in the net
    amount. *)
Theorem tiers_are_monotone :
  forall s s' : number,
    s <= s' ->
    (forall tc, targetTierCoupon s = Some tc ->
                exists tc', targetTierCoupon s' = Some tc'
                            /\ TieredCoupon.threshold tc
                               <= TieredCoupon.threshold tc')
    /\ deliveryTier s' <= deliveryTier s.
Proof.
  intros s s' L. split.
  - intros tc H. revert H. tier_cases s; intro H; try discriminate;
      injection H as <-; tier_cases s';
      try (eexists; split; [ reflexivity | simpl; lra ]); exfalso; lra.
  - destruct (Qlt_le_dec s 1000) as [A | A].
    + rewrite (deliveryTier_low s A).
      destruct (Qlt_le_dec s' 1000) as [B | B];
        [ rewrite (deliveryTier_low s' B); lra | ].
      destruct (Qlt_le_dec 3000 s') as [C | C];
        [ rewrite (deliveryTier_high s' C); lra
        | rewrite (deliveryTier_mid s' B C); lra ].
    + destruct (Qlt_le_dec 3000 s) as [C | C].
      * rewrite (deliveryTier_high s C), (deliveryTier_high s'); lra.
      * rewrite (deliveryTier_mid s A C).
        destruct (Qlt_le_dec 3000 s') as [D | D];
          [ rewrite (deliveryTier_high s' D); lra
          | rewrite (deliveryTier_mid s'); lra ].
Qed.

Lemma tiers_are_monotone_witness :
  (exists tc', targetTierCoupon 8200 = Some tc'
               /\ 2500 <= TieredCoupon.threshold tc')
  /\ deliveryTier 8200 <= deliveryTier 2600.
Proof.
  destruct (tiers_are_monotone 2600 8200) as [T D];
    [ vm_compute; discriminate | ].
  split; [ | exact D ].
  apply (T (TieredCoupon.mk "ABOVE2500" 2500 "Bulk Discount")). reflexivity.
Defined.

(* ------------------------------------------------------------------ *)
(** ** Applying and removing a coupon by hand *)

Lemma isApplied_iff (code : string) (l : list AppliedCoupon.t) :
  isApplied code l = true <-> In code (codesOf l).
Proof.
  unfold isApplied, codesOf. rewrite existsb_exists, in_map_iff.
  split; intros [k [A B]]; exists k.
  - apply String.eqb_eq in B. auto.
  - split; [ exact B | now apply String.eqb_eq ].
Qed.

Lemma isApplied_false (code : string) (l : list AppliedCoupon.t) :
  isApplied code l = false <-> ~ In code (codesOf l).
Proof. rewrite <- isApplied_iff. symmetry. apply not_true_iff_false. Qed.

Lemma truthy_some_false (s : string) : truthy (Some s) = false <-> s = EmptyString.
Proof. destruct s; simpl; split; congruence. Qed.

Lemma handleApplyCoupon_valid (env : Env) (snap : Page)
    (codeOverride : option string) (cur : Page) (v : CouponView.t) :
  codeToValidate snap codeOverride <> EmptyString ->
  isApplied (codeToValidate snap codeOverride) (appliedCoupons snap) = false ->
  validate env (codeToValidate snap codeOverride) (subtotalOf snap) = Valid v ->
  appliedCoupons (handleApplyCoupon env snap codeOverride cur)
  = appliedCoupons cur ++ [toApplied v].
Proof.
  intros Ne A V. unfold handleApplyCoupon.
  fold (codeToValidate snap codeOverride).
  rewrite (truthy_some _ Ne), A, V. cbn [negb].
  destruct (findSpecialCoupon env (CouponView.code v));
    [ destruct (negb _) | ]; reflexivity.
Qed.

(** X18.  A click on Apply never touches the cart.  With no code to send
    it does nothing.  For a code that is applied already it reports so
    and leaves the coupons alone.  Otherwise the code is validated
    against the subtotal: a refusal is shown and changes no coupon, while
    an accepted coupon is appended after the applied ones with the code
    and discount of the answer, and clears the error and the promo
    box. *)
Theorem manual_apply_outcomes :
  forall (env : Env) (p : Page) (codeOverride : option string),
    cart (handleApplyCoupon env p codeOverride p) = cart p
    /\ (codeToValidate p codeOverride = EmptyString ->
        handleApplyCoupon env p codeOverride p = p)
    /\ (codeToValidate p codeOverride <> EmptyString ->
        (isApplied (codeToValidate p codeOverride) (appliedCoupons p) = true ->
         appliedCoupons (handleApplyCoupon env p codeOverride p)
         = appliedCoupons p
         /\ couponError (handleApplyCoupon env p codeOverride p)
            = Some (AlreadyApplied (codeToValidate p codeOverride)))
        /\ (isApplied (codeToValidate p codeOverride) (appliedCoupons p) = false ->
            (forall e,
                validate env (codeToValidate p codeOverride) (subtotalOf p)
                = Invalid e ->
                appliedCoupons (handleApplyCoupon env p codeOverride p)
                = appliedCoupons p
                /\ couponError (handleApplyCoupon env p codeOverride p)
                   = Some (Rejected e)
                /\ couponCode (handleApplyCoupon env p codeOverride p)
                   = couponCode p)
            /\ (forall v,
                   validate env (codeToValidate p codeOverride) (subtotalOf p)
                   = Valid v ->
                   appliedCoupons (handleApplyCoupon env p codeOverride p)
                   = appliedCoupons p ++ [toApplied v]
                   /\ couponError (handleApplyCoupon env p codeOverride p) = None
                   /\ couponCode (handleApplyCoupon env p codeOverride p)
                      = EmptyString))).
Proof.
  intros env p o. unfold handleApplyCoupon.
  fold (codeToValidate p o). set (code := codeToValidate p o).
  destruct (truthy (Some code)) eqn:T; cbn [negb].
  - assert (Ne : code <> EmptyString)
      by (intro E; apply truthy_some_false in E; congruence).
    destruct (isApplied code (appliedCoupons p)) eqn:A.
    + split; [ reflexivity | ]. split; [ congruence | ].
      intros _. split; [ auto | discriminate ].
    + destruct (validate env code (subtotalOf p)) as [v | e] eqn:V.
      * assert (C : forall q, cart q = cart p ->
                    cart (match findSpecialCoupon env (CouponView.code v) with
                          | Some _ =>
                              if negb (includes (CouponView.code v)
                                                (usedSpecialCoupons p))
                              then setUsedSpecialCoupons
                                     (fun prev => prev ++ [CouponView.code v]) q
                              else q
                          | None => q
                          end) = cart p
                    /\ appliedCoupons
                         (match findSpecialCoupon env (CouponView.code v) with
                          | Some _ =>
                              if negb (includes (CouponView.code v)
                                                (usedSpecialCoupons p))
                              then setUsedSpecialCoupons
                                     (fun prev => prev ++ [CouponView.code v]) q
                              else q
                          | None => q
                          end) = appliedCoupons q
                    /\ couponError
                         (match findSpecialCoupon env (CouponView.code v) with
                          | Some _ =>
                              if negb (includes (CouponView.code v)
                                                (usedSpecialCoupons p))
                              then setUsedSpecialCoupons
                                     (fun prev => prev ++ [CouponView.code v]) q
                              else q
                          | None => q
                          end) = couponError q
                    /\ couponCode
                         (match findSpecialCoupon env (CouponView.code v) with
                          | Some _ =>
                              if negb (includes (CouponView.code v)
                                                (usedSpecialCoupons p))
                              then setUsedSpecialCoupons
                                     (fun prev => prev ++ [CouponView.code v]) q
                              else q
                          | None => q
                          end) = couponCode q).
        { intros q Cq. destruct (findSpecialCoupon env (CouponView.code v));
            [ destruct (negb _) | ]; repeat split; exact Cq. }
        destruct (C (setCouponCode EmptyString
                       (setCouponError None
                          (setAppliedCoupons
                             (fun prev => prev ++ [toApplied v]) p))) eq_refl)
          as (C1 & C2 & C3 & C4).
        split; [ exact C1 | ]. split; [ congruence | ].
        intros _. split; [ discriminate | ]. intros _. split; [ discriminate | ].
        intros w E. injection E as <-.
        rewrite C2, C3, C4. repeat split.
      * split; [ reflexivity | ]. split; [ congruence | ].
        intros _. split; [ discriminate | ]. intros _. split; [ | discriminate ].
        intros e' E. injection E as <-. repeat split.
  - assert (E : code = EmptyString) by now apply truthy_some_false.
    split; [ reflexivity | ]. split; [ reflexivity | congruence ].
Qed.

Lemma manual_apply_outcomes_witness :
  codesOf (appliedCoupons (handleApplyCoupon (sampleEnv alice) giftPage None giftPage))
  = ["GIFT4ALICE"]
  /\ couponError
       (handleApplyCoupon (sampleEnv bob) giftPage None giftPage)
     = Some (Rejected NotYourCoupon).
Proof.
  destruct (manual_apply_outcomes (sampleEnv alice) giftPage None)
    as (_ & _ & A).
  destruct (manual_apply_outcomes (sampleEnv bob) giftPage None)
    as (_ & _ & B).
  destruct (A ltac:(discriminate)) as [_ A'].
  destruct (B ltac:(discriminate)) as [_ B'].
  destruct (A' eq_refl) as [_ AV]. destruct (B' eq_refl) as [BI _].
  split.
  - destruct (AV _ eq_refl) as [E _]. rewrite E. reflexivity.
  - destruct (BI NotYourCoupon eq_refl) as [_ [E _]]. exact E.
Defined.

Lemma filter_not_code_id (code : string) (l : list AppliedCoupon.t) :
  isApplied code l = false ->
  filter (fun c => negb (String.eqb (AppliedCoupon.code c) code)) l = l.
Proof.
  unfold isApplied. induction l as [| k rest IH]; simpl; [ reflexivity | ].
  destruct (String.eqb (AppliedCoupon.code k) code); [ discriminate | ].
  intro H. simpl. now rewrite IH.
Qed.

(** X19.  Removing a coupon leaves its code unapplied, keeps every other
    applied coupon in place and in order, clears the error and never
    touches the cart; removing a code that is not applied changes no
    coupon.  Removing the coupon that a click on Apply has just added
    gives back the applied coupons as they were before the click,
    provided the code of the added coupon, as the server spells it, was
    not applied before the click.  (The click only compares the code as
    typed: with NEPAL100 applied and nepal100 typed it adds NEPAL100 a
    second time, and the removal then takes both away.) *)
Theorem remove_coupon_roundtrip :
  forall (env : Env) (p : Page) (code : string),
    isApplied code (appliedCoupons (handleRemoveCoupon code p)) = false
    /\ cart (handleRemoveCoupon code p) = cart p
    /\ couponError (handleRemoveCoupon code p) = None
    /\ filter (fun k => negb (String.eqb (AppliedCoupon.code k) code))
              (appliedCoupons p)
       = appliedCoupons (handleRemoveCoupon code p)
    /\ (isApplied code (appliedCoupons p) = false ->
        appliedCoupons (handleRemoveCoupon code p) = appliedCoupons p)
    /\ (forall (codeOverride : option string) (v : CouponView.t),
           codeToValidate p codeOverride <> EmptyString ->
           isApplied (codeToValidate p codeOverride) (appliedCoupons p) = false ->
           validate env (codeToValidate p codeOverride) (subtotalOf p) = Valid v ->
           CouponView.code v = code ->
           isApplied code (appliedCoupons p) = false ->
           appliedCoupons
             (handleRemoveCoupon code (handleApplyCoupon env p codeOverride p))
           = appliedCoupons p).
Proof.
  intros env p code.
  assert (R : forall q, appliedCoupons (handleRemoveCoupon code q)
                        = filter (fun k => negb (String.eqb (AppliedCoupon.code k) code))
                                 (appliedCoupons q))
    by (intro q; apply appliedCoupons_handleRemoveCoupon).
  split; [ | split; [ | split; [ | split; [ | split ] ] ] ].
  - rewrite R. apply isApplied_false. unfold codesOf. rewrite in_map_iff.
    intros [k [E I]]. apply filter_In in I. destruct I as [_ N].
    apply negb_true_iff, String.eqb_neq in N. contradiction.
  - unfold handleRemoveCoupon.
    destruct (isTieredCode code || String.eqb code "AUTO50"); reflexivity.
  - reflexivity.
  - now rewrite R.
  - intro A. rewrite R. now apply filter_not_code_id.
  - intros o v Ne A V K A'.
    pose proof (handleApplyCoupon_valid env p o p v Ne A V) as E.
    rewrite R, E, filter_app. simpl. unfold toApplied.
    cbn [AppliedCoupon.code]. rewrite K, String.eqb_refl. cbn [negb].
    rewrite app_nil_r. now apply filter_not_code_id.
Qed.

(* ------------------------------------------------------------------ *)
(** ** The gift cards *)

Lemma includes_app_l (x : string) (l m : list string) :
  includes x l = true -> includes x (l ++ m) = true.
Proof.
  unfold includes. rewrite existsb_app. intro H. now rewrite H.
Qed.

Lemma usedSpecialCoupons_handleApplyCoupon (env : Env) (snap : Page)
    (codeOverride : option string) (cur : Page) (code : string) :
  includes code (usedSpecialCoupons cur) = true ->
  includes code (usedSpecialCoupons (handleApplyCoupon env snap codeOverride cur))
  = true.
Proof.
  intro H. unfold handleApplyCoupon.
  destruct (negb (truthy _)); [ exact H | ].
  destruct (isApplied _ _); [ exact H | ].
  destruct (validate env _ _) as [v | e]; [ | exact H ].
  destruct (findSpecialCoupon env (CouponView.code v)); [ | exact H ].
  destruct (negb _); [ | exact H ].
  cbn. now apply includes_app_l.
Qed.

Lemma usedSpecialCoupons_firstOrderStep (env : Env) (snap cur : Page) :
  usedSpecialCoupons (firstOrderStep env snap cur) = usedSpecialCoupons cur.
Proof.
  unfold firstOrderStep. destruct (negb (hasPlacedOrder snap)); [ | reflexivity ].
  destruct (find _ _); [ | reflexivity ].
  destruct (negb _); [ | reflexivity ].
  destruct (validate env _ _); reflexivity.
Qed.

Lemma usedSpecialCoupons_tieredStep (env : Env) (snap cur : Page) :
  usedSpecialCoupons (tieredStep env snap cur) = usedSpecialCoupons cur.
Proof.
  unfold tieredStep. destruct (targetTierCoupon _).
  - destruct (negb _); [ | reflexivity ].
    destruct (validate env _ _); reflexivity.
  - destruct (activeTierCoupon _); reflexivity.
Qed.

Lemma usedSpecialCoupons_handle (env : Env) (e : Event) (p : Page)
    (code : string) :
  includes code (usedSpecialCoupons p) = true ->
  includes code (usedSpecialCoupons (handle env e p)) = true.
Proof.
  intro H. destruct e; cbn [handle]; try exact H.
  - unfold onPlus. destruct (negb _); exact H.
  - now apply usedSpecialCoupons_handleApplyCoupon.
  - now apply usedSpecialCoupons_handleApplyCoupon.
  - unfold handleRemoveCoupon. destruct (_ || _); exact H.
  - unfold autoApplyPass. destruct (cart p); [ exact H | ].
    unfold checkAutoApply.
    rewrite usedSpecialCoupons_tieredStep, usedSpecialCoupons_firstOrderStep.
    unfold navigationStep. destruct (navAutoApply env); [ | exact H ].
    destruct (_ && _); [ | exact H ].
    now apply usedSpecialCoupons_handleApplyCoupon.
Qed.

Lemma usedSpecialCoupons_run (env : Env) (es : list Event) (p : Page)
    (code : string) :
  includes code (usedSpecialCoupons p) = true ->
  includes code (usedSpecialCoupons (run env es p)) = true.
Proof.
  unfold run. revert p. induction es as [| e rest IH]; intros p H; simpl.
  - exact H.
  - apply IH. now apply usedSpecialCoupons_handle.
Qed.

(** X20.  Once a click on Apply has added a coupon that the store lists
    as a gift for the signed-in user, the card of that gift never offers
    'Apply Gift' again, whatever happens on the page afterwards; in
    particular, after a cart edit has cleared the applied coupons the
    card shows 'Not Available'. *)
Theorem gift_card_is_spent :
  forall (env : Env) (p : Page) (codeOverride : option string)
         (v : CouponView.t) (es : list Event) (item : CartItem),
    codeToValidate p codeOverride <> EmptyString ->
    isApplied (codeToValidate p codeOverride) (appliedCoupons p) = false ->
    validate env (codeToValidate p codeOverride) (subtotalOf p) = Valid v ->
    findSpecialCoupon env (CouponView.code v) <> None ->
    giftButton (run env es (handleApplyCoupon env p codeOverride p))
               (CouponView.code v) <> OffersApply
    /\ giftButton (handle env (ClickMinus item)
                     (handleApplyCoupon env p codeOverride p))
                  (CouponView.code v) = ShowsNotAvailable.
Proof.
  intros env p o v es item Ne A V S.
  assert (U : includes (CouponView.code v)
                (usedSpecialCoupons (handleApplyCoupon env p o p)) = true).
  { unfold handleApplyCoupon. fold (codeToValidate p o).
    rewrite (truthy_some _ Ne), A, V. cbn [negb].
    destruct (findSpecialCoupon env (CouponView.code v)); [ | congruence ].
    destruct (includes (CouponView.code v) (usedSpecialCoupons p)) eqn:I;
      cbn [negb].
    - exact I.
    - cbn. unfold includes. rewrite existsb_app. simpl.
      rewrite String.eqb_refl. apply orb_true_iff. right. reflexivity. }
  split.
  - pose proof (usedSpecialCoupons_run env es _ _ U) as R.
    unfold giftButton. rewrite R.
    destruct (isApplied (CouponView.code v) _); discriminate.
  - unfold giftButton. cbn [handle]. unfold onMinus.
    rewrite appliedCoupons_clear. cbn [isApplied existsb].
    change (usedSpecialCoupons
              (handleClearAllCoupons
                 (dispatch env (UPDATE_CART_QTY (id item) (quantity item - 1))
                    (handleApplyCoupon env p o p))))
      with (usedSpecialCoupons (handleApplyCoupon env p o p)).
    rewrite U. reflexivity.
Qed.

Lemma gift_card_is_spent_witness :
  giftButton giftPage "GIFT4ALICE" = OffersApply
  /\ giftButton
       (run (sampleEnv alice)
            [ClickMinus (mkCartItem "p1" 6000 1 100 None); EffectRuns]
            (handleApplyCoupon (sampleEnv alice) giftPage None giftPage))
       "GIFT4ALICE"
     <> OffersApply.
Proof.
  split; [ vm_compute; reflexivity | ].
  pose (v := viewOf (Coupon.mk "GIFT4ALICE" 75 5000 2000000000000
                               SPECIAL_GIFT (Some " Alice ")
                               (Some "Thank you") true [])).
  assert (H1 : codeToValidate giftPage None <> EmptyString)
    by (vm_compute; discriminate).
  assert (H2 : isApplied (codeToValidate giftPage None)
                 (appliedCoupons giftPage) = false)
    by (vm_compute; reflexivity).
  assert (H3 : validate (sampleEnv alice) (codeToValidate giftPage None)
                 (subtotalOf giftPage) = Valid v)
    by (vm_compute; reflexivity).
  assert (H4 : findSpecialCoupon (sampleEnv alice) (CouponView.code v) <> None)
    by (vm_compute; discriminate).
  exact (proj1 (gift_card_is_spent (sampleEnv alice) giftPage None v
                  [ClickMinus (mkCartItem "p1" 6000 1 100 None); EffectRuns]
                  (mkCartItem "p1" 6000 1 100 None) H1 H2 H3 H4)).
Defined.

Lemma remove_coupon_roundtrip_witness :
  codesOf (appliedCoupons
             (handleRemoveCoupon "GIFT4ALICE"
                (handleApplyCoupon (sampleEnv alice) giftPage None giftPage)))
  = [].
Proof.
  destruct (remove_coupon_roundtrip (sampleEnv alice) giftPage "GIFT4ALICE")
    as (_ & _ & _ & _ & _ & R).
  rewrite (R None
             (viewOf (Coupon.mk "GIFT4ALICE" 75 5000 2000000000000
                                SPECIAL_GIFT (Some " Alice ")
                                (Some "Thank you") true [])));
    try reflexivity.
  discriminate.
Defined.

(* ------------------------------------------------------------------ *)
(** ** Invariants of the applied coupons and the settling of the effect *)

Lemma validateCoupon_code (sq : bool) (db : Database) (now : Z)
    (user : ReqUser.t) (code : string) (total : number) (v : CouponView.t) :
  validateCoupon sq db now user code total = Valid v ->
  CouponView.code v = toUpperCase code.
Proof.
  unfold validateCoupon, validateCouponWith.
  destruct (findCoupon (toUpperCase code) (coupons db)) as [c |] eqn:F;
    [ | discriminate ].
  intro H. destruct (checkCoupon_valid_inv _ _ _ _ _ _ _ _ _ H) as [V _].
  subst v. apply (findCoupon_some _ _ _ F).
Qed.

Lemma tier_code_facts (tc : TieredCoupon.t) :
  In tc TIERED_COUPONS ->
  toUpperCase (TieredCoupon.code tc) = TieredCoupon.code tc
  /\ isTieredCode (TieredCoupon.code tc) = true.
Proof. intro I. tier_members; split; reflexivity. Qed.

Lemma targetTierCoupon_in (s : number) (tc : TieredCoupon.t) :
  targetTierCoupon s = Some tc -> In tc TIERED_COUPONS.
Proof. intro H. apply find_some in H. tauto. Qed.

Lemma isApplied_removeTiered (c : string) (l : list AppliedCoupon.t) :
  isTieredCode c = false ->
  isApplied c (removeTiered l) = isApplied c l.
Proof.
  intro T. unfold isApplied, removeTiered.
  induction l as [| k rest IH]; simpl; [ reflexivity | ].
  destruct (isTiered k) eqn:K; simpl.
  - rewrite IH. destruct (String.eqb (AppliedCoupon.code k) c) eqn:E;
      [ | reflexivity ].
    apply String.eqb_eq in E. unfold isTiered in K. congruence.
  - now rewrite IH.
Qed.

Lemma isApplied_app (c : string) (a b : list AppliedCoupon.t) :
  isApplied c (a ++ b) = isApplied c a || isApplied c b.
Proof. unfold isApplied. apply existsb_app. Qed.

Lemma activeTierCoupon_snoc (l : list AppliedCoupon.t) (k : AppliedCoupon.t) :
  isTiered k = false -> activeTierCoupon (l ++ [k]) = activeTierCoupon l.
Proof.
  intro K. unfold activeTierCoupon.
  induction l as [| x rest IH]; simpl; [ now rewrite K | ].
  destruct (isTiered x); [ reflexivity | exact IH ].
Qed.

Lemma activeTierCoupon_removeTiered (l : list AppliedCoupon.t) :
  activeTierCoupon (removeTiered l) = None.
Proof.
  unfold activeTierCoupon, removeTiered.
  induction l as [| x rest IH]; simpl; [ reflexivity | ].
  destruct (isTiered x) eqn:K; simpl; [ exact IH | ].
  rewrite K. exact IH.
Qed.

Lemma activeTierCoupon_replaced (l : list AppliedCoupon.t) (k : AppliedCoupon.t) :
  isTiered k = true -> activeTierCoupon (removeTiered l ++ [k]) = Some k.
Proof.
  intro K. pose proof (activeTierCoupon_removeTiered l) as N.
  unfold activeTierCoupon in *.
  induction (removeTiered l) as [| x rest IH]; simpl in *; [ now rewrite K | ].
  destruct (isTiered x); [ discriminate | now apply IH ].
Qed.

Lemma subtotalOf_cart (p q : Page) : cart p = cart q -> subtotalOf p = subtotalOf q.
Proof.
  intro C. unfold subtotalOf, computeTotals. rewrite C.
  destruct (fold_left accumulate (cart q) (0, 0)). reflexivity.
Qed.

Lemma firstOrderStep_frame (env : Env) (snap cur : Page) :
  cart (firstOrderStep env snap cur) = cart cur
  /\ hasPlacedOrder (firstOrderStep env snap cur) = hasPlacedOrder cur.
Proof.
  unfold firstOrderStep. destruct (negb (hasPlacedOrder snap)); [ | tauto ].
  destruct (find _ _); [ | tauto ].
  destruct (negb _); [ | tauto ].
  destruct (validate env _ _); split; reflexivity.
Qed.

Lemma tieredStep_frame (env : Env) (snap cur : Page) :
  cart (tieredStep env snap cur) = cart cur
  /\ hasPlacedOrder (tieredStep env snap cur) = hasPlacedOrder cur.
Proof.
  unfold tieredStep. destruct (targetTierCoupon _).
  - destruct (negb _); [ | tauto ].
    destruct (validate env _ _); split; reflexivity.
  - destruct (activeTierCoupon _); split; reflexivity.
Qed.

Section SettledPage.

Variable env : Env.

(** Nothing is handed over by navigation; an accepted coupon carries the
    upper-cased code that was asked for, as the server's answers do; the
    store holds its codes in upper case; and the first-order coupon of
    the store is no tier. *)
Hypothesis nothing_handed_over : navAutoApply env = None.
Hypothesis answer_has_code_asked :
  forall (code : string) (total : number) (v : CouponView.t),
    validate env code total = Valid v -> CouponView.code v = toUpperCase code.
Hypothesis store_codes_upper :
  forall c : CouponView.t,
    In c (storeCoupons env) -> toUpperCase (CouponView.code c) = CouponView.code c.
Hypothesis first_order_no_tier :
  forall c : CouponView.t,
    In c (storeCoupons env) -> CouponView.type c = FIRST_ORDER ->
    isTieredCode (CouponView.code c) = false.

Lemma firstOrderCoupon_upper (fc : CouponView.t) :
  find (fun c => CouponType_eqb (CouponView.type c) FIRST_ORDER) (storeCoupons env)
  = Some fc ->
  toUpperCase (CouponView.code fc) = CouponView.code fc.
Proof.
  intro F. apply find_some in F. destruct F as [I T].
  now apply store_codes_upper.
Qed.

Lemma firstOrderCoupon_no_tier (fc : CouponView.t) :
  find (fun c => CouponType_eqb (CouponView.type c) FIRST_ORDER) (storeCoupons env)
  = Some fc ->
  isTieredCode (CouponView.code fc) = false.
Proof.
  intro F. apply find_some in F. destruct F as [I T].
  apply first_order_no_tier; [ exact I | ].
  destruct (CouponView.type fc); try discriminate; reflexivity.
Qed.

(** What the first-order step does to the applied coupons of a settled
    render: nothing, or it appends the first-order coupon, which was not
    applied. *)
Lemma firstOrderStep_applied (p : Page) :
  firstOrderStep env p p = p
  \/ exists fc v,
       find (fun c => CouponType_eqb (CouponView.type c) FIRST_ORDER)
            (storeCoupons env) = Some fc
       /\ isApplied (CouponView.code fc) (appliedCoupons p) = false
       /\ CouponView.code v = CouponView.code fc
       /\ appliedCoupons (firstOrderStep env p p)
          = appliedCoupons p ++ [toApplied v].
Proof.
  unfold firstOrderStep. destruct (negb (hasPlacedOrder p)); [ | now left ].
  destruct (find _ (storeCoupons env)) as [fc |] eqn:F; [ | now left ].
  destruct (isApplied (CouponView.code fc) (appliedCoupons p)) eqn:A;
    cbn [negb]; [ now left | ].
  destruct (validate env (CouponView.code fc) (subtotalOf p)) as [v | e] eqn:V;
    [ | now left ].
  pose proof (answer_has_code_asked _ _ _ V) as K.
  rewrite (firstOrderCoupon_upper fc F) in K.
  right. exists fc, v. repeat split; assumption.
Qed.

Lemma firstOrderStep_active (p : Page) :
  activeTierCoupon (appliedCoupons (firstOrderStep env p p))
  = activeTierCoupon (appliedCoupons p).
Proof.
  destruct (firstOrderStep_applied p) as [E | [fc [v [F [_ [K E]]]]]].
  - now rewrite E.
  - rewrite E. apply activeTierCoupon_snoc.
    unfold isTiered, toApplied. cbn [AppliedCoupon.code].
    rewrite K. now apply firstOrderCoupon_no_tier.
Qed.

Lemma tieredStep_keeps_applied (snap cur : Page) (c : string) :
  isTieredCode c = false ->
  isApplied c (appliedCoupons cur) = true ->
  isApplied c (appliedCoupons (tieredStep env snap cur)) = true.
Proof.
  intros T A. unfold tieredStep.
  destruct (targetTierCoupon (subtotalOf snap)) as [tc |].
  - destruct (negb _); [ | exact A ].
    destruct (validate env _ _); [ | exact A ].
    applied_simpl. rewrite isApplied_app, isApplied_removeTiered, A by exact T.
    reflexivity.
  - destruct (activeTierCoupon _); [ | exact A ].
    applied_simpl. now rewrite isApplied_removeTiered.
Qed.

(** After a pass the first-order step has nothing left to do. *)
Lemma firstOrderStep_settled (p : Page) :
  let P := tieredStep env p (firstOrderStep env p p) in
  firstOrderStep env P P = P.
Proof.
  intro P.
  assert (C : cart P = cart p).
  { unfold P. rewrite (proj1 (tieredStep_frame _ _ _)).
    apply firstOrderStep_frame. }
  assert (H : hasPlacedOrder P = hasPlacedOrder p).
  { unfold P. rewrite (proj2 (tieredStep_frame _ _ _)).
    apply firstOrderStep_frame. }
  pose proof (subtotalOf_cart P p C) as S.
  unfold firstOrderStep at 1. rewrite H, S.
  destruct (negb (hasPlacedOrder p)) eqn:HP; [ | reflexivity ].
  destruct (find _ (storeCoupons env)) as [fc |] eqn:F; [ | reflexivity ].
  destruct (isApplied (CouponView.code fc) (appliedCoupons P)) eqn:A;
    cbn [negb]; [ reflexivity | ].
  destruct (validate env (CouponView.code fc) (subtotalOf p)) as [v | e] eqn:V;
    [ | reflexivity ].
  exfalso.
  pose proof (firstOrderCoupon_upper fc F) as U.
  pose proof (firstOrderCoupon_no_tier fc F) as T.
  assert (A1 : isApplied (CouponView.code fc)
                 (appliedCoupons (firstOrderStep env p p)) = true).
  { unfold firstOrderStep. rewrite HP, F.
    destruct (isApplied (CouponView.code fc) (appliedCoupons p)) eqn:A0;
      cbn [negb]; [ exact A0 | ].
    rewrite V. applied_simpl. rewrite isApplied_app.
    apply orb_true_iff. right.
    pose proof (answer_has_code_asked _ _ _ V) as K. rewrite U in K.
    cbn. now rewrite K, String.eqb_refl. }
  pose proof (tieredStep_keeps_applied p _ _ T A1) as A2.
  fold P in A2. congruence.
Qed.

Lemma tieredStep_fixed_same (q : Page) (tc : TieredCoupon.t)
    (a : AppliedCoupon.t) :
  targetTierCoupon (subtotalOf q) = Some tc ->
  activeTierCoupon (appliedCoupons q) = Some a ->
  String.eqb (AppliedCoupon.code a) (TieredCoupon.code tc) = true ->
  tieredStep env q q = q.
Proof. intros T A E. unfold tieredStep. rewrite T, A, E. reflexivity. Qed.

Lemma tieredStep_fixed_refused (q : Page) (tc : TieredCoupon.t)
    (e : ValidationError) :
  targetTierCoupon (subtotalOf q) = Some tc ->
  validate env (TieredCoupon.code tc) (subtotalOf q) = Invalid e ->
  tieredStep env q q = q.
Proof.
  intros T V. unfold tieredStep. rewrite T, V.
  destruct (negb _); reflexivity.
Qed.

Lemma tieredStep_fixed_none (q : Page) :
  targetTierCoupon (subtotalOf q) = None ->
  activeTierCoupon (appliedCoupons q) = None ->
  tieredStep env q q = q.
Proof. intros T A. unfold tieredStep. rewrite T, A. reflexivity. Qed.

(** The tiered step leaves a page on which it has nothing left to do,
    whenever the page it updates has the cart and the active tier of the
    render it has closed over. *)
Lemma tieredStep_settled_from (p p1 : Page) :
  cart p1 = cart p ->
  activeTierCoupon (appliedCoupons p1) = activeTierCoupon (appliedCoupons p) ->
  tieredStep env (tieredStep env p p1) (tieredStep env p p1)
  = tieredStep env p p1.
Proof.
  intros C1 Act1.
  pose proof (subtotalOf_cart p1 p C1) as S1.
  destruct (targetTierCoupon (subtotalOf p)) as [tc |] eqn:T.
  - destruct (tier_code_facts tc (targetTierCoupon_in _ _ T)) as [U I].
    destruct (validate env (TieredCoupon.code tc) (subtotalOf p))
      as [w | e] eqn:V.
    + pose proof (answer_has_code_asked _ _ _ V) as K. rewrite U in K.
      assert (W : isTiered (toApplied w) = true).
      { unfold isTiered, toApplied. cbn [AppliedCoupon.code]. now rewrite K. }
      destruct (match activeTierCoupon (appliedCoupons p) with
                | Some a => String.eqb (AppliedCoupon.code a) (TieredCoupon.code tc)
                | None => false
                end) eqn:Same.
      * assert (EP : tieredStep env p p1 = p1).
        { unfold tieredStep. rewrite T, Same. reflexivity. }
        rewrite EP.
        destruct (activeTierCoupon (appliedCoupons p)) as [a |] eqn:Act;
          [ | discriminate Same ].
        apply (tieredStep_fixed_same p1 tc a);
          [ now rewrite S1 | exact Act1 | exact Same ].
      * set (q := setCouponError None
                    (setAutoApplyMessage
                       (TieredCoupon.name tc ++ " Applied!")
                       (setAutoApplied true
                          (setAppliedCoupons
                             (fun prev => removeTiered prev ++ [toApplied w])
                             p1)))).
        assert (EP : tieredStep env p p1 = q).
        { unfold tieredStep. rewrite T, Same, V. reflexivity. }
        rewrite EP.
        assert (Sq : subtotalOf q = subtotalOf p)
          by (apply subtotalOf_cart; exact C1).
        apply (tieredStep_fixed_same q tc (toApplied w)).
        -- now rewrite Sq.
        -- change (appliedCoupons q)
             with (removeTiered (appliedCoupons p1) ++ [toApplied w]).
           now apply activeTierCoupon_replaced.
        -- unfold toApplied. cbn [AppliedCoupon.code].
           rewrite K. apply String.eqb_refl.
    + destruct (match activeTierCoupon (appliedCoupons p) with
                | Some a => String.eqb (AppliedCoupon.code a) (TieredCoupon.code tc)
                | None => false
                end) eqn:Same.
      * assert (EP : tieredStep env p p1 = p1).
        { unfold tieredStep. rewrite T, Same. reflexivity. }
        rewrite EP.
        apply (tieredStep_fixed_refused p1 tc e); now rewrite S1.
      * assert (EP : tieredStep env p p1 = p1).
        { unfold tieredStep. rewrite T, Same, V. reflexivity. }
        rewrite EP.
        apply (tieredStep_fixed_refused p1 tc e); now rewrite S1.
  - destruct (activeTierCoupon (appliedCoupons p)) as [a |] eqn:Act.
    + set (q := setAutoApplyMessage EmptyString
                  (setAutoApplied false (setAppliedCoupons removeTiered p1))).
      assert (EP : tieredStep env p p1 = q).
      { unfold tieredStep. rewrite T, Act. reflexivity. }
      rewrite EP.
      assert (Sq : subtotalOf q = subtotalOf p)
        by (apply subtotalOf_cart; exact C1).
      apply tieredStep_fixed_none; [ now rewrite Sq | ].
      change (appliedCoupons q) with (removeTiered (appliedCoupons p1)).
      apply activeTierCoupon_removeTiered.
    + assert (EP : tieredStep env p p1 = p1).
      { unfold tieredStep. rewrite T, Act. reflexivity. }
      rewrite EP.
      apply tieredStep_fixed_none; [ now rewrite S1 | now rewrite Act1 ].
Qed.

(** After a pass the tiered step has nothing left to do. *)
Lemma tieredStep_settled (p : Page) :
  let P := tieredStep env p (firstOrderStep env p p) in
  tieredStep env P P = P.
Proof.
  cbv zeta. apply tieredStep_settled_from.
  - apply firstOrderStep_frame.
  - apply firstOrderStep_active.
Qed.

End SettledPage.

(** X21.  The effect settles after one run: when nothing is handed over
    by navigation, accepted coupons carry the upper-cased code that was
    asked for, the store holds its codes in upper case and its
    first-order coupon is no tier, a second run of the effect on the page
    the first run has left changes nothing. *)
Theorem effect_settles_after_one_run :
  forall (env : Env) (p : Page),
    navAutoApply env = None ->
    (forall (code : string) (total : number) (v : CouponView.t),
        validate env code total = Valid v ->
        CouponView.code v = toUpperCase code) ->
    (forall c : CouponView.t,
        In c (storeCoupons env) ->
        toUpperCase (CouponView.code c) = CouponView.code c) ->
    (forall c : CouponView.t,
        In c (storeCoupons env) -> CouponView.type c = FIRST_ORDER ->
        isTieredCode (CouponView.code c) = false) ->
    autoApplyPass env (autoApplyPass env p) = autoApplyPass env p.
Proof.
  intros env p Hn He Hs Hf. unfold autoApplyPass at 2 3.
  destruct (cart p) as [| item rest] eqn:C.
  - unfold autoApplyPass. now rewrite C.
  - unfold checkAutoApply, navigationStep. rewrite Hn.
    set (P := tieredStep env p (firstOrderStep env p p)).
    assert (CP : cart P = cart p).
    { unfold P. rewrite (proj1 (tieredStep_frame _ _ _)).
      apply firstOrderStep_frame. }
    unfold autoApplyPass. rewrite CP, C.
    unfold checkAutoApply, navigationStep. rewrite Hn.
    pose proof (firstOrderStep_settled env He Hs Hf p) as F.
    pose proof (tieredStep_settled env He Hs Hf p) as T.
    cbv zeta in F, T. fold P in F, T. rewrite F. exact T.
Qed.

Lemma sampleEnv_answers (user : ReqUser.t) (code : string) (total : number)
    (v : CouponView.t) :
  validate (sampleEnv user) code total = Valid v ->
  CouponView.code v = toUpperCase code.
Proof. apply validateCoupon_code. Qed.

Lemma sampleEnv_store_upper (user : ReqUser.t) (c : CouponView.t) :
  In c (storeCoupons (sampleEnv user)) ->
  toUpperCase (CouponView.code c) = CouponView.code c.
Proof.
  intro I. simpl in I.
  destruct I as [<- | [<- | [<- | [<- | [<- | []]]]]]; reflexivity.
Qed.

Lemma sampleEnv_first_order (user : ReqUser.t) (c : CouponView.t) :
  In c (storeCoupons (sampleEnv user)) -> CouponView.type c = FIRST_ORDER ->
  isTieredCode (CouponView.code c) = false.
Proof.
  intros I T. simpl in I.
  destruct I as [<- | [<- | [<- | [<- | [<- | []]]]]];
    try discriminate T; reflexivity.
Qed.

Lemma effect_settles_after_one_run_witness :
  codesOf (appliedCoupons
             (autoApplyPass (sampleEnv alice)
                (initialPage (oneLine 8200 1 None))))
  = ["WELCOME"; "NEPAL100"]
  /\ run (sampleEnv alice) [EffectRuns; EffectRuns]
         (initialPage (oneLine 8200 1 None))
     = run (sampleEnv alice) [EffectRuns] (initialPage (oneLine 8200 1 None)).
Proof.
  split; [ reflexivity | ].
  apply (effect_settles_after_one_run (sampleEnv alice)
           (initialPage (oneLine 8200 1 None)) eq_refl
           (sampleEnv_answers alice) (sampleEnv_store_upper alice)
           (sampleEnv_first_order alice)).
Defined.

(** X23.  Cart edits, coupon removals and runs of the effect never bring
    in a second tiered coupon: when nothing is handed over by navigation
    and no first-order coupon of the store validates to a tier code, any
    sequence of events without a manual apply leaves at most one tiered
    coupon applied if at most one was applied before. *)
Theorem tiers_stay_exclusive_without_manual_apply :
  forall (env : Env) (es : list Event) (p : Page),
    navAutoApply env = None ->
    (forall (c : CouponView.t) (total : number) (v : CouponView.t),
        In c (storeCoupons env) ->
        CouponView.type c = FIRST_ORDER ->
        validate env (CouponView.code c) total = Valid v ->
        isTieredCode (CouponView.code v) = false) ->
    forallb (fun e => negb (isManualApply e)) es = true ->
    (tieredCount (appliedCoupons p) <= 1)%nat ->
    (tieredCount (appliedCoupons (run env es p)) <= 1)%nat.
Proof.
  intros env es p Hn Hf. revert p. unfold run.
  induction es as [| e rest IH]; intros p A H; simpl.
  - exact H.
  - simpl in A. apply andb_true_iff in A. destruct A as [A1 A2].
    apply IH; [ exact A2 | ].
    apply (handle_at_most_one env Hn Hf); [ | exact H ].
    now apply negb_true_iff.
Qed.

Lemma tiers_stay_exclusive_without_manual_apply_witness :
  (tieredCount
     (appliedCoupons
        (run (sampleEnv alice)
             [EffectRuns; ClickPlus (mkCartItem "p1" 2100 1 100 None);
              EffectRuns; ClickPlus (mkCartItem "p1" 2100 2 100 None);
              ClickPlus (mkCartItem "p1" 2100 3 100 None); EffectRuns;
              ClickRemoveCoupon "WELCOME"]
             (initialPage (oneLine 2100 1 None)))) <= 1)%nat.
Proof.
  apply (tiers_stay_exclusive_without_manual_apply (sampleEnv alice) _ _ eq_refl).
  - intros c total v I T V.
    pose proof (sampleEnv_answers alice _ _ _ V) as K.
    rewrite (sampleEnv_store_upper alice c I) in K. rewrite K.
    now apply (sampleEnv_first_order alice).
  - reflexivity.
  - cbn. lia.
Defined.

(* ------------------------------------------------------------------ *)
(** ** The category list and the status of an order *)

Lemma includes_In (x : string) (xs : list string) :
  includes x xs = true <-> In x xs.
Proof.
  unfold includes. rewrite existsb_exists. split.
  - intros [y [I E]]. apply String.eqb_eq in E. now subst.
  - intro I. exists x. split; [ exact I | apply String.eqb_refl ].
Qed.

Lemma distinct_In (seen xs : list string) (x : string) :
  In x (distinct seen xs) <-> In x xs /\ ~ In x seen.
Proof.
  revert seen. induction xs as [| y rest IH]; intro seen; simpl.
  - tauto.
  - destruct (includes y seen) eqn:E.
    + apply includes_In in E. rewrite IH. split.
      * tauto.
      * intros [[-> | I] N]; tauto.
    + assert (N : ~ In y seen)
        by (intro I; apply includes_In in I; congruence).
      simpl. rewrite IH. simpl. split.
      * intros [-> | [I M]]; tauto.
      * intros [[-> | I] M]; [ now left | ].
        destruct (string_dec y x) as [-> | D]; [ now left | right; tauto ].
Qed.

Lemma distinct_NoDup (seen xs : list string) : NoDup (distinct seen xs).
Proof.
  revert seen. induction xs as [| y rest IH]; intro seen; simpl.
  - constructor.
  - destruct (includes y seen); [ apply IH | ].
    constructor; [ | apply IH ].
    rewrite distinct_In. simpl. tauto.
Qed.

Lemma insertSorted_In (x y : string) (xs : list string) :
  In y (insertSorted x xs) <-> y = x \/ In y xs.
Proof.
  induction xs as [| z rest IH]; simpl.
  - intuition.
  - destruct (String.leb x z); simpl; [ intuition | ].
    rewrite IH. intuition.
Qed.

Lemma insertSorted_NoDup (x : string) (xs : list string) :
  ~ In x xs -> NoDup xs -> NoDup (insertSorted x xs).
Proof.
  induction xs as [| z rest IH]; simpl; intros I N.
  - constructor; [ tauto | constructor ].
  - inversion N as [| ? ? Nz Nr]; subst.
    destruct (String.leb x z).
    + constructor; [ simpl; tauto | exact N ].
    + constructor.
      * rewrite insertSorted_In. intuition.
      * apply IH; tauto.
Qed.

Lemma insertSorted_Sorted (x : string) (xs : list string) :
  Sorted.Sorted (fun a b => String.leb a b = true) xs ->
  Sorted.Sorted (fun a b => String.leb a b = true) (insertSorted x xs).
Proof.
  induction xs as [| z rest IH]; simpl; intro S.
  - repeat constructor.
  - inversion S as [| ? ? Sr Hd]; subst.
    destruct (String.leb x z) eqn:E.
    + constructor; [ exact S | constructor; exact E ].
    + constructor; [ now apply IH | ].
      assert (Z : String.leb z x = true)
        by (destruct (String.leb_total x z); congruence).
      destruct rest as [| w rest']; simpl.
      * constructor. exact Z.
      * destruct (String.leb x w); constructor;
          [ exact Z | inversion Hd; assumption ].
Qed.

Lemma sortStrings_In (xs : list string) (y : string) :
  In y (sortStrings xs) <-> In y xs.
Proof.
  unfold sortStrings. induction xs as [| x rest IH]; simpl; [ tauto | ].
  rewrite insertSorted_In, IH. intuition.
Qed.

Lemma sortStrings_NoDup (xs : list string) : NoDup xs -> NoDup (sortStrings xs).
Proof.
  unfold sortStrings. induction xs as [| x rest IH]; simpl; intro N.
  - constructor.
  - inversion N; subst. apply insertSorted_NoDup; [ | now apply IH ].
    fold (sortStrings rest). now rewrite sortStrings_In.
Qed.

Lemma sortStrings_Sorted (xs : list string) :
  Sorted.Sorted (fun a b => String.leb a b = true) (sortStrings xs).
Proof.
  unfold sortStrings. induction xs as [| x rest IH]; simpl.
  - constructor.
  - now apply insertSorted_Sorted.
Qed.

(** X24.  The category list holds exactly the non-empty categories of the
    products, each once, in ascending order; products without a category
    contribute nothing. *)
Theorem unique_categories_are_sorted_and_distinct :
  forall (products : list ShopProduct.t),
    (forall c : string,
        In c (getUniqueCategories products)
        <-> c <> EmptyString
            /\ exists p, In p products /\ ShopProduct.category p = c)
    /\ NoDup (getUniqueCategories products)
    /\ Sorted.Sorted (fun a b => String.leb a b = true)
                     (getUniqueCategories products).
Proof.
  intro products. unfold getUniqueCategories. split; [ | split ].
  - intro c. rewrite sortStrings_In, distinct_In, filter_In, in_map_iff.
    split.
    + intros [[[p [E I]] T] _]. split.
      * intro Z. subst c. rewrite Z in T. discriminate.
      * exists p. tauto.
    + intros [Ne [p [I E]]]. split; [ | simpl; tauto ].
      split; [ exists p; tauto | now apply truthy_some ].
  - apply sortStrings_NoDup, distinct_NoDup.
  - apply sortStrings_Sorted.
Qed.

Lemma unique_categories_are_sorted_and_distinct_witness :
  getUniqueCategories shelf = ["Dairy"; "Fruits"; "Grains"]
  /\ In "Fruits" (getUniqueCategories shelf).
Proof.
  split; [ reflexivity | ].
  apply (proj1 (unique_categories_are_sorted_and_distinct shelf)).
  split; [ discriminate | ].
  exists (ShopProduct.mk "Apple" "Fruits"). split; [ | reflexivity ].
  simpl. tauto.
Defined.

Lemma setStatus_keeps (orderId : Z) (status : string) (os : list Order.t) :
  map (fun o => (Order.orderId o, Order.user o, Order.items o,
                 Order.totalAmount o, Order.discountApplied o,
                 Order.deliveryCharge o, Order.finalAmount o))
      (setStatus orderId status os)
  = map (fun o => (Order.orderId o, Order.user o, Order.items o,
                   Order.totalAmount o, Order.discountApplied o,
                   Order.deliveryCharge o, Order.finalAmount o)) os.
Proof.
  induction os as [| o rest IH]; simpl; [ reflexivity | ].
  destruct (Order.orderId o =? orderId)%Z; simpl; [ reflexivity | ].
  now rewrite IH.
Qed.

Lemma setStatus_unknown (orderId : Z) (status : string) (os : list Order.t) :
  (forall o, In o os -> Order.orderId o <> orderId) ->
  setStatus orderId status os = os.
Proof.
  induction os as [| o rest IH]; simpl; intro H; [ reflexivity | ].
  destruct (Order.orderId o =? orderId)%Z eqn:E.
  - apply Z.eqb_eq in E. exfalso. apply (H o); tauto.
  - rewrite IH; [ reflexivity | ]. intros x I. apply H. tauto.
Qed.

Lemma setStatus_known (orderId : Z) (status : string) (os : list Order.t) :
  (exists o, In o os /\ Order.orderId o = orderId) ->
  exists o, In o (setStatus orderId status os)
            /\ Order.orderId o = orderId /\ Order.status o = status.
Proof.
  induction os as [| o rest IH]; simpl; intros [x [I E]]; [ contradiction | ].
  destruct (Order.orderId o =? orderId)%Z eqn:Q.
  - apply Z.eqb_eq in Q. eexists. split; [ left; reflexivity | ].
    split; [ exact Q | reflexivity ].
  - destruct I as [-> | I]; [ apply Z.eqb_neq in Q; contradiction | ].
    destruct IH as [y [Iy Hy]]; [ exists x; split; assumption | ].
    exists y. split; [ right; exact Iy | exact Hy ].
Qed.

(** X25.  A status update changes no id, owner, item list or amount of
    any order, adds or removes no order and touches no coupon, product or
    user; an order with the id then carries the new status, whatever the
    string; and for an id that no order carries the database is left as
    it was. *)
Theorem status_update_touches_status_only :
  forall (db : Database) (orderId : Z) (status : string),
    map (fun o => (Order.orderId o, Order.user o, Order.items o,
                   Order.totalAmount o, Order.discountApplied o,
                   Order.deliveryCharge o, Order.finalAmount o))
        (orders (updateOrderStatus db orderId status))
    = map (fun o => (Order.orderId o, Order.user o, Order.items o,
                     Order.totalAmount o, Order.discountApplied o,
                     Order.deliveryCharge o, Order.finalAmount o))
          (orders db)
    /\ coupons (updateOrderStatus db orderId status) = coupons db
    /\ products (updateOrderStatus db orderId status) = products db
    /\ users (updateOrderStatus db orderId status) = users db
    /\ ((exists o, In o (orders db) /\ Order.orderId o = orderId) ->
        exists o, In o (orders (updateOrderStatus db orderId status))
                  /\ Order.orderId o = orderId /\ Order.status o = status)
    /\ ((forall o, In o (orders db) -> Order.orderId o <> orderId) ->
        updateOrderStatus db orderId status = db).
Proof.
  intros db oid st. unfold updateOrderStatus. cbn [orders coupons products users].
  split; [ apply setStatus_keeps | ].
  split; [ reflexivity | ]. split; [ reflexivity | ]. split; [ reflexivity | ].
  split; [ apply setStatus_known | ].
  intro H. rewrite (setStatus_unknown _ _ _ H). now destruct db.
Qed.

Lemma status_update_touches_status_only_witness :
  map Order.status
      (orders (updateOrderStatus databaseAfterBobsOrder 1690000000000 "Delivered"))
  = ["Delivered"]
  /\ updateOrderStatus databaseAfterBobsOrder 42 "Delivered"
     = databaseAfterBobsOrder.
Proof.
  split; [ reflexivity | ].
  apply (status_update_touches_status_only databaseAfterBobsOrder 42 "Delivered").
  intros o [<- | []]. discriminate.
Defined.
